(** * Experimento-Computacional: busca em range vs dict, e estatisticas

    A shallow embedding of the Python sources

      - [experimento_busca.py]      (structure factory, timed probes,
                                     descriptive statistics, block runner)
      - [analise_resultados.py]     ([descriptive_stats], [welch_ttest])
      - [calcular_estatisticas.py]  (the script computing [t_stat])

    Modelling conventions.

      - A Python [int] is a [Z].
      - A Python [float] is a real number ([R]): binary64 rounding and
        overflow are not modelled, so every statement below about a float
        result is a statement about the exact value of the expression the
        code evaluates.  Where the code can produce the special values of
        IEEE arithmetic (numpy scalars never raise on a division by zero),
        the type [npfloat] adds [NaN] and the two infinities to [R].
      - Where rounding decides, [calcular_estatisticas_simples] is also
        evaluated in binary64 itself ([B64], on primitive floats).  A
        statement on the exact model that compares floats returned by the
        code either bounds the integers so that no operation involved
        rounds, or is limited to the fields that do not depend on a
        rounding.
      - A Python exception is a value of [exn]; a fallible computation
        returns a [result].
      - The clock and the random generator are oracles indexed by the number
        of calls made so far; the block runner threads a [World] that counts
        those calls and records the structures built. *)

From Stdlib Require Import PrimFloat SpecFloat FloatOps.
From Stdlib Require Import ZArith List Reals Lra Lia String Permutation Sorted.
From stdpp Require Import gmap.

Local Open Scope Z_scope.

(** ** Exceptions and fallible results *)

Inductive exn : Type :=
| ValueError (msg : string)
| ZeroDivisionError
| IndexError
| OverflowError.

Inductive result (A : Type) : Type :=
| Ok (a : A)
| Raise (e : exn).

Arguments Ok {A} a.
Arguments Raise {A} e.

#[global] Instance result_ret : MRet result := fun A a => Ok a.
#[global] Instance result_bind : MBind result := fun A B f m =>
  match m with
  | Ok a => f a
  | Raise e => Raise e
  end.

Definition is_ok {A} (r : result A) : Prop := exists a, r = Ok a.
Definition is_raise {A} (r : result A) : Prop := exists e, r = Raise e.

(** ** Built-ins on lists of integers *)

(** [sum(valores)]: a left fold starting from the integer 0. *)
Definition py_sum (l : list Z) : Z := fold_left Z.add l 0.

(** [sum(f(x) for x in valores)] for a float-valued generator. *)
Definition py_fsum (l : list R) : R := fold_left Rplus l 0%R.

(** [min(valores)] and [max(valores)]; both raise on an empty argument. *)
Definition py_min (l : list Z) : result Z :=
  match l with
  | [] => Raise (ValueError "min() arg is an empty sequence")
  | x :: t => Ok (fold_left Z.min t x)
  end.

Definition py_max (l : list Z) : result Z :=
  match l with
  | [] => Raise (ValueError "max() arg is an empty sequence")
  | x :: t => Ok (fold_left Z.max t x)
  end.

(** [sorted(valores)]: a new list, ascending.  Any sorting algorithm returns
    the same list of integers; insertion sort is used here. *)
Fixpoint insert_sorted (x : Z) (l : list Z) : list Z :=
  match l with
  | [] => [x]
  | y :: t => if x <=? y then x :: l else y :: insert_sorted x t
  end.

Fixpoint sorted (l : list Z) : list Z :=
  match l with
  | [] => []
  | x :: t => insert_sorted x (sorted t)
  end.

(** [arr[i]] on a list: negative indices count from the end, anything out of
    range raises [IndexError]. *)
Definition getitem (arr : list Z) (i : Z) : result Z :=
  let len := Z.of_nat (length arr) in
  let j := if i <? 0 then i + len else i in
  if (0 <=? j) && (j <? len) then
    match nth_error arr (Z.to_nat j) with
    | Some v => Ok v
    | None => Raise IndexError
    end
  else Raise IndexError.

(** [int(x)] on a float truncates toward zero. *)
Definition int_of_float (x : R) : Z :=
  if Rle_dec 0 x then Int_part x else - Int_part (- x).

(** [math.sqrt(x)] raises on a negative argument. *)
Definition math_sqrt (x : R) : result R :=
  if Rlt_dec x 0 then Raise (ValueError "math domain error") else Ok (sqrt x).

(** ** Descriptive statistics of [experimento_busca.py] *)

(** [Estatisticas = Dict[str, float]], always built by the same literal: the
    eight keys become the fields of a record, [items] lists them the way
    [stats.items()] does. *)
Module Est.
Record t : Type := mk {
    n : R;
    media : R;
    mediana : R;
    pstdev : R;
    q1 : R;
    q3 : R;
    min : R;
    max : R
  }.

Definition items (s : t) : list (string * R) :=
    [("n", n s); ("media", media s); ("mediana", mediana s);
     ("pstdev", pstdev s); ("q1", q1 s); ("q3", q3 s);
     ("min", min s); ("max", max s)]%string.
End Est.

(** The nested function [quantil]; [n] is the [len(valores)] it closes over. *)
Definition quantil (n : Z) (sorted_arr : list Z) (q : R) : result R :=
  let pos := (q * IZR (n - 1))%R in
  let lo := int_of_float pos in
  let hi := Z.min (lo + 1) (n - 1) in
  let frac := (pos - IZR lo)%R in
  a ← getitem sorted_arr lo;
  b ← getitem sorted_arr hi;
  mret (IZR a * (1 - frac) + IZR b * frac)%R.

Definition calcular_estatisticas_simples (valores : list Z) : result Est.t :=
  let n := Z.of_nat (length valores) in
  if n =? 0 then
    Raise (ValueError "Lista de valores vazia para cálculo estatístico.")
  else
    let s := py_sum valores in
    let mean := (IZR s / IZR n)%R in
    let ssd := py_fsum (map (fun x => (IZR x - mean) ^ 2)%R valores) in
    pstdev ← math_sqrt (ssd / IZR n);
    minimo ← py_min valores;
    maximo ← py_max valores;
    let sorted_vals := sorted valores in
    mediana ← quantil n sorted_vals 0.5%R;
    q1 ← quantil n sorted_vals 0.25%R;
    q3 ← quantil n sorted_vals 0.75%R;
    mret {| Est.n := IZR n;
            Est.media := mean;
            Est.mediana := mediana;
            Est.pstdev := pstdev;
            Est.q1 := q1;
            Est.q3 := q3;
            Est.min := IZR minimo;
            Est.max := IZR maximo |}.

(** ** Floats with the IEEE special values

    numpy scalars never raise on a division by zero: they return an infinity
    or NaN.  [npfloat] is [R] extended with those values.  Every zero divisor
    met in the code below is a non-negative quantity (a length, a variance, a
    square root), so the sign of zero is not tracked. *)

Inductive npfloat : Type :=
| Fin (x : R)
| PInf
| NInf
| NaN.

Definition np_sign_inf (x : R) : npfloat :=
  if Req_dec_T x 0 then NaN else if Rlt_dec 0 x then PInf else NInf.

Definition np_neg (a : npfloat) : npfloat :=
  match a with
  | Fin x => Fin (- x)
  | PInf => NInf
  | NInf => PInf
  | NaN => NaN
  end.

Definition np_abs (a : npfloat) : npfloat :=
  match a with
  | Fin x => Fin (Rabs x)
  | PInf | NInf => PInf
  | NaN => NaN
  end.

Definition np_add (a b : npfloat) : npfloat :=
  match a, b with
  | NaN, _ | _, NaN => NaN
  | Fin x, Fin y => Fin (x + y)
  | PInf, NInf | NInf, PInf => NaN
  | PInf, _ | _, PInf => PInf
  | NInf, _ | _, NInf => NInf
  end.

Definition np_sub (a b : npfloat) : npfloat := np_add a (np_neg b).

Definition np_mul (a b : npfloat) : npfloat :=
  match a, b with
  | NaN, _ | _, NaN => NaN
  | Fin x, Fin y => Fin (x * y)
  | Fin x, PInf | PInf, Fin x => np_sign_inf x
  | Fin x, NInf | NInf, Fin x => np_neg (np_sign_inf x)
  | PInf, PInf | NInf, NInf => PInf
  | PInf, NInf | NInf, PInf => NInf
  end.

Definition np_div (a b : npfloat) : npfloat :=
  match a, b with
  | NaN, _ | _, NaN => NaN
  | Fin x, Fin y => if Req_dec_T y 0 then np_sign_inf x else Fin (x / y)
  | Fin _, PInf | Fin _, NInf => Fin 0
  | PInf, Fin y => if Rlt_dec y 0 then NInf else PInf
  | NInf, Fin y => if Rlt_dec y 0 then PInf else NInf
  | PInf, PInf | PInf, NInf | NInf, PInf | NInf, NInf => NaN
  end.

(** [x ** 2] *)
Definition np_sq (a : npfloat) : npfloat := np_mul a a.

Definition np_of_int (z : Z) : npfloat := Fin (IZR z).

Definition is_finite (a : npfloat) : Prop := exists x, a = Fin x.

(** [a <= b]: false as soon as one side is NaN. *)
Definition np_le (a b : npfloat) : Prop :=
  match a, b with
  | NaN, _ | _, NaN => False
  | Fin x, Fin y => (x <= y)%R
  | NInf, _ | _, PInf => True
  | PInf, _ | _, NInf => False
  end.

(** [math.sqrt] applied to a float that may be special. *)
Definition math_sqrt_np (a : npfloat) : result npfloat :=
  match a with
  | Fin x => x' ← math_sqrt x; mret (Fin x')
  | PInf => Ok PInf
  | NInf => Raise (ValueError "math domain error")
  | NaN => Ok NaN
  end.

(** Python's own [/] on floats raises where numpy returns a special value. *)
Definition py_div (a b : npfloat) : result npfloat :=
  match b with
  | Fin y => if Req_dec_T y 0 then Raise ZeroDivisionError else Ok (np_div a b)
  | _ => Ok (np_div a b)
  end.

(** ** The numpy reductions used by the analysis scripts

    numpy is an external library; these follow its documented results on a
    one-dimensional array of integers (converted to float64 by the
    reduction), including what it returns on an empty array. *)

Definition arr_sum (a : list Z) : R := py_fsum (map IZR a).

(** squared deviations from [m], summed *)
Definition arr_ssd (a : list Z) (m : R) : R :=
  py_fsum (map (fun x => (IZR x - m) ^ 2)%R a).

(** [np.mean(a)]: NaN (with a warning) on an empty array. *)
Definition np_mean (a : list Z) : npfloat :=
  np_div (Fin (arr_sum a)) (np_of_int (Z.of_nat (length a))).

(** [np.var(a, ddof=d)]: the sum of squared deviations over
    [max(len(a) - d, 0)]; NaN when that divisor is zero. *)
Definition np_var (a : list Z) (ddof : Z) : npfloat :=
  match np_mean a with
  | Fin m =>
      np_div (Fin (arr_ssd a m))
             (np_of_int (Z.max (Z.of_nat (length a) - ddof) 0))
  | _ => NaN
  end.

Definition np_sqrt (a : npfloat) : npfloat :=
  match a with
  | Fin x => if Rlt_dec x 0 then NaN else Fin (sqrt x)
  | PInf => PInf
  | NInf | NaN => NaN
  end.

(** [np.std(a, ddof=d)] *)
Definition np_std (a : list Z) (ddof : Z) : npfloat := np_sqrt (np_var a ddof).

Definition nthZ (l : list Z) (i : Z) : Z := nth (Z.to_nat i) l 0.

(** [np.quantile(a, q)] with the default method ("linear"): the value at the
    virtual index [q * (len(a) - 1)] of the sorted array, interpolated
    between its two neighbours.  On an empty array it is modelled as NaN
    (numpy releases differ there: some raise [IndexError] instead). *)
Definition np_quantile (a : list Z) (q : R) : npfloat :=
  match a with
  | [] => NaN
  | _ =>
      let s := sorted a in
      let n := Z.of_nat (length a) in
      let pos := (q * IZR (n - 1))%R in
      let lo := Int_part pos in
      let hi := Z.min (lo + 1) (n - 1) in
      let g := (pos - IZR lo)%R in
      Fin (IZR (nthZ s lo) + (IZR (nthZ s hi) - IZR (nthZ s lo)) * g)%R
  end.

(** [np.percentile(a, p)] is [np.quantile(a, p / 100)]. *)
Definition np_percentile (a : list Z) (p : R) : npfloat :=
  np_quantile a (p / 100)%R.

(** [np.median(a)]: the middle element, or the mean of the two middle ones. *)
Definition np_median (a : list Z) : npfloat :=
  match a with
  | [] => NaN
  | _ =>
      let s := sorted a in
      let n := Z.of_nat (length a) in
      if Z.odd n then Fin (IZR (nthZ s (n / 2)))
      else Fin ((IZR (nthZ s (n / 2 - 1)) + IZR (nthZ s (n / 2))) / 2)%R
  end.

(** [np.min(a)], [np.max(a)]: a [ValueError] on an empty array. *)
Definition np_min (a : list Z) : result Z :=
  match a with
  | [] => Raise (ValueError
      "zero-size array to reduction operation minimum which has no identity")
  | x :: t => Ok (fold_left Z.min t x)
  end.

Definition np_max (a : list Z) : result Z :=
  match a with
  | [] => Raise (ValueError
      "zero-size array to reduction operation maximum which has no identity")
  | x :: t => Ok (fold_left Z.max t x)
  end.

(** ** [analise_resultados.py] *)

(** The [OrderedDict] returned by [descriptive_stats]. *)
Module Desc.
Record t : Type := mk {
    n : Z;
    mean : npfloat;
    median : npfloat;
    std_pop : npfloat;
    std_sample : npfloat;
    q1 : npfloat;
    q3 : npfloat;
    min : npfloat;
    max : npfloat
  }.

Definition keys : list string :=
    ["n"; "mean"; "median"; "std_pop"; "std_sample"; "q1"; "q3"; "min";
     "max"]%string.
End Desc.

Definition descriptive_stats (arr : list Z) : result Desc.t :=
  let n := Z.of_nat (length arr) in
  let mean := np_mean arr in
  let median := np_median arr in
  let std_pop := np_std arr 0 in
  let std_sample := np_std arr 1 in
  let q1 := np_percentile arr 25 in
  let q3 := np_percentile arr 75 in
  mn ← np_min arr;
  mx ← np_max arr;
  mret {| Desc.n := n;
          Desc.mean := mean;
          Desc.median := median;
          Desc.std_pop := std_pop;
          Desc.std_sample := std_sample;
          Desc.q1 := q1;
          Desc.q3 := q3;
          Desc.min := np_of_int mn;
          Desc.max := np_of_int mx |}.

(** The dict returned by [welch_ttest]. *)
Module Welch.
Record t : Type := mk {
    t_ : npfloat;
    df : npfloat;
    p_two : option npfloat;
    p_left : option npfloat;
    p_right : option npfloat
  }.
End Welch.

Section Scipy.
  (** [scipy.stats.t.sf] and [scipy.stats.t.cdf]: the survival and
      distribution functions of Student's t, external to the repository. *)
Variable t_sf : npfloat -> npfloat -> npfloat.
Variable t_cdf : npfloat -> npfloat -> npfloat.

  (** [welch_ttest], on the branch where pandas, numpy and scipy were
      imported ([SCIPY = True]); without them [np] itself is unbound. *)
Definition welch_ttest (x y : list Z) : result Welch.t :=
    let n1 := Z.of_nat (length x) in
    let n2 := Z.of_nat (length y) in
    let m1 := np_mean x in
    let m2 := np_mean y in
    let s1 := np_var x 1 in
    let s2 := np_var y 1 in
    let se2 := np_add (np_div s1 (np_of_int n1)) (np_div s2 (np_of_int n2)) in
    se ← math_sqrt_np se2;
    let t := np_div (np_sub m1 m2) se in
    let df :=
      np_div (np_sq se2)
        (np_add (np_div (np_sq s1) (np_of_int (n1 ^ 2 * (n1 - 1))))
                (np_div (np_sq s2) (np_of_int (n2 ^ 2 * (n2 - 1))))) in
    let p_two := np_mul (Fin 2) (t_sf (np_abs t) df) in
    mret {| Welch.t_ := t;
            Welch.df := df;
            Welch.p_two := Some p_two;
            Welch.p_left := None;
            Welch.p_right := None |}.
End Scipy.

(** ** [calcular_estatisticas.py] *)

(** The dict returned by [resumo]. *)
Module Resumo.
Record t : Type := mk {
    n : Z;
    mean : npfloat;
    median : npfloat;
    std_pop : npfloat;
    q1 : npfloat;
    q3 : npfloat;
    min : Z;
    max : Z
  }.
End Resumo.

Definition resumo (v : list Z) : result Resumo.t :=
  let n := Z.of_nat (length v) in
  let mean := np_mean v in
  let median := np_median v in
  let std_pop := np_std v 0 in
  let q1 := np_quantile v 0.25%R in
  let q3 := np_quantile v 0.75%R in
  mn ← np_min v;
  mx ← np_max v;
  mret {| Resumo.n := n;
          Resumo.mean := mean;
          Resumo.median := median;
          Resumo.std_pop := std_pop;
          Resumo.q1 := q1;
          Resumo.q3 := q3;
          Resumo.min := mn;
          Resumo.max := mx |}.

(** What the script prints. *)
Module Script.
Record t : Type := mk {
    res_lista : Resumo.t;
    res_dict : Resumo.t;
    t_stat : npfloat;
    df : npfloat;
    p_two : npfloat;
    p_left : npfloat;
    p_right : npfloat
  }.
End Script.

Section ScipyScript.
  (** [student_t.sf] and [student_t.cdf] *)
Variable student_t_sf : npfloat -> npfloat -> npfloat.
Variable student_t_cdf : npfloat -> npfloat -> npfloat.

  (** The whole script, from the rows [(valor, tempo_lista_ns, tempo_dict_ns)]
      of the CSV file to the printed values.  Here the operands are Python
      floats, so a zero divisor raises. *)
Definition calcular_estatisticas (rows : list (Z * Z * Z))
    : result Script.t :=
    let tempos_lista := map (fun row => snd (fst row)) rows in
    let tempos_dict := map (fun row => snd row) rows in
    res_lista ← resumo tempos_lista;
    res_dict ← resumo tempos_dict;
    let mx := Resumo.mean res_lista in
    let my := Resumo.mean res_dict in
    let vx := np_sq (Resumo.std_pop res_lista) in
    let vy := np_sq (Resumo.std_pop res_dict) in
    let nx := Resumo.n res_lista in
    let ny := Resumo.n res_dict in
    vxn ← py_div vx (np_of_int nx);
    vyn ← py_div vy (np_of_int ny);
    se ← math_sqrt_np (np_add vxn vyn);
    t_stat ← py_div (np_sub mx my) se;
    dx ← py_div (np_mul vx vx) (np_of_int (nx * nx * (nx - 1)));
    dy ← py_div (np_mul vy vy) (np_of_int (ny * ny * (ny - 1)));
    df ← py_div (np_sq (np_add vxn vyn)) (np_add dx dy);
    let p_two := np_mul (Fin 2) (student_t_sf (np_abs t_stat) df) in
    let p_left := student_t_cdf t_stat df in
    let p_right := np_sub (Fin 1) p_left in
    mret {| Script.res_lista := res_lista;
            Script.res_dict := res_dict;
            Script.t_stat := t_stat;
            Script.df := df;
            Script.p_two := p_two;
            Script.p_left := p_left;
            Script.p_right := p_right |}.
End ScipyScript.

(** ** Structure factory of [experimento_busca.py] *)

(** A [range] object. *)
Record range : Type := mk_range { start : Z; stop : Z; step : Z }.

(** [range(n)] *)
Definition range_of (n : Z) : range := {| start := 0; stop := n; step := 1 |}.

(** [v in r] for an integer [v] and a range of positive step. *)
Definition range_contains (v : Z) (r : range) : bool :=
  (start r <=? v) && (v <? stop r) && ((v - start r) mod step r =? 0).

(** The integers a range of step 1 yields when iterated. *)
Definition range_iter (r : range) : list Z := seqZ (start r) (stop r - start r).

(** [dict.fromkeys(keys, value)] *)
Definition dict_fromkeys (keys : list Z) (value : bool) : gmap Z bool :=
  list_to_map ((fun k => (k, value)) <$> keys).

(** [v in d] for a dict *)
Definition dict_contains (v : Z) (d : gmap Z bool) : bool :=
  bool_decide (is_Some (d !! v)).

Definition criar_estruturas (num_elementos : Z) : result (range * gmap Z bool) :=
  let lista_range := range_of num_elementos in
  let dicionario := dict_fromkeys (range_iter (range_of num_elementos)) true in
  Ok (lista_range, dicionario).

(** ** The block runner *)

(** What the run has done to its environment so far. *)
Record World : Type := mk_world {
  clock_reads : nat;        (* calls of [time.perf_counter_ns] *)
  rand_draws : nat;         (* calls of [random.randint] *)
  estruturas : list Z       (* sizes passed to [criar_estruturas] *)
}.

Definition world0 : World :=
  {| clock_reads := 0; rand_draws := 0; estruturas := [] |}.

(** A computation that may raise and that acts on the world. *)
Definition M (A : Type) : Type := World -> result A * World.

#[global] Instance M_ret : MRet M := fun A a w => (Ok a, w).
#[global] Instance M_bind : MBind M := fun A B f m w =>
  match m w with
  | (Ok a, w') => f a w'
  | (Raise e, w') => (Raise e, w')
  end.

Definition raise {A} (e : exn) : M A := fun w => (Raise e, w).
Definition lift {A} (r : result A) : M A := fun w => (r, w).

(** [Amostra = Tuple[int, int, int]] *)
Definition Amostra : Type := Z * Z * Z.

(** [BlocoStats]: the dict written as one row of [estatisticas_blocos.csv]. *)
Module Bloco.
Record t : Type := mk {
    bloco : Z;
    n : R;
    lista_media : R;
    lista_mediana : R;
    lista_pstdev : R;
    lista_q1 : R;
    lista_q3 : R;
    lista_min : R;
    lista_max : R;
    dict_media : R;
    dict_mediana : R;
    dict_pstdev : R;
    dict_q1 : R;
    dict_q3 : R;
    dict_min : R;
    dict_max : R
  }.
End Bloco.

(** The collections the runner hands to its three [salvar_*] functions. *)
Module Saida.
Record t : Type := mk {
    tempos_lista : list Z;
    tempos_dict : list Z;
    amostras : list Amostra;
    estatisticas_blocos : list Bloco.t;
    stats_glob_lista : Est.t;
    stats_glob_dict : Est.t
  }.
End Saida.

Definition UINT32_MAX : Z := 2 ^ 32 - 1.

(** [a.append(v)] on an [array('I')] (4-byte unsigned items): a value that
    does not fit raises [OverflowError]. *)
Definition array_append (a : list Z) (v : Z) : result (list Z) :=
  if (0 <=? v) && (v <=? UINT32_MAX) then Ok (a ++ [v]) else Raise OverflowError.

Section Runner.
  (** [perf_counter_ns k]: the value of the [k]-th clock reading of the run.
      [randint k a b]: the value of the [k]-th call of [random.randint],
      made with bounds [a] and [b]. *)
Variable perf_counter_ns : nat -> Z.
Variable randint : nat -> Z -> Z -> Z.

Definition time_perf_counter_ns : M Z := fun w =>
    (Ok (perf_counter_ns (clock_reads w)),
     {| clock_reads := S (clock_reads w);
        rand_draws := rand_draws w;
        estruturas := estruturas w |}).

Definition random_randint (a b : Z) : M Z := fun w =>
    if b <? a then (Raise (ValueError "empty range for randrange()"), w)
    else
      (Ok (randint (rand_draws w) a b),
       {| clock_reads := clock_reads w;
          rand_draws := S (rand_draws w);
          estruturas := estruturas w |}).

  (** [criar_estruturas] as called by the runner: the call is recorded. *)
Definition criar_estruturas_call (num_elementos : Z)
    : M (range * gmap Z bool) := fun w =>
    (criar_estruturas num_elementos,
     {| clock_reads := clock_reads w;
        rand_draws := rand_draws w;
        estruturas := estruturas w ++ [num_elementos] |}).

Definition medir_busca_lista (valor : Z) (lista_range : range) : M Z :=
    t0 ← time_perf_counter_ns;
    let _ := range_contains valor lista_range in
    t1 ← time_perf_counter_ns;
    mret (t1 - t0).

Definition medir_busca_dict (valor : Z) (dicionario : gmap Z bool) : M Z :=
    t0 ← time_perf_counter_ns;
    let _ := dict_contains valor dicionario in
    t1 ← time_perf_counter_ns;
    mret (t1 - t0).

Section Config.
    (** The module constants, fixed for a run. *)
Variables NUM_ELEMENTOS NUM_BUSCAS N_BLOCKS TAMANHO_SAMPLE : Z.

    (** The variables the two loops update. *)
Record Coletores : Type := mk_coletores {
      c_tempos_lista : list Z;
      c_tempos_dict : list Z;
      c_amostras : list Amostra;
      c_bloco_lista : list Z;
      c_bloco_dict : list Z
    }.

    (** One iteration of [for i in range(block_size)].  The progress line
        it may print is not modelled. *)
Definition iteracao (lista_range : range) (dicionario : gmap Z bool)
        (c : Coletores) : M Coletores :=
      valor ← random_randint 0 (NUM_ELEMENTOS - 1);
      tl ← medir_busca_lista valor lista_range;
      td ← medir_busca_dict valor dicionario;
      tempos_lista ← lift (array_append (c_tempos_lista c) (Z.min tl (2 ^ 32 - 1)));
      tempos_dict ← lift (array_append (c_tempos_dict c) (Z.min td (2 ^ 32 - 1)));
      let bloco_coletor_lista := c_bloco_lista c ++ [Z.min tl (2 ^ 32 - 1)] in
      let bloco_coletor_dict := c_bloco_dict c ++ [Z.min td (2 ^ 32 - 1)] in
      let amostras :=
        if Z.of_nat (length (c_amostras c)) <? TAMANHO_SAMPLE
        then c_amostras c ++ [(valor, tl, td)]
        else c_amostras c in
      mret {| c_tempos_lista := tempos_lista;
              c_tempos_dict := tempos_dict;
              c_amostras := amostras;
              c_bloco_lista := bloco_coletor_lista;
              c_bloco_dict := bloco_coletor_dict |}.

    (** [for i in range(block_size)], as the number of iterations left. *)
Fixpoint buscas_loop (k : nat) (lista_range : range)
        (dicionario : gmap Z bool) (c : Coletores) : M Coletores :=
      match k with
      | O => mret c
      | S k' =>
          c' ← iteracao lista_range dicionario c;
          buscas_loop k' lista_range dicionario c'
      end.

    (** The dict literal [bloco_stats] of block number [bloco] (from 0). *)
Definition bloco_stats_de (bloco : Z) (stats_l stats_d : Est.t) : Bloco.t :=
      {| Bloco.bloco := bloco + 1;
         Bloco.n := Est.n stats_l;
         Bloco.lista_media := Est.media stats_l;
         Bloco.lista_mediana := Est.mediana stats_l;
         Bloco.lista_pstdev := Est.pstdev stats_l;
         Bloco.lista_q1 := Est.q1 stats_l;
         Bloco.lista_q3 := Est.q3 stats_l;
         Bloco.lista_min := Est.min stats_l;
         Bloco.lista_max := Est.max stats_l;
         Bloco.dict_media := Est.media stats_d;
         Bloco.dict_mediana := Est.mediana stats_d;
         Bloco.dict_pstdev := Est.pstdev stats_d;
         Bloco.dict_q1 := Est.q1 stats_d;
         Bloco.dict_q3 := Est.q3 stats_d;
         Bloco.dict_min := Est.min stats_d;
         Bloco.dict_max := Est.max stats_d |}.

    (** The body of [for bloco in range(N_BLOCKS)]. *)
Definition bloco_body (block_size : Z) (lista_range : range)
        (dicionario : gmap Z bool) (bloco : Z)
        (st : Coletores * list Bloco.t) : M (Coletores * list Bloco.t) :=
      let '(c, estatisticas_blocos) := st in
      let c0 := {| c_tempos_lista := c_tempos_lista c;
                   c_tempos_dict := c_tempos_dict c;
                   c_amostras := c_amostras c;
                   c_bloco_lista := [];
                   c_bloco_dict := [] |} in
      c1 ← buscas_loop (Z.to_nat block_size) lista_range dicionario c0;
      stats_l ← lift (calcular_estatisticas_simples (c_bloco_lista c1));
      stats_d ← lift (calcular_estatisticas_simples (c_bloco_dict c1));
      let bloco_stats := bloco_stats_de bloco stats_l stats_d in
      mret (c1, estatisticas_blocos ++ [bloco_stats]).

    (** [for bloco in range(N_BLOCKS)]: [k] blocks left, starting at [bloco]. *)
Fixpoint blocos_loop (k : nat) (block_size : Z) (lista_range : range)
        (dicionario : gmap Z bool) (bloco : Z)
        (st : Coletores * list Bloco.t) : M (Coletores * list Bloco.t) :=
      match k with
      | O => mret st
      | S k' =>
          st' ← bloco_body block_size lista_range dicionario bloco st;
          blocos_loop k' block_size lista_range dicionario (bloco + 1) st'
      end.

Definition executar_experimento_por_blocos : M Saida.t :=
      if N_BLOCKS <=? 0 then raise (ValueError "N_BLOCKS deve ser >= 1.")
      else if NUM_BUSCAS <=? 0 then raise (ValueError "NUM_BUSCAS deve ser > 0.")
      else if NUM_ELEMENTOS <=? 0 then
        raise (ValueError "NUM_ELEMENTOS deve ser > 0.")
      else if TAMANHO_SAMPLE <? 0 then
        raise (ValueError "TAMANHO_SAMPLE não pode ser negativo.")
      else
        estr ← criar_estruturas_call NUM_ELEMENTOS;
        let '(lista_range, dicionario) := estr in
        let block_size := NUM_BUSCAS / N_BLOCKS in
        let c0 := {| c_tempos_lista := [];
                     c_tempos_dict := [];
                     c_amostras := [];
                     c_bloco_lista := [];
                     c_bloco_dict := [] |} in
        st ← blocos_loop (Z.to_nat N_BLOCKS) block_size lista_range
               dicionario 0 (c0, []);
        let '(c, estatisticas_blocos) := st in
        stats_glob_lista ← lift (calcular_estatisticas_simples (c_tempos_lista c));
        stats_glob_dict ← lift (calcular_estatisticas_simples (c_tempos_dict c));
        mret {| Saida.tempos_lista := c_tempos_lista c;
                Saida.tempos_dict := c_tempos_dict c;
                Saida.amostras := c_amostras c;
                Saida.estatisticas_blocos := estatisticas_blocos;
                Saida.stats_glob_lista := stats_glob_lista;
                Saida.stats_glob_dict := stats_glob_dict |}.

    (** *** The observations of a run

        Every iteration draws once and reads the clock four times, so in a
        run started in [world0] iteration number [j] (from 0, over all the
        blocks) observes the following. *)

    (** the query value *)
Definition valor_at (j : nat) : Z := randint j 0 (NUM_ELEMENTOS - 1).

    (** the raw elapsed time of the range probe *)
Definition tl_at (j : nat) : Z :=
      perf_counter_ns (S (4 * j)) - perf_counter_ns (4 * j).

    (** the raw elapsed time of the dict probe *)
Definition td_at (j : nat) : Z :=
      perf_counter_ns (S (S (S (4 * j)))) - perf_counter_ns (S (S (4 * j))).

    (** [rec] is the record of block number [i] (from 0) of a run with
        blocks of [bs] iterations: the descriptive statistics of the clamped
        times of the iterations [i * bs, ..., i * bs + bs - 1]. *)
Definition is_bloco_record (bs : nat) (i : nat) (rec : Bloco.t) : Prop :=
      exists stats_l stats_d,
        calcular_estatisticas_simples
          (map (fun j => Z.min (tl_at j) UINT32_MAX) (seq (i * bs) bs))
          = Ok stats_l /\
        calcular_estatisticas_simples
          (map (fun j => Z.min (td_at j) UINT32_MAX) (seq (i * bs) bs))
          = Ok stats_d /\
        rec = bloco_stats_de (Z.of_nat i) stats_l stats_d.
End Config.
End Runner.

(** ** [calcular_estatisticas_simples] on list objects

    Python passes [valores] by reference.  To say what the call does to the
    caller's list, the same function is written once more over a store of
    list objects: every built-in it uses is a read, except [sorted], which
    allocates a new list. *)

Module Heap.
Abbreviation loc := nat (only parsing).
Abbreviation store := (gmap nat (list Z)) (only parsing).

  (** A computation over the store, which may raise. *)
Definition H (A : Type) : Type := store -> result A * store.

#[global] Instance H_ret : MRet H := fun A a h => (Ok a, h).
#[global] Instance H_bind : MBind H := fun A B f m h =>
    match m h with
    | (Ok a, h') => f a h'
    | (Raise e, h') => (Raise e, h')
    end.

Definition hraise {A} (e : exn) : H A := fun h => (Raise e, h).

  (** The list a reference points to.  A Python reference always points to
      a live object; an unallocated location reads as the empty list. *)
Definition deref (h : store) (l : loc) : list Z := default [] (h !! l).

  (** A read of the object at [l]. *)
Definition read {A} (f : list Z -> result A) (l : loc) : H A :=
    fun h => (f (deref h l), h).

Definition len (l : loc) : H Z := read (fun v => Ok (Z.of_nat (length v))) l.
Definition sum (l : loc) : H Z := read (fun v => Ok (py_sum v)) l.
Definition fsum (f : Z -> R) (l : loc) : H R :=
    read (fun v => Ok (py_fsum (map f v))) l.
Definition min (l : loc) : H Z := read py_min l.
Definition max (l : loc) : H Z := read py_max l.
Definition getitem (l : loc) (i : Z) : H Z := read (fun v => getitem v i) l.

  (** [sorted(l)]: a new list object at a fresh location. *)
Definition sorted (l : loc) : H loc := fun h =>
    let l' := fresh (dom h) in
    (Ok l', <[l' := sorted (deref h l)]> h).

Definition quantil (n : Z) (sorted_arr : loc) (q : R) : H R :=
    let pos := (q * IZR (n - 1))%R in
    let lo := int_of_float pos in
    let hi := Z.min (lo + 1) (n - 1) in
    let frac := (pos - IZR lo)%R in
    a ← getitem sorted_arr lo;
    b ← getitem sorted_arr hi;
    mret (IZR a * (1 - frac) + IZR b * frac)%R.

Definition calcular_estatisticas_simples (valores : loc) : H Est.t :=
    n ← len valores;
    if n =? 0 then
      hraise (ValueError "Lista de valores vazia para cálculo estatístico.")
    else
      s ← sum valores;
      let mean := (IZR s / IZR n)%R in
      ssd ← fsum (fun x => (IZR x - mean) ^ 2)%R valores;
      pstdev ← (fun h => (math_sqrt (ssd / IZR n), h));
      minimo ← min valores;
      maximo ← max valores;
      sorted_vals ← sorted valores;
      mediana ← quantil n sorted_vals 0.5%R;
      q1 ← quantil n sorted_vals 0.25%R;
      q3 ← quantil n sorted_vals 0.75%R;
      mret {| Est.n := IZR n;
              Est.media := mean;
              Est.mediana := mediana;
              Est.pstdev := pstdev;
              Est.q1 := q1;
              Est.q3 := q3;
              Est.min := IZR minimo;
              Est.max := IZR maximo |}.
End Heap.

(** ** [calcular_estatisticas_simples] in binary64

    A Python [float] is an IEEE 754 binary64 number, and every float
    operation of the source rounds its exact result to the nearest such
    number, ties to even.  The definitions above leave that rounding out;
    the ones below keep it, operation by operation, on Rocq's primitive
    floats (the same binary64 numbers, with the same rounding), so that what
    the function returns can be computed to the last bit. *)

Module B64.

(** The exact integer [z] as a float not yet rounded. *)
Definition sf_of_int (z : Z) : spec_float :=
  match z with
  | Z0 => S754_zero false
  | Zpos p => S754_finite false p 0
  | Zneg p => S754_finite true p 0
  end.

(** [float(z)], which is also what a mixed operation does to its [int]
    operand: the nearest binary64 number, ties to even; an integer beyond the
    range of the floats raises. *)
Definition float_of_int (z : Z) : result float :=
  let x := SF2Prim (binary_normalize prec emax z 0 false) in
  if PrimFloat.is_infinity x then Raise OverflowError else Ok x.

(** [int(x)] on a float truncates toward zero. *)
Definition int_of_float (x : float) : result Z :=
  match Prim2SF x with
  | S754_zero _ => Ok 0
  | S754_finite s m e =>
      let a := match e with
               | Zneg k => Z.shiftr (Zpos m) (Zpos k)
               | _ => Zpos m * 2 ^ e
               end in
      Ok (if s then - a else a)
  | S754_infinity _ => Raise OverflowError
  | S754_nan => Raise (ValueError "cannot convert float NaN to integer")
  end.

(** [a / b] on two [int]s: the exact quotient, rounded once. *)
Definition int_truediv (a b : Z) : result float :=
  if b =? 0 then Raise ZeroDivisionError
  else
    let x := SF2Prim (SFdiv prec emax (sf_of_int a) (sf_of_int b)) in
    if PrimFloat.is_infinity x then Raise OverflowError else Ok x.

(** [a / b] on two floats *)
Definition float_div (a b : float) : result float :=
  if PrimFloat.eqb b 0 then Raise ZeroDivisionError else Ok (PrimFloat.div a b).

(** [math.sqrt(x)] *)
Definition math_sqrt (x : float) : result float :=
  if PrimFloat.ltb x 0 then Raise (ValueError "math domain error")
  else Ok (PrimFloat.sqrt x).

(** The dict returned, with its float values. *)
Module Est.
Record t : Type := mk {
    n : float;
    media : float;
    mediana : float;
    pstdev : float;
    q1 : float;
    q3 : float;
    min : float;
    max : float
  }.
End Est.

(** The nested function [quantil]. *)
Definition quantil (n : Z) (sorted_arr : list Z) (q : float) : result float :=
  n1 ← float_of_int (n - 1);
  let pos := PrimFloat.mul q n1 in
  lo ← int_of_float pos;
  let hi := Z.min (lo + 1) (n - 1) in
  flo ← float_of_int lo;
  let frac := PrimFloat.sub pos flo in
  a ← getitem sorted_arr lo;
  fa ← float_of_int a;
  let left := PrimFloat.mul fa (PrimFloat.sub 1 frac) in
  b ← getitem sorted_arr hi;
  fb ← float_of_int b;
  mret (PrimFloat.add left (PrimFloat.mul fb frac)).

Section Library.
(** Two results that the source does not fix to the last bit: [x ** 2] on a
    float is the [pow] of the C library, and the built-in [sum] adds floats
    from left to right up to CPython 3.11 and with a compensation term since
    3.12.  Both are parameters; only [pstdev] depends on them. *)
Variable float_pow2 : float -> float.
Variable float_sum : list float -> float.

Definition calcular_estatisticas_simples (valores : list Z) : result Est.t :=
  let n := Z.of_nat (length valores) in
  if n =? 0 then
    Raise (ValueError "Lista de valores vazia para cálculo estatístico.")
  else
    let s := py_sum valores in
    mean ← int_truediv s n;
    sq ← mapM (fun x => fx ← float_of_int x;
                        mret (float_pow2 (PrimFloat.sub fx mean))) valores;
    let ssd := float_sum sq in
    fn ← float_of_int n;
    var ← float_div ssd fn;
    pstdev ← math_sqrt var;
    minimo ← py_min valores;
    maximo ← py_max valores;
    let sorted_vals := sorted valores in
    mediana ← quantil n sorted_vals 0.5;
    q1 ← quantil n sorted_vals 0.25;
    q3 ← quantil n sorted_vals 0.75;
    fmin ← float_of_int minimo;
    fmax ← float_of_int maximo;
    mret {| Est.n := fn;
            Est.media := mean;
            Est.mediana := mediana;
            Est.pstdev := pstdev;
            Est.q1 := q1;
            Est.q3 := q3;
            Est.min := fmin;
            Est.max := fmax |}.
End Library.

(** [x ** 2] as the product [x * x] rounded once, and [sum] as the
    additions from left to right, starting from 0. *)
Definition pow2_mul (x : float) : float := PrimFloat.mul x x.
Definition sum_left (l : list float) : float := fold_left PrimFloat.add l 0%float.
End B64.

(** A real number that is a binary64 number with two binary places: an
    integer multiple of 1/4, the integer of magnitude at most 2^53.  An
    operation of binary64 arithmetic whose exact result is such a number
    returns that number. *)
Definition quarter_binary64 (x : R) : Prop :=
  exists m : Z, Z.abs m <= 2 ^ 53 /\ x = (IZR m / 4)%R.

(** ** The statistics as the specification words them

    These follow the sentences of the specification, not the code; the
    theorems below compare the code with them. *)

Module Spec.
  Local Open Scope R_scope.

Definition total (x : list Z) : R := fold_right (fun v acc => IZR v + acc) 0 x.

Definition size (x : list Z) : R := INR (length x).

  (** the arithmetic mean *)
Definition mean (x : list Z) : R := total x / size x.

  (** the sum of the squared deviations from the mean *)
Definition sq_dev (x : list Z) : R :=
    fold_right (fun v acc => (IZR v - mean x) ^ 2 + acc) 0 x.

  (** population variance: divisor n *)
Definition var_pop (x : list Z) : R := sq_dev x / size x.

  (** sample variance: divisor n - 1 *)
Definition var_sample (x : list Z) : R := sq_dev x / (size x - 1).

  (** [varX/nX + varY/nY] on sample variances *)
Definition se2 (x y : list Z) : R :=
    var_sample x / size x + var_sample y / size y.

  (** [t = (meanX - meanY) / sqrt(varX/nX + varY/nY)] *)
Definition welch_t (x y : list Z) : R :=
    (mean x - mean y) / sqrt (se2 x y).

  (** [position = quantile * (n - 1)], [lo = floor(position)],
      [hi = min(lo + 1, n - 1)], [frac = position - lo],
      result [= sorted[lo] * (1 - frac) + sorted[hi] * frac] *)
Definition quantile (sorted_seq : list Z) (quantile : R) : R :=
    let n := Z.of_nat (length sorted_seq) in
    let position := quantile * IZR (n - 1) in
    let lo := Int_part position in
    let hi := Z.min (lo + 1) (n - 1) in
    let frac := position - IZR lo in
    IZR (nthZ sorted_seq lo) * (1 - frac) + IZR (nthZ sorted_seq hi) * frac.
End Spec.

(** * Properties *)

(** ** Fallible results *)

Lemma is_ok_not_raise {A} (r : result A) : is_ok r -> ~ is_raise r.
Proof. intros [a ->] [e He]. discriminate He. Qed.

(** ** Sums *)

Lemma fold_left_Rplus_acc (l : list R) (a : R) :
  fold_left Rplus l a = (a + fold_left Rplus l 0)%R.
Proof.
  revert a. induction l as [|x l IH]; intros a; simpl.
  - lra.
  - rewrite (IH (a + x)%R), (IH (0 + x)%R). lra.
Qed.

Lemma py_fsum_cons (x : R) (l : list R) :
  py_fsum (x :: l) = (x + py_fsum l)%R.
Proof.
  unfold py_fsum. simpl. rewrite fold_left_Rplus_acc. lra.
Qed.

Lemma py_fsum_nil : py_fsum [] = 0%R.
Proof. reflexivity. Qed.

Lemma py_fsum_nonneg (l : list R) :
  Forall (fun v => 0 <= v)%R l -> (0 <= py_fsum l)%R.
Proof.
  induction 1 as [|x l Hx _ IH].
  - rewrite py_fsum_nil. lra.
  - rewrite py_fsum_cons. lra.
Qed.

Lemma fold_left_Zadd_acc (l : list Z) (a : Z) :
  fold_left Z.add l a = a + fold_left Z.add l 0.
Proof.
  revert a. induction l as [|x l IH]; intros a; simpl.
  - lia.
  - rewrite (IH (a + x)), (IH (0 + x)). lia.
Qed.

Lemma py_sum_cons (x : Z) (l : list Z) : py_sum (x :: l) = x + py_sum l.
Proof. unfold py_sum. simpl. apply fold_left_Zadd_acc. Qed.

Lemma IZR_py_sum (l : list Z) : IZR (py_sum l) = Spec.total l.
Proof.
  induction l as [|x l IH].
  - reflexivity.
  - rewrite py_sum_cons, plus_IZR, IH. reflexivity.
Qed.

Lemma arr_sum_total (l : list Z) : arr_sum l = Spec.total l.
Proof.
  unfold arr_sum. induction l as [|x l IH].
  - reflexivity.
  - cbn [map]. rewrite py_fsum_cons, IH. reflexivity.
Qed.

Lemma py_fsum_sq_dev_gen (l : list Z) (m : R) :
  py_fsum (map (fun x => (IZR x - m) ^ 2)%R l)
  = fold_right (fun v acc => (IZR v - m) ^ 2 + acc)%R 0%R l.
Proof.
  induction l as [|x l IH].
  - reflexivity.
  - cbn [map]. rewrite py_fsum_cons, IH. reflexivity.
Qed.

Lemma ssd_nonneg (l : list Z) (m : R) :
  (0 <= py_fsum (map (fun x => (IZR x - m) ^ 2)%R l))%R.
Proof.
  apply py_fsum_nonneg. induction l as [|x l IH]; cbn [map]; constructor.
  - apply pow2_ge_0.
  - exact IH.
Qed.

Lemma size_IZR (l : list Z) : Spec.size l = IZR (Z.of_nat (length l)).
Proof. unfold Spec.size. apply INR_IZR_INZ. Qed.

(** ** [sorted] *)

Lemma insert_sorted_perm (x : Z) (l : list Z) :
  Permutation (insert_sorted x l) (x :: l).
Proof.
  induction l as [|y l IH]; simpl.
  - reflexivity.
  - destruct (x <=? y).
    + reflexivity.
    + rewrite IH. apply perm_swap.
Qed.

Lemma sorted_perm (l : list Z) : Permutation (sorted l) l.
Proof.
  induction l as [|x l IH]; simpl.
  - reflexivity.
  - rewrite insert_sorted_perm. now apply perm_skip.
Qed.

Lemma sorted_length (l : list Z) : length (sorted l) = length l.
Proof. apply Permutation_length, sorted_perm. Qed.

Lemma sorted_In (l : list Z) (x : Z) : In x (sorted l) <-> In x l.
Proof.
  split; apply Permutation_in.
  - apply sorted_perm.
  - symmetry. apply sorted_perm.
Qed.

Lemma insert_sorted_StronglySorted (x : Z) (l : list Z) :
  StronglySorted Z.le l -> StronglySorted Z.le (insert_sorted x l).
Proof.
  induction 1 as [|y l Hl IH Hy]; simpl.
  - constructor; constructor.
  - destruct (Z.leb_spec x y) as [Hxy|Hxy].
    + constructor.
      * now constructor.
      * constructor; [exact Hxy|].
        eapply List.Forall_impl; [|exact Hy]. intros z Hz. simpl in Hz. lia.
    + constructor; [exact IH|].
      eapply Permutation_Forall.
      * symmetry. apply insert_sorted_perm.
      * constructor; [lia | exact Hy].
Qed.

Lemma sorted_StronglySorted (l : list Z) : StronglySorted Z.le (sorted l).
Proof.
  induction l as [|x l IH]; simpl.
  - constructor.
  - now apply insert_sorted_StronglySorted.
Qed.

Lemma StronglySorted_nth (s : list Z) (i j : nat) :
  StronglySorted Z.le s -> (i <= j)%nat -> (j < length s)%nat ->
  nth i s 0 <= nth j s 0.
Proof.
  intros Hs. revert i j. induction Hs as [|x l Hl IH Hx]; intros i j Hij Hj.
  - simpl in Hj. lia.
  - destruct i as [|i], j as [|j]; simpl in *; try lia.
    + rewrite List.Forall_forall in Hx. apply Hx. apply nth_In. lia.
    + apply IH; lia.
Qed.

Lemma nthZ_sorted_mono (l : list Z) (i j : Z) :
  0 <= i -> i <= j -> j < Z.of_nat (length l) ->
  nthZ (sorted l) i <= nthZ (sorted l) j.
Proof.
  intros Hi Hij Hj. unfold nthZ.
  apply StronglySorted_nth.
  - apply sorted_StronglySorted.
  - lia.
  - rewrite sorted_length. lia.
Qed.

Lemma nthZ_sorted_In (l : list Z) (i : Z) :
  0 <= i < Z.of_nat (length l) -> In (nthZ (sorted l) i) l.
Proof.
  intros Hi. apply sorted_In. unfold nthZ. apply nth_In.
  rewrite sorted_length. lia.
Qed.

(** ** [min], [max] *)

Lemma fold_left_min_le (t : list Z) (a : Z) :
  fold_left Z.min t a <= a /\ (forall y, In y t -> fold_left Z.min t a <= y).
Proof.
  revert a. induction t as [|x t IH]; intros a; simpl.
  - split; [lia | tauto].
  - destruct (IH (Z.min a x)) as [H1 H2]. split; [lia|].
    intros y [<-|Hy]; [lia | now apply H2].
Qed.

Lemma fold_left_max_ge (t : list Z) (a : Z) :
  a <= fold_left Z.max t a /\ (forall y, In y t -> y <= fold_left Z.max t a).
Proof.
  revert a. induction t as [|x t IH]; intros a; simpl.
  - split; [lia | tauto].
  - destruct (IH (Z.max a x)) as [H1 H2]. split; [lia|].
    intros y [<-|Hy]; [lia | now apply H2].
Qed.

Lemma py_min_lower (l : list Z) (m : Z) :
  py_min l = Ok m -> forall y, In y l -> m <= y.
Proof.
  destruct l as [|x t]; simpl; [discriminate|].
  intros [= <-] y Hy. destruct (fold_left_min_le t x) as [H1 H2].
  destruct Hy as [<-|Hy]; [exact H1 | exact (H2 y Hy)].
Qed.

Lemma py_max_upper (l : list Z) (m : Z) :
  py_max l = Ok m -> forall y, In y l -> y <= m.
Proof.
  destruct l as [|x t]; simpl; [discriminate|].
  intros [= <-] y Hy. destruct (fold_left_max_ge t x) as [H1 H2].
  destruct Hy as [<-|Hy]; [exact H1 | exact (H2 y Hy)].
Qed.

Lemma py_min_ok (l : list Z) : l <> [] -> is_ok (py_min l).
Proof. destruct l; [congruence|]. intros _. eexists. reflexivity. Qed.

Lemma py_max_ok (l : list Z) : l <> [] -> is_ok (py_max l).
Proof. destruct l; [congruence|]. intros _. eexists. reflexivity. Qed.

(** ** Indexing and truncation *)

Lemma getitem_in_range (arr : list Z) (i : Z) :
  0 <= i < Z.of_nat (length arr) -> getitem arr i = Ok (nthZ arr i).
Proof.
  intros Hi. unfold getitem, nthZ.
  destruct (Z.ltb_spec i 0); [lia|].
  destruct (Z.leb_spec 0 i); [|lia].
  destruct (Z.ltb_spec i (Z.of_nat (length arr))); [|lia].
  simpl. rewrite (nth_error_nth' arr 0); [reflexivity | lia].
Qed.

Lemma Int_part_bounds (r : R) :
  (IZR (Int_part r) <= r < IZR (Int_part r) + 1)%R.
Proof.
  destruct (base_Int_part r) as [H1 H2]. split; lra.
Qed.

Lemma Int_part_unique (r : R) (z : Z) :
  (IZR z <= r < IZR z + 1)%R -> Int_part r = z.
Proof. intros H. symmetry. apply Int_part_spec. lra. Qed.

Lemma int_of_float_nonneg (r : R) : (0 <= r)%R -> int_of_float r = Int_part r.
Proof. intros H. unfold int_of_float. destruct (Rle_dec 0 r); [reflexivity | contradiction]. Qed.

Lemma Int_part_range (r : R) (k : Z) :
  (0 <= r <= IZR k)%R -> 0 <= Int_part r <= k.
Proof.
  intros [H0 Hk]. destruct (Int_part_bounds r) as [H1 H2]. split.
  - assert (H : (IZR (-1) < IZR (Int_part r))%R) by (simpl; lra).
    apply lt_IZR in H. lia.
  - apply le_IZR. lra.
Qed.

(** ** [quantil] *)

Lemma length_pos_Z (l : list Z) : l <> [] -> 1 <= Z.of_nat (length l).
Proof. destruct l; [congruence|]. intros _. simpl length. lia. Qed.

Lemma position_range (q : R) (n : Z) :
  1 <= n -> (0 <= q <= 1)%R -> (0 <= q * IZR (n - 1) <= IZR (n - 1))%R.
Proof.
  intros Hn Hq. assert (H : (0 <= IZR (n - 1))%R) by (apply IZR_le; lia).
  split; nra.
Qed.

(** On a non-empty list and a quantile in [0, 1], [quantil] does not raise
    and returns the interpolation the specification describes. *)
Lemma quantil_ok (s : list Z) (q : R) :
  s <> [] -> (0 <= q <= 1)%R ->
  quantil (Z.of_nat (length s)) s q = Ok (Spec.quantile s q).
Proof.
  intros Hs Hq. pose proof (length_pos_Z s Hs) as Hn.
  pose proof (position_range q _ Hn Hq) as Hpos.
  unfold quantil, Spec.quantile.
  rewrite (int_of_float_nonneg _ (proj1 Hpos)).
  pose proof (Int_part_range _ (Z.of_nat (length s) - 1) Hpos) as Hlo.
  rewrite (getitem_in_range s (Int_part _)) by lia.
  rewrite (getitem_in_range s (Z.min _ _)) by lia.
  reflexivity.
Qed.

Lemma math_sqrt_nonneg (x : R) : (0 <= x)%R -> math_sqrt x = Ok (sqrt x).
Proof.
  intros H. unfold math_sqrt. destruct (Rlt_dec x 0); [lra | reflexivity].
Qed.

Lemma IZR_length_pos (l : list Z) : l <> [] -> (0 < IZR (Z.of_nat (length l)))%R.
Proof. intros H. apply IZR_lt. pose proof (length_pos_Z l H). lia. Qed.

(** The value [calcular_estatisticas_simples] returns on a non-empty list,
    field by field. *)
Lemma calcular_estatisticas_simples_value (l : list Z) :
  l <> [] ->
  exists mn mx,
    py_min l = Ok mn /\ py_max l = Ok mx /\
    calcular_estatisticas_simples l =
      Ok {| Est.n := IZR (Z.of_nat (length l));
            Est.media := (IZR (py_sum l) / IZR (Z.of_nat (length l)))%R;
            Est.mediana := Spec.quantile (sorted l) 0.5;
            Est.pstdev :=
              sqrt (py_fsum (map (fun x =>
                      (IZR x - IZR (py_sum l) / IZR (Z.of_nat (length l))) ^ 2)%R l)
                    / IZR (Z.of_nat (length l)));
            Est.q1 := Spec.quantile (sorted l) 0.25;
            Est.q3 := Spec.quantile (sorted l) 0.75;
            Est.min := IZR mn;
            Est.max := IZR mx |}.
Proof.
  intros Hl.
  destruct (py_min_ok l Hl) as [mn Hmn], (py_max_ok l Hl) as [mx Hmx].
  exists mn, mx. split; [exact Hmn|]. split; [exact Hmx|].
  unfold calcular_estatisticas_simples.
  pose proof (length_pos_Z l Hl) as Hn.
  destruct (Z.eqb_spec (Z.of_nat (length l)) 0) as [E|_]; [lia|].
  rewrite math_sqrt_nonneg.
  2:{ apply Rmult_le_pos; [apply ssd_nonneg|].
      apply Rlt_le, Rinv_0_lt_compat, IZR_length_pos, Hl. }
  rewrite Hmn, Hmx. cbn [mbind result_bind].
  assert (Hs : sorted l <> []).
  { intros E. apply (f_equal (@length Z)) in E.
    rewrite sorted_length in E. simpl in E. lia. }
  rewrite <- (sorted_length l).
  rewrite !quantil_ok by (try exact Hs; lra).
  reflexivity.
Qed.


(** A sorted list is determined by its elements. *)
Lemma StronglySorted_perm_eq (l1 l2 : list Z) :
  StronglySorted Z.le l1 -> StronglySorted Z.le l2 -> Permutation l1 l2 ->
  l1 = l2.
Proof.
  revert l2. induction l1 as [|x t IH]; intros l2 H1 H2 HP.
  - apply Permutation_nil in HP. now subst.
  - destruct l2 as [|y u].
    + symmetry in HP. now apply Permutation_nil in HP.
    + inversion H1 as [|? ? Ht Hx]; subst. inversion H2 as [|? ? Hu Hy]; subst.
      rewrite List.Forall_forall in Hx, Hy.
      assert (Hxy : x = y).
      { assert (In x (y :: u)) as [->|Hin1]
          by (eapply Permutation_in; [exact HP | now left]); [reflexivity|].
        assert (In y (x :: t)) as [->|Hin2]
          by (eapply Permutation_in; [symmetry; exact HP | now left]);
          [reflexivity|].
        specialize (Hx _ Hin2). specialize (Hy _ Hin1). lia. }
      subst y. f_equal. apply IH; try assumption.
      now apply Permutation_cons_inv in HP.
Qed.

Lemma sorted_unique (l s : list Z) :
  Permutation s l -> Sorted Z.le s -> s = sorted l.
Proof.
  intros HP HS. apply StronglySorted_perm_eq.
  - apply Sorted_StronglySorted; [|exact HS]. intros a b c; apply Z.le_trans.
  - apply sorted_StronglySorted.
  - rewrite HP. symmetry. apply sorted_perm.
Qed.

Lemma spec_quantile_at (s : list Z) (q : R) (lo : Z) :
  (IZR lo <= q * IZR (Z.of_nat (length s) - 1) < IZR lo + 1)%R ->
  Spec.quantile s q =
    (IZR (nthZ s lo) * (1 - (q * IZR (Z.of_nat (length s) - 1) - IZR lo))
     + IZR (nthZ s (Z.min (lo + 1) (Z.of_nat (length s) - 1)))
       * (q * IZR (Z.of_nat (length s) - 1) - IZR lo))%R.
Proof.
  intros H. unfold Spec.quantile. now rewrite (Int_part_unique _ lo H).
Qed.



(** ** Order of the quantiles *)

Section QuantileOrder.
Variable l : list Z.
Hypothesis Hl : l <> [].

Let n := Z.of_nat (length (sorted l)).

Local Lemma n_pos : 1 <= n.
Proof. unfold n. rewrite sorted_length. now apply length_pos_Z. Qed.

  (** Both indices read by the interpolation are inside the list. *)
Lemma quantile_indices (q : R) :
    (0 <= q <= 1)%R ->
    let pos := (q * IZR (n - 1))%R in
    0 <= Int_part pos <= n - 1 /\
    Int_part pos <= Z.min (Int_part pos + 1) (n - 1) <= n - 1 /\
    (0 <= pos - IZR (Int_part pos) < 1)%R.
Proof.
    intros Hq pos. pose proof n_pos as Hn.
    pose proof (position_range q n Hn Hq) as Hpos.
    pose proof (Int_part_range _ _ Hpos) as Hlo.
    pose proof (Int_part_bounds pos) as Hb.
    fold pos in Hlo. repeat split; try lia; lra.
Qed.

  (** A quantile lies between any lower and any upper bound of the list. *)
Lemma quantile_between (q : R) (lo hi : Z) :
    (0 <= q <= 1)%R ->
    (forall y, In y l -> lo <= y) -> (forall y, In y l -> y <= hi) ->
    (IZR lo <= Spec.quantile (sorted l) q <= IZR hi)%R.
Proof.
    intros Hq Hlo Hhi.
    destruct (quantile_indices q Hq) as (Hi & Hj & Hf).
    unfold Spec.quantile. fold n. cbv zeta in Hi, Hj, Hf.
    set (pos := (q * IZR (n - 1))%R) in *.
    set (i := Int_part pos) in *.
    set (j := Z.min (i + 1) (n - 1)) in *.
    set (f := (pos - IZR i)%R) in *.
    assert (Hn : n = Z.of_nat (length l)) by (unfold n; now rewrite sorted_length).
    assert (Ha : In (nthZ (sorted l) i) l) by (apply nthZ_sorted_In; lia).
    assert (Hb : In (nthZ (sorted l) j) l) by (apply nthZ_sorted_In; lia).
    pose proof (IZR_le _ _ (Hlo _ Ha)). pose proof (IZR_le _ _ (Hlo _ Hb)).
    pose proof (IZR_le _ _ (Hhi _ Ha)). pose proof (IZR_le _ _ (Hhi _ Hb)).
    split; nra.
Qed.

  (** The interpolated quantile is monotone in the quantile. *)
Lemma quantile_mono (q q' : R) :
    (0 <= q)%R -> (q <= q')%R -> (q' <= 1)%R ->
    (Spec.quantile (sorted l) q <= Spec.quantile (sorted l) q')%R.
Proof.
    intros H0 Hqq H1.
    destruct (quantile_indices q) as (Hi & Hj & Hf); [lra|].
    destruct (quantile_indices q') as (Hi' & Hj' & Hf'); [lra|].
    unfold Spec.quantile. fold n. cbv zeta in *.
    pose proof n_pos as Hn.
    assert (Hn1 : (0 <= IZR (n - 1))%R) by (apply IZR_le; lia).
    assert (Hpp : (q * IZR (n - 1) <= q' * IZR (n - 1))%R) by nra.
    set (pos := (q * IZR (n - 1))%R) in *.
    set (pos' := (q' * IZR (n - 1))%R) in *.
    set (i := Int_part pos) in *. set (i' := Int_part pos') in *.
    set (j := Z.min (i + 1) (n - 1)) in *.
    set (j' := Z.min (i' + 1) (n - 1)) in *.
    assert (Hlen : n = Z.of_nat (length l)) by (unfold n; now rewrite sorted_length).
    assert (Hab : (IZR (nthZ (sorted l) i) <= IZR (nthZ (sorted l) j))%R)
      by (apply IZR_le, nthZ_sorted_mono; lia).
    assert (Hab' : (IZR (nthZ (sorted l) i') <= IZR (nthZ (sorted l) j'))%R)
      by (apply IZR_le, nthZ_sorted_mono; lia).
    assert (Hii : i <= i').
    { apply Z.lt_succ_r, lt_IZR. rewrite succ_IZR. lra. }
    destruct (Z.eq_dec i i') as [E|NE].
    - assert (E' : j = j') by (unfold j, j'; now rewrite E).
      rewrite <- E, <- E' in *. nra.
    - assert (Hji : j <= i') by lia.
      assert (Hmid : (IZR (nthZ (sorted l) j) <= IZR (nthZ (sorted l) i'))%R)
        by (apply IZR_le, nthZ_sorted_mono; lia).
      nra.
Qed.
End QuantileOrder.

(** ** The numpy reductions on a non-empty array *)

Lemma np_div_fin (x y : R) : y <> 0%R -> np_div (Fin x) (Fin y) = Fin (x / y).
Proof. intros H. simpl. destruct (Req_dec_T y 0); [contradiction | reflexivity]. Qed.

Lemma size_pos (l : list Z) : l <> [] -> (0 < Spec.size l)%R.
Proof. intros H. rewrite size_IZR. now apply IZR_length_pos. Qed.

Lemma np_mean_value (l : list Z) : l <> [] -> np_mean l = Fin (Spec.mean l).
Proof.
  intros H. unfold np_mean, np_of_int, Spec.mean.
  pose proof (size_pos l H) as Hs. rewrite size_IZR in *.
  rewrite np_div_fin by lra. now rewrite arr_sum_total.
Qed.

Lemma np_sign_inf_0 : np_sign_inf 0 = NaN.
Proof. unfold np_sign_inf. destruct (Req_dec_T 0 0); [reflexivity | congruence]. Qed.

Lemma np_div_by_zero (x : R) : np_div (Fin x) (Fin 0) = np_sign_inf x.
Proof. simpl. destruct (Req_dec_T 0 0); [reflexivity | congruence]. Qed.

Lemma np_mean_empty : np_mean [] = NaN.
Proof.
  change (np_mean []) with (np_div (Fin 0) (Fin 0)).
  now rewrite np_div_by_zero, np_sign_inf_0.
Qed.

Lemma arr_ssd_sq_dev (l : list Z) : arr_ssd l (Spec.mean l) = Spec.sq_dev l.
Proof. unfold arr_ssd, Spec.sq_dev. apply py_fsum_sq_dev_gen. Qed.

Lemma sq_dev_nonneg (l : list Z) : (0 <= Spec.sq_dev l)%R.
Proof. rewrite <- arr_ssd_sq_dev. apply ssd_nonneg. Qed.

(** With at least [ddof + 1] elements the variance is the sum of squared
    deviations over [n - ddof]. *)
Lemma np_var_value (l : list Z) (ddof : Z) :
  0 <= ddof < Z.of_nat (length l) ->
  np_var l ddof = Fin (Spec.sq_dev l / (Spec.size l - IZR ddof)).
Proof.
  intros H. assert (Hl : l <> []) by (intros ->; simpl in H; lia).
  unfold np_var. rewrite (np_mean_value l Hl). unfold np_of_int.
  rewrite Z.max_l by lia. rewrite np_div_fin.
  - now rewrite arr_ssd_sq_dev, minus_IZR, size_IZR.
  - apply not_0_IZR. lia.
Qed.

(** The sample variance of fewer than two elements is NaN. *)
Lemma np_var_sample_nan (l : list Z) :
  (length l <= 1)%nat -> np_var l 1 = NaN.
Proof.
  intros H. unfold np_var. destruct l as [|x [|y l]]; [| |simpl in H; lia].
  - now rewrite np_mean_empty.
  - rewrite np_mean_value by discriminate.
    change (np_of_int _) with (Fin 0).
    replace (arr_ssd [x] (Spec.mean [x])) with 0%R.
    + now rewrite np_div_by_zero, np_sign_inf_0.
    + unfold arr_ssd, Spec.mean, Spec.total, Spec.size, py_fsum. cbn. field.
Qed.

Lemma np_std_value (l : list Z) (ddof : Z) :
  0 <= ddof < Z.of_nat (length l) ->
  np_std l ddof = Fin (sqrt (Spec.sq_dev l / (Spec.size l - IZR ddof))).
Proof.
  intros H. unfold np_std. rewrite np_var_value by exact H. simpl.
  destruct (Rlt_dec _ 0) as [Hneg|_]; [|reflexivity].
  exfalso. revert Hneg. apply Rle_not_lt.
  apply Rmult_le_pos; [apply sq_dev_nonneg|].
  apply Rlt_le, Rinv_0_lt_compat. rewrite size_IZR, <- minus_IZR.
  apply IZR_lt. lia.
Qed.

Lemma np_quantile_value (l : list Z) (q : R) :
  l <> [] -> np_quantile l q = Fin (Spec.quantile (sorted l) q).
Proof.
  intros H. destruct l as [|x l]; [congruence|].
  unfold np_quantile, Spec.quantile. rewrite sorted_length. f_equal. ring.
Qed.

Lemma np_percentile_value (l : list Z) (p : R) :
  l <> [] -> np_percentile l p = Fin (Spec.quantile (sorted l) (p / 100)).
Proof. intros H. unfold np_percentile. now apply np_quantile_value. Qed.

(** numpy's median is the interpolated quantile at 0.5. *)
Lemma np_median_value (l : list Z) :
  l <> [] -> np_median l = Fin (Spec.quantile (sorted l) 0.5).
Proof.
  intros H. pose proof (length_pos_Z l H) as Hn.
  destruct l as [|x l]; [congruence|]. unfold np_median.
  set (a := x :: l) in *. set (n := Z.of_nat (length a)) in *.
  pose proof (Z.div_mod n 2 ltac:(lia)) as Hdm.
  rewrite Zmod_odd in Hdm.
  assert (Hlen : Z.of_nat (length (sorted a)) = n) by (now rewrite sorted_length).
  destruct (Z.odd n).
  - rewrite (spec_quantile_at _ _ (n / 2)); rewrite Hlen.
    + f_equal. replace (n - 1) with (2 * (n / 2)) by lia.
      rewrite mult_IZR. lra.
    + replace (n - 1) with (2 * (n / 2)) by lia. rewrite mult_IZR. lra.
  - rewrite (spec_quantile_at _ _ (n / 2 - 1)); rewrite Hlen.
    + f_equal. replace (Z.min (n / 2 - 1 + 1) (n - 1)) with (n / 2) by lia.
      replace (n - 1) with (2 * (n / 2) - 1) at 1 2 by lia.
      rewrite !minus_IZR, mult_IZR. lra.
    + replace (n - 1) with (2 * (n / 2) - 1) by lia.
      rewrite !minus_IZR, mult_IZR. lra.
Qed.

Lemma np_min_py_min (l : list Z) (m : Z) : np_min l = Ok m <-> py_min l = Ok m.
Proof. destruct l; simpl; split; congruence. Qed.

Lemma np_max_py_max (l : list Z) (m : Z) : np_max l = Ok m <-> py_max l = Ok m.
Proof. destruct l; simpl; split; congruence. Qed.

(** The value [descriptive_stats] returns on a non-empty array. *)
Lemma descriptive_stats_value (l : list Z) :
  l <> [] ->
  exists mn mx,
    py_min l = Ok mn /\ py_max l = Ok mx /\
    descriptive_stats l =
      Ok {| Desc.n := Z.of_nat (length l);
            Desc.mean := Fin (Spec.mean l);
            Desc.median := Fin (Spec.quantile (sorted l) 0.5);
            Desc.std_pop := Fin (sqrt (Spec.var_pop l));
            Desc.std_sample := np_std l 1;
            Desc.q1 := Fin (Spec.quantile (sorted l) (25 / 100));
            Desc.q3 := Fin (Spec.quantile (sorted l) (75 / 100));
            Desc.min := Fin (IZR mn);
            Desc.max := Fin (IZR mx) |}.
Proof.
  intros Hl. pose proof (length_pos_Z l Hl) as Hn.
  destruct (py_min_ok l Hl) as [mn Hmn], (py_max_ok l Hl) as [mx Hmx].
  exists mn, mx. split; [exact Hmn|]. split; [exact Hmx|].
  unfold descriptive_stats.
  rewrite (proj2 (np_min_py_min l mn) Hmn), (proj2 (np_max_py_max l mx) Hmx).
  cbn [mbind result_bind mret result_ret].
  rewrite np_mean_value, np_median_value, !np_percentile_value by exact Hl.
  rewrite (np_std_value l 0) by lia.
  unfold Spec.var_pop. now rewrite Rminus_0_r.
Qed.

(** ** [calcular_estatisticas_simples] against the specification's words *)

Lemma media_is_mean (l : list Z) :
  (IZR (py_sum l) / IZR (Z.of_nat (length l)))%R = Spec.mean l.
Proof. unfold Spec.mean. now rewrite IZR_py_sum, size_IZR. Qed.

Lemma calcular_estatisticas_simples_spec (l : list Z) :
  l <> [] ->
  exists mn mx,
    py_min l = Ok mn /\ py_max l = Ok mx /\
    calcular_estatisticas_simples l =
      Ok {| Est.n := Spec.size l;
            Est.media := Spec.mean l;
            Est.mediana := Spec.quantile (sorted l) 0.5;
            Est.pstdev := sqrt (Spec.var_pop l);
            Est.q1 := Spec.quantile (sorted l) 0.25;
            Est.q3 := Spec.quantile (sorted l) 0.75;
            Est.min := IZR mn;
            Est.max := IZR mx |}.
Proof.
  intros Hl.
  destruct (calcular_estatisticas_simples_value l Hl)
    as (mn & mx & Hmn & Hmx & ->).
  exists mn, mx. split; [exact Hmn|]. split; [exact Hmx|].
  rewrite media_is_mean. unfold Spec.var_pop.
  rewrite <- arr_ssd_sq_dev, size_IZR. reflexivity.
Qed.

Lemma calcular_estatisticas_simples_empty :
  calcular_estatisticas_simples [] =
    Raise (ValueError "Lista de valores vazia para cálculo estatístico.").
Proof. reflexivity. Qed.

Lemma var_pop_le_var_sample (l : list Z) :
  (2 <= length l)%nat ->
  (0 <= Spec.var_pop l <= Spec.var_sample l)%R.
Proof.
  intros H. unfold Spec.var_pop, Spec.var_sample.
  pose proof (sq_dev_nonneg l) as Hs.
  assert (Hn : (2 <= Spec.size l)%R).
  { rewrite size_IZR. apply IZR_le. lia. }
  assert (H1 : (0 < / Spec.size l)%R) by (apply Rinv_0_lt_compat; lra).
  assert (H2 : (/ Spec.size l <= / (Spec.size l - 1))%R)
    by (apply Rinv_le_contravar; lra).
  unfold Rdiv. split; nra.
Qed.

(** ** Where the interpolation does not round

    For a quartile or the median of at most 2^50 integers of magnitude at
    most 2^50, every operand and every exact result of the steps of
    [quantil] is a binary64 number: no step rounds. *)
Lemma interpolation_is_exact (s : list Z) (q : R) (k : Z) :
  s <> [] -> Z.of_nat (length s) <= 2 ^ 50 ->
  (forall v, In v s -> Z.abs v <= 2 ^ 50) ->
  1 <= k <= 3 -> (4 * q = IZR k)%R ->
  let n := Z.of_nat (length s) in
  let pos := (q * IZR (n - 1))%R in
  let lo := int_of_float pos in
  let hi := Z.min (lo + 1) (n - 1) in
  let frac := (pos - IZR lo)%R in
  quarter_binary64 q /\ quarter_binary64 (IZR (n - 1)) /\
  quarter_binary64 pos /\ quarter_binary64 (IZR lo) /\
  quarter_binary64 frac /\ quarter_binary64 (1 - frac) /\
  quarter_binary64 (IZR (nthZ s lo)) /\ quarter_binary64 (IZR (nthZ s hi)) /\
  quarter_binary64 (IZR (nthZ s lo) * (1 - frac)) /\
  quarter_binary64 (IZR (nthZ s hi) * frac) /\
  quarter_binary64 (IZR (nthZ s lo) * (1 - frac) + IZR (nthZ s hi) * frac).
Proof.
  intros Hs Hlen Hval Hk Hq n pos lo hi frac.
  pose proof (length_pos_Z s Hs) as Hn. fold n in Hn, Hlen.
  set (N := k * (n - 1)).
  assert (HN : 0 <= N <= 3 * (n - 1)) by (unfold N; nia).
  assert (Epos : pos = (IZR N / 4)%R).
  { assert (Eq : q = (IZR k / 4)%R) by lra.
    unfold pos, N. rewrite mult_IZR, Eq. field. }
  pose proof (Z.div_mod N 4 ltac:(lia)) as Hdm.
  pose proof (Z.mod_pos_bound N 4 ltac:(lia)) as Hj.
  set (z := N / 4) in *. set (j := N mod 4) in *.
  assert (EN : IZR N = (4 * IZR z + IZR j)%R).
  { rewrite Hdm, plus_IZR, mult_IZR. reflexivity. }
  assert (Hj0 : (0 <= IZR j)%R) by (apply IZR_le; lia).
  assert (Hj4 : (IZR j < 4)%R) by (apply IZR_lt; lia).
  assert (Hz0 : (0 <= IZR z)%R) by (apply IZR_le; lia).
  assert (Elo : lo = z).
  { unfold lo. rewrite Epos, int_of_float_nonneg by lra.
    apply Int_part_unique. lra. }
  assert (Hz : 0 <= z <= n - 1) by lia.
  assert (Hhi : 0 <= hi <= n - 1) by (unfold hi; lia).
  assert (Efrac : frac = (IZR j / 4)%R) by (unfold frac; rewrite Elo, Epos; lra).
  assert (Hnth : forall i, 0 <= i <= n - 1 -> Z.abs (nthZ s i) <= 2 ^ 50).
  { intros i Hi. apply Hval. unfold nthZ. apply nth_In. unfold n in Hi. lia. }
  pose proof (Hnth lo ltac:(lia)) as Ha. pose proof (Hnth hi Hhi) as Hb.
  set (a := nthZ s lo) in *. set (b := nthZ s hi) in *.
  rewrite Efrac.
  assert (Cj : j = 0 \/ j = 1 \/ j = 2 \/ j = 3) by lia.
  split; [exists k; split; [lia | lra]|].
  split; [exists (4 * (n - 1)); split; [lia | rewrite mult_IZR; lra]|].
  split; [exists N; split; [lia | exact Epos]|].
  split; [exists (4 * lo); split; [lia | rewrite mult_IZR; lra]|].
  split; [exists j; split; [lia | reflexivity]|].
  split; [exists (4 - j); split; [lia | rewrite minus_IZR; lra]|].
  split; [exists (4 * a); split; [lia | rewrite mult_IZR; lra]|].
  split; [exists (4 * b); split; [lia | rewrite mult_IZR; lra]|].
  split; [|split].
  - exists (a * (4 - j)). split; [nia|].
    rewrite mult_IZR, minus_IZR. lra.
  - exists (b * j). split; [nia|]. rewrite mult_IZR. lra.
  - exists (a * (4 - j) + b * j). split; [nia|].
    rewrite plus_IZR, !mult_IZR, minus_IZR. lra.
Qed.

(** On the example of the specification, [1, 2, 3, 4], every operation is
    exact in binary64, and the function returns the values the exact model
    gives. *)
Lemma binary64_summary_1_2_3_4 :
  B64.calcular_estatisticas_simples B64.pow2_mul B64.sum_left [1; 2; 3; 4]
  = Ok {| B64.Est.n := 4;
          B64.Est.media := 2.5;
          B64.Est.mediana := 2.5;
          B64.Est.pstdev := PrimFloat.sqrt 1.25;
          B64.Est.q1 := 1.75;
          B64.Est.q3 := 3.25;
          B64.Est.min := 1;
          B64.Est.max := 4 |}%float.
Proof. vm_compute. reflexivity. Qed.

(** C9, as stated, fails.  The integers 6010635098944357 and
    6010635098944358 are binary64 numbers, but the products and the sum of
    the interpolation between them are not: on the list they form, rounding
    takes q1 and the median up to the larger value and q3 down to the
    smaller one, and the function returns q3 < median = q1, to whatever last
    bit [x ** 2] and [sum] are computed. *)
Lemma summary_order_binary64_counterexample :
  (exists st,
     B64.calcular_estatisticas_simples B64.pow2_mul B64.sum_left
       [6010635098944357; 6010635098944358] = Ok st /\
     PrimFloat.ltb (B64.Est.q3 st) (B64.Est.mediana st) = true) /\
  (forall (float_pow2 : float -> float) (float_sum : list float -> float) st,
     B64.calcular_estatisticas_simples float_pow2 float_sum
       [6010635098944357; 6010635098944358] = Ok st ->
     PrimFloat.ltb (B64.Est.q3 st) (B64.Est.mediana st) = true /\
     PrimFloat.ltb (B64.Est.q3 st) (B64.Est.q1 st) = true).
Proof.
  split.
  - eexists. split; vm_compute; reflexivity.
  - intros float_pow2 float_sum st H. vm_compute in H.
    match type of H with
    | context [PrimFloat.ltb ?x ?y] => destruct (PrimFloat.ltb x y)
    end; [discriminate H|].
    injection H as <-. split; vm_compute; reflexivity.
Qed.

(** C9, amended.  On every non-empty list of at most 2^50 integers of
    magnitude at most 2^50 the result of [calcular_estatisticas_simples]
    satisfies min <= q1 <= median <= q3 <= max, and its three quantiles are
    binary64 numbers, as every step that leads to them is
    ([interpolation_is_exact]): within these bounds, which hold of every
    timing the runner stores, the interpolation does not round, and the
    floats the code returns are the reals compared here.  The function has
    no sample standard deviation.  On such a list the result of
    [descriptive_stats], the summary that has one, satisfies the same
    ordering, and its [std_pop] is at most its [std_sample] as soon as the
    list has two elements. *)
Theorem summary_is_ordered (valores : list Z) :
  valores <> [] ->
  Z.of_nat (length valores) <= 2 ^ 50 ->
  (forall v, In v valores -> Z.abs v <= 2 ^ 50) ->
  (exists st,
     calcular_estatisticas_simples valores = Ok st /\
     (Est.min st <= Est.q1 st)%R /\ (Est.q1 st <= Est.mediana st)%R /\
     (Est.mediana st <= Est.q3 st)%R /\ (Est.q3 st <= Est.max st)%R /\
     quarter_binary64 (Est.q1 st) /\ quarter_binary64 (Est.mediana st) /\
     quarter_binary64 (Est.q3 st)) /\
  (exists d,
     descriptive_stats valores = Ok d /\
     np_le (Desc.min d) (Desc.q1 d) /\ np_le (Desc.q1 d) (Desc.median d) /\
     np_le (Desc.median d) (Desc.q3 d) /\ np_le (Desc.q3 d) (Desc.max d) /\
     ((2 <= length valores)%nat -> np_le (Desc.std_pop d) (Desc.std_sample d))).
Proof.
  intros Hne Hlen Hval. split.
  - destruct (calcular_estatisticas_simples_spec valores Hne)
      as (mn & mx & Hmn & Hmx & ->).
    eexists. split; [reflexivity|]. cbn [Est.min Est.q1 Est.mediana Est.q3 Est.max].
    pose proof (quantile_between valores Hne 0.25 mn mx ltac:(lra)
                  (py_min_lower _ _ Hmn) (py_max_upper _ _ Hmx)) as H1.
    pose proof (quantile_between valores Hne 0.75 mn mx ltac:(lra)
                  (py_min_lower _ _ Hmn) (py_max_upper _ _ Hmx)) as H3.
    pose proof (quantile_mono valores Hne 0.25 0.5 ltac:(lra) ltac:(lra) ltac:(lra)).
    pose proof (quantile_mono valores Hne 0.5 0.75 ltac:(lra) ltac:(lra) ltac:(lra)).
    repeat (split; [tauto|]).
    assert (Hs : sorted valores <> []).
    { intros E. apply (f_equal (@length Z)) in E.
      rewrite sorted_length in E. destruct valores; [congruence | discriminate E]. }
    assert (Hslen : Z.of_nat (length (sorted valores)) <= 2 ^ 50)
      by now rewrite sorted_length.
    assert (Hsval : forall v, In v (sorted valores) -> Z.abs v <= 2 ^ 50)
      by (intros v Hv; apply Hval, sorted_In, Hv).
    assert (Hq : forall q k, 1 <= k <= 3 -> (4 * q = IZR k)%R ->
                   quarter_binary64 (Spec.quantile (sorted valores) q)).
    { intros q k Hk Ek.
      pose proof (interpolation_is_exact (sorted valores) q k Hs Hslen Hsval
                    Hk Ek) as Hex.
      cbv zeta in Hex.
      assert (Hpos : (0 <= q * IZR (Z.of_nat (length (sorted valores)) - 1))%R).
      { assert (Hkr : (1 <= IZR k <= 3)%R) by (split; apply IZR_le; lia).
        apply position_range; [now apply length_pos_Z | lra]. }
      rewrite (int_of_float_nonneg _ Hpos) in Hex.
      unfold Spec.quantile. apply Hex. }
    split; [apply (Hq _ 1); [lia | lra]|].
    split; [apply (Hq _ 2); [lia | lra] | apply (Hq _ 3); [lia | lra]].
  - destruct (descriptive_stats_value valores Hne)
      as (mn & mx & Hmn & Hmx & ->).
    eexists. split; [reflexivity|].
    cbn [Desc.min Desc.q1 Desc.median Desc.q3 Desc.max Desc.std_pop
         Desc.std_sample np_le].
    pose proof (quantile_between valores Hne (25 / 100) mn mx ltac:(lra)
                  (py_min_lower _ _ Hmn) (py_max_upper _ _ Hmx)) as H1.
    pose proof (quantile_between valores Hne (75 / 100) mn mx ltac:(lra)
                  (py_min_lower _ _ Hmn) (py_max_upper _ _ Hmx)) as H3.
    pose proof (quantile_mono valores Hne (25 / 100) 0.5
                  ltac:(lra) ltac:(lra) ltac:(lra)).
    pose proof (quantile_mono valores Hne 0.5 (75 / 100)
                  ltac:(lra) ltac:(lra) ltac:(lra)).
    repeat (split; [tauto|]).
    intros H2. rewrite (np_std_value valores 1) by lia.
    destruct (var_pop_le_var_sample valores H2) as [Hp Hps].
    unfold Spec.var_sample in Hps.
    apply sqrt_le_1; [exact Hp | lra | exact Hps].
Qed.

Lemma summary_is_ordered_witness :
  ([3; 1; 2] <> [] /\
   Z.of_nat (length [3; 1; 2]) <= 2 ^ 50 /\
   (forall v, In v [3; 1; 2] -> Z.abs v <= 2 ^ 50)) /\
  (exists st,
     calcular_estatisticas_simples [3; 1; 2] = Ok st /\
     (Est.min st <= Est.q1 st)%R /\ (Est.q1 st <= Est.mediana st)%R /\
     (Est.mediana st <= Est.q3 st)%R /\ (Est.q3 st <= Est.max st)%R /\
     quarter_binary64 (Est.q1 st) /\ quarter_binary64 (Est.mediana st) /\
     quarter_binary64 (Est.q3 st)) /\
  (exists d,
     descriptive_stats [3; 1; 2] = Ok d /\
     np_le (Desc.min d) (Desc.q1 d) /\ np_le (Desc.q1 d) (Desc.median d) /\
     np_le (Desc.median d) (Desc.q3 d) /\ np_le (Desc.q3 d) (Desc.max d) /\
     ((2 <= length [3; 1; 2])%nat -> np_le (Desc.std_pop d) (Desc.std_sample d))).
Proof.
  assert (H : [3; 1; 2] <> []) by discriminate.
  assert (Hn : Z.of_nat (length [3; 1; 2]) <= 2 ^ 50) by (simpl; lia).
  assert (Hv : forall v, In v [3; 1; 2] -> Z.abs v <= 2 ^ 50)
    by (intros v [<-|[<-|[<-|[]]]]; lia).
  split; [repeat split; assumption|].
  exact (summary_is_ordered [3; 1; 2] H Hn Hv).
Defined.

(** ** The fields of the two summaries *)

(** C2, as stated, fails: on [1,2,3,4] the summary of the block runner,
    [calcular_estatisticas_simples], has eight fields, not nine, and none of
    them is a sample standard deviation. *)
Lemma summarize_nine_fields_counterexample :
  ~ (exists st,
       calcular_estatisticas_simples [1; 2; 3; 4] = Ok st /\
       length (Est.items st) = 9%nat).
Proof.
  intros (st & _ & H). simpl in H. lia.
Qed.

(** C2, amended.  On every non-empty list of integers
    [calcular_estatisticas_simples] returns the eight fields n, media, mediana,
    pstdev, q1, q3, min, max, with pstdev the square root of the variance of
    divisor n, and on the empty list it raises its [ValueError]; the nine
    fields, with both std_pop (divisor n) and std_sample (divisor n - 1, NaN
    for a single element), are what [descriptive_stats] returns on a non-empty
    list. *)
Theorem summarize_fields_and_divisors (valores : list Z) :
  valores <> [] ->
  (exists st,
     calcular_estatisticas_simples valores = Ok st /\
     map fst (Est.items st) =
       ["n"; "media"; "mediana"; "pstdev"; "q1"; "q3"; "min"; "max"]%string /\
     Est.n st = Spec.size valores /\
     Est.media st = Spec.mean valores /\
     Est.pstdev st = sqrt (Spec.var_pop valores)) /\
  (exists d,
     descriptive_stats valores = Ok d /\
     Desc.n d = Z.of_nat (length valores) /\
     Desc.mean d = Fin (Spec.mean valores) /\
     Desc.std_pop d = Fin (sqrt (Spec.var_pop valores)) /\
     ((2 <= length valores)%nat ->
      Desc.std_sample d = Fin (sqrt (Spec.var_sample valores))) /\
     (length valores = 1%nat -> Desc.std_sample d = NaN)) /\
  calcular_estatisticas_simples [] =
    Raise (ValueError "Lista de valores vazia para cálculo estatístico.").
Proof.
  intros Hne. split; [|split].
  - destruct (calcular_estatisticas_simples_spec valores Hne)
      as (mn & mx & _ & _ & ->).
    eexists. split; [reflexivity|]. repeat split.
  - destruct (descriptive_stats_value valores Hne)
      as (mn & mx & _ & _ & ->).
    eexists. split; [reflexivity|].
    cbn [Desc.n Desc.mean Desc.std_pop Desc.std_sample].
    repeat (split; [reflexivity|]). split.
    + intros H2. rewrite (np_std_value valores 1) by lia. reflexivity.
    + intros H1. unfold np_std. rewrite np_var_sample_nan by lia. reflexivity.
  - exact calcular_estatisticas_simples_empty.
Qed.

Lemma summarize_fields_and_divisors_witness :
  [1; 2; 3; 4] <> [] /\
  (exists st,
     calcular_estatisticas_simples [1; 2; 3; 4] = Ok st /\
     map fst (Est.items st) =
       ["n"; "media"; "mediana"; "pstdev"; "q1"; "q3"; "min"; "max"]%string /\
     Est.n st = Spec.size [1; 2; 3; 4] /\
     Est.media st = Spec.mean [1; 2; 3; 4] /\
     Est.pstdev st = sqrt (Spec.var_pop [1; 2; 3; 4])).
Proof.
  assert (H : [1; 2; 3; 4] <> []) by discriminate.
  split; [exact H | exact (proj1 (summarize_fields_and_divisors [1; 2; 3; 4] H))].
Defined.

(** ** [welch_ttest] *)

Lemma var_sample_nonneg (x : list Z) :
  (2 <= length x)%nat -> (0 <= Spec.var_sample x / Spec.size x)%R.
Proof.
  intros H. destruct (var_pop_le_var_sample x H) as [H0 H1].
  assert (Hn : (2 <= Spec.size x)%R) by (rewrite size_IZR; apply IZR_le; lia).
  apply Rmult_le_pos; [lra|]. apply Rlt_le, Rinv_0_lt_compat. lra.
Qed.

Lemma np_var_sample_value (x : list Z) :
  (2 <= length x)%nat -> np_var x 1 = Fin (Spec.var_sample x).
Proof. intros H. rewrite np_var_value by lia. reflexivity. Qed.

(** The term [s / n] of the standard error: finite and non-negative with two
    elements or more, NaN otherwise. *)
Lemma np_var_over_n (x : list Z) :
  ((2 <= length x)%nat /\
   np_div (np_var x 1) (np_of_int (Z.of_nat (length x)))
   = Fin (Spec.var_sample x / Spec.size x)) \/
  ((length x <= 1)%nat /\
   np_div (np_var x 1) (np_of_int (Z.of_nat (length x))) = NaN).
Proof.
  destruct (le_lt_dec 2 (length x)) as [H|H].
  - left. split; [exact H|]. rewrite np_var_sample_value by exact H.
    unfold np_of_int. rewrite np_div_fin.
    + now rewrite size_IZR.
    + apply not_0_IZR. lia.
  - right. split; [lia|]. rewrite np_var_sample_nan by lia. reflexivity.
Qed.

Lemma math_sqrt_np_fin (v : R) :
  (0 <= v)%R -> math_sqrt_np (Fin v) = Ok (Fin (sqrt v)).
Proof. intros H. simpl. now rewrite math_sqrt_nonneg. Qed.

Lemma np_div_nan_r (a : npfloat) : np_div a NaN = NaN.
Proof. now destruct a. Qed.

Lemma np_sign_inf_not_finite (x : R) : ~ is_finite (np_sign_inf x).
Proof.
  unfold np_sign_inf. intros [v Hv].
  destruct (Req_dec_T x 0); [discriminate|].
  destruct (Rlt_dec 0 x); discriminate.
Qed.

Lemma np_sub_fin (a b : R) : np_sub (Fin a) (Fin b) = Fin (a - b).
Proof. reflexivity. Qed.

Section WelchProperties.
Variable t_sf : npfloat -> npfloat -> npfloat.

  (** With two elements or more on each side and a non-zero standard error,
      [welch_ttest] returns the statistic of the specification. *)
Lemma welch_ttest_regular (x y : list Z) :
    (2 <= length x)%nat -> (2 <= length y)%nat -> Spec.se2 x y <> 0%R ->
    exists r,
      welch_ttest t_sf x y = Ok r /\ Welch.t_ r = Fin (Spec.welch_t x y).
Proof.
    intros Hx Hy Hse. unfold welch_ttest.
    destruct (np_var_over_n x) as [[_ ->]|[H _]]; [|lia].
    destruct (np_var_over_n y) as [[_ ->]|[H _]]; [|lia].
    pose proof (var_sample_nonneg x Hx). pose proof (var_sample_nonneg y Hy).
    cbn [np_add]. rewrite math_sqrt_np_fin by lra.
    cbn [mbind result_bind mret result_ret].
    eexists. split; [reflexivity|]. cbn [Welch.t_].
    rewrite !np_mean_value by (intros ->; simpl in *; lia).
    rewrite np_sub_fin, np_div_fin; [reflexivity|].
    unfold Spec.se2 in Hse. intros E. apply sqrt_eq_0 in E; lra.
Qed.

  (** With fewer than two elements on a side the result is NaN. *)
Lemma welch_ttest_short (x y : list Z) :
    (length x <= 1)%nat \/ (length y <= 1)%nat ->
    exists r, welch_ttest t_sf x y = Ok r /\ Welch.t_ r = NaN.
Proof.
    intros Hshort. unfold welch_ttest.
    assert (E : np_add (np_div (np_var x 1) (np_of_int (Z.of_nat (length x))))
                       (np_div (np_var y 1) (np_of_int (Z.of_nat (length y))))
                = NaN).
    { destruct (np_var_over_n x) as [[Hx ->]|[_ ->]]; [|reflexivity].
      destruct (np_var_over_n y) as [[Hy ->]|[_ ->]]; [lia | reflexivity]. }
    rewrite E. cbn [math_sqrt_np mbind result_bind mret result_ret].
    eexists. split; [reflexivity|]. cbn [Welch.t_]. apply np_div_nan_r.
Qed.

  (** With a zero standard error the division is by zero: the result is an
      infinity or NaN. *)
Lemma welch_ttest_degenerate (x y : list Z) :
    (2 <= length x)%nat -> (2 <= length y)%nat -> Spec.se2 x y = 0%R ->
    exists r,
      welch_ttest t_sf x y = Ok r /\
      Welch.t_ r = np_sign_inf (Spec.mean x - Spec.mean y).
Proof.
    intros Hx Hy Hse. unfold welch_ttest.
    destruct (np_var_over_n x) as [[_ ->]|[H _]]; [|lia].
    destruct (np_var_over_n y) as [[_ ->]|[H _]]; [|lia].
    cbn [np_add]. fold (Spec.se2 x y). rewrite Hse.
    rewrite math_sqrt_np_fin by lra.
    cbn [mbind result_bind mret result_ret].
    eexists. split; [reflexivity|]. cbn [Welch.t_].
    rewrite !np_mean_value by (intros ->; simpl in *; lia).
    rewrite np_sub_fin, sqrt_0. apply np_div_by_zero.
Qed.

  (** C3, amended.  [welch_ttest] raises on no pair of inputs.  Its t is the
      finite statistic of the specification when both sequences have at
      least two elements and varX/nX + varY/nY is not zero; when a sequence
      has fewer than two elements, or that quantity is zero, the t it returns
      is NaN or an infinity. *)
Theorem welch_ttest_never_raises (x y : list Z) :
    exists r,
      welch_ttest t_sf x y = Ok r /\
      ((2 <= length x)%nat /\ (2 <= length y)%nat /\ Spec.se2 x y <> 0%R ->
       Welch.t_ r = Fin (Spec.welch_t x y)) /\
      ((length x < 2)%nat \/ (length y < 2)%nat \/ Spec.se2 x y = 0%R ->
       ~ is_finite (Welch.t_ r)).
Proof.
    destruct (le_lt_dec 2 (length x)) as [Hx|Hx];
      [destruct (le_lt_dec 2 (length y)) as [Hy|Hy];
       [destruct (Req_dec_T (Spec.se2 x y) 0) as [Hse|Hse]|]|].
    - destruct (welch_ttest_degenerate x y Hx Hy Hse) as (r & Hr & Ht).
      exists r. split; [exact Hr|]. split.
      + intros (_ & _ & N). contradiction.
      + intros _. rewrite Ht. apply np_sign_inf_not_finite.
    - destruct (welch_ttest_regular x y Hx Hy Hse) as (r & Hr & Ht).
      exists r. split; [exact Hr|]. split.
      + intros _. exact Ht.
      + intros [H|[H|H]]; [lia | lia | contradiction].
    - destruct (welch_ttest_short x y) as (r & Hr & Ht); [right; lia|].
      exists r. split; [exact Hr|]. split.
      + intros (_ & H & _). lia.
      + intros _. rewrite Ht. intros [v Hv]. discriminate.
    - destruct (welch_ttest_short x y) as (r & Hr & Ht); [left; lia|].
      exists r. split; [exact Hr|]. split.
      + intros (H & _). lia.
      + intros _. rewrite Ht. intros [v Hv]. discriminate.
Qed.
End WelchProperties.

(** C3, as stated, fails: with a single element on one side [welch_ttest]
    does not raise (it returns a record whose t is NaN). *)
Lemma welch_ttest_short_input_counterexample :
  ~ is_raise (welch_ttest (fun _ _ => NaN) [1] [1; 2]).
Proof.
  destruct (welch_ttest_short (fun _ _ => NaN) [1] [1; 2]) as (r & Hr & _).
  - left. simpl. lia.
  - apply is_ok_not_raise. exists r. exact Hr.
Qed.

Lemma welch_ttest_never_raises_witness :
  ((length [1] < 2)%nat \/ (length [1; 2] < 2)%nat \/ Spec.se2 [1] [1; 2] = 0%R) /\
  exists r,
    welch_ttest (fun _ _ => NaN) [1] [1; 2] = Ok r /\ ~ is_finite (Welch.t_ r).
Proof.
  assert (H : (length [1] < 2)%nat \/ (length [1; 2] < 2)%nat
              \/ Spec.se2 [1] [1; 2] = 0%R) by (left; simpl; lia).
  split; [exact H|].
  destruct (welch_ttest_never_raises (fun _ _ => NaN) [1] [1; 2])
    as (r & Hr & _ & Hnf).
  exists r. split; [exact Hr | exact (Hnf H)].
Defined.

(** ** The script [calcular_estatisticas.py] *)

Lemma var_pop_nonneg (v : list Z) : v <> [] -> (0 <= Spec.var_pop v)%R.
Proof.
  intros H. unfold Spec.var_pop. apply Rmult_le_pos; [apply sq_dev_nonneg|].
  apply Rlt_le, Rinv_0_lt_compat, size_pos, H.
Qed.

Lemma resumo_value (v : list Z) :
  v <> [] ->
  exists mn mx,
    resumo v =
      Ok {| Resumo.n := Z.of_nat (length v);
            Resumo.mean := Fin (Spec.mean v);
            Resumo.median := Fin (Spec.quantile (sorted v) 0.5);
            Resumo.std_pop := Fin (sqrt (Spec.var_pop v));
            Resumo.q1 := Fin (Spec.quantile (sorted v) 0.25);
            Resumo.q3 := Fin (Spec.quantile (sorted v) 0.75);
            Resumo.min := mn;
            Resumo.max := mx |}.
Proof.
  intros Hv. pose proof (length_pos_Z v Hv) as Hn.
  destruct (py_min_ok v Hv) as [mn Hmn], (py_max_ok v Hv) as [mx Hmx].
  exists mn, mx. unfold resumo.
  rewrite (proj2 (np_min_py_min v mn) Hmn), (proj2 (np_max_py_max v mx) Hmx).
  cbn [mbind result_bind mret result_ret].
  rewrite np_mean_value, np_median_value, !np_quantile_value by exact Hv.
  rewrite (np_std_value v 0) by lia.
  unfold Spec.var_pop. now rewrite Rminus_0_r.
Qed.

Lemma resumo_empty : is_raise (resumo []).
Proof. eexists. reflexivity. Qed.

Lemma py_div_fin (a b : R) :
  b <> 0%R -> py_div (Fin a) (Fin b) = Ok (Fin (a / b)).
Proof.
  intros H. unfold py_div. destruct (Req_dec_T b 0); [contradiction|].
  now rewrite np_div_fin.
Qed.

Lemma py_div_zero (a : npfloat) : py_div a (Fin 0) = Raise ZeroDivisionError.
Proof. unfold py_div. destruct (Req_dec_T 0 0); [reflexivity | congruence]. Qed.

Lemma np_sq_sqrt (v : R) : (0 <= v)%R -> np_sq (Fin (sqrt v)) = Fin v.
Proof. intros H. unfold np_sq. simpl. now rewrite sqrt_sqrt. Qed.

Lemma var_pop_single (v : list Z) : length v = 1%nat -> Spec.var_pop v = 0%R.
Proof.
  destruct v as [|a [|b v]]; try discriminate. intros _.
  unfold Spec.var_pop, Spec.sq_dev, Spec.mean, Spec.total, Spec.size.
  cbn. field.
Qed.

Lemma sum_sq_over_pos_ne_0 (a b c d : R) :
  (0 <= a)%R -> (0 <= b)%R -> (0 < c)%R -> (0 < d)%R ->
  a <> 0%R \/ b <> 0%R -> (a * a / c + b * b / d)%R <> 0%R.
Proof.
  intros Ha Hb Hc Hd Hab.
  assert (Hic : (0 < / c)%R) by now apply Rinv_0_lt_compat.
  assert (Hid : (0 < / d)%R) by now apply Rinv_0_lt_compat.
  assert (H1 : (0 <= a * a * / c)%R) by (apply Rmult_le_pos; nra).
  assert (H2 : (0 <= b * b * / d)%R) by (apply Rmult_le_pos; nra).
  unfold Rdiv. apply Rgt_not_eq. destruct Hab as [N|N].
  - assert (0 < a * a * / c)%R by (apply Rmult_lt_0_compat; nra). lra.
  - assert (0 < b * b * / d)%R by (apply Rmult_lt_0_compat; nra). lra.
Qed.

Section ScriptProperties.
Variable student_t_sf student_t_cdf : npfloat -> npfloat -> npfloat.
Variable rows : list (Z * Z * Z).

Let x := map (fun row : Z * Z * Z => snd (fst row)) rows.
Let y := map (fun row : Z * Z * Z => snd row) rows.

  (** The quantity the script puts under the square root: population
      variances over n. *)
Let v := (Spec.var_pop x / Spec.size x + Spec.var_pop y / Spec.size y)%R.

  (** On rows whose two columns are not both constant the script prints
      [(mean x - mean y) / sqrt(v)], [v] built on the population variances. *)
Lemma calcular_estatisticas_regular :
    rows <> [] -> v <> 0%R ->
    exists r,
      calcular_estatisticas student_t_sf student_t_cdf rows = Ok r /\
      Script.t_stat r = Fin ((Spec.mean x - Spec.mean y) / sqrt v).
Proof.
    intros Hrows Hv.
    assert (Hx : x <> []) by (unfold x; destruct rows; [congruence | discriminate]).
    assert (Hy : y <> []) by (unfold y; destruct rows; [congruence | discriminate]).
    assert (Hlx : length x = length rows) by (unfold x; apply length_map).
    assert (Hly : length y = length rows) by (unfold y; apply length_map).
    pose proof (var_pop_nonneg x Hx) as Hvx.
    pose proof (var_pop_nonneg y Hy) as Hvy.
    pose proof (size_pos x Hx) as Hsx. pose proof (size_pos y Hy) as Hsy.
    assert (Hn2 : (2 <= length rows)%nat).
    { destruct (le_lt_dec 2 (length rows)) as [H|H]; [exact H|].
      exfalso. apply Hv. unfold v.
      assert (length rows = 1%nat) by (destruct rows; [congruence | simpl in *; lia]).
      rewrite !var_pop_single by congruence. lra. }
    destruct (resumo_value x Hx) as (mnx & mxx & Ex).
    destruct (resumo_value y Hy) as (mny & mxy & Ey).
    unfold calcular_estatisticas. fold x y. rewrite Ex, Ey.
    cbn [mbind result_bind mret result_ret Resumo.mean Resumo.std_pop Resumo.n].
    rewrite !np_sq_sqrt by assumption.
    unfold np_of_int. rewrite <- !size_IZR.
    rewrite !py_div_fin by lra.
    cbn [mbind result_bind mret result_ret np_add]. fold v.
    assert (Hvpos : (0 < v)%R).
    { assert (0 <= Spec.var_pop x / Spec.size x)%R
        by (apply Rmult_le_pos; [lra | apply Rlt_le, Rinv_0_lt_compat; lra]).
      assert (0 <= Spec.var_pop y / Spec.size y)%R
        by (apply Rmult_le_pos; [lra | apply Rlt_le, Rinv_0_lt_compat; lra]).
      unfold v in Hv |- *. lra. }
    rewrite math_sqrt_np_fin by lra.
    cbn [mbind result_bind mret result_ret].
    rewrite np_sub_fin, py_div_fin by (apply Rgt_not_eq, sqrt_lt_R0, Hvpos).
    cbn [mbind result_bind mret result_ret np_mul].
    assert (Hdx : (0 < IZR (Z.of_nat (length x) * Z.of_nat (length x)
                              * (Z.of_nat (length x) - 1)))%R)
      by (apply IZR_lt; nia).
    assert (Hdy : (0 < IZR (Z.of_nat (length y) * Z.of_nat (length y)
                              * (Z.of_nat (length y) - 1)))%R)
      by (apply IZR_lt; nia).
    rewrite !py_div_fin by lra.
    cbn [mbind result_bind mret result_ret np_add np_sq np_mul].
    rewrite py_div_fin.
    - cbn [mbind result_bind mret result_ret]. eexists. split; reflexivity.
    - apply sum_sq_over_pos_ne_0; try assumption.
      destruct (Req_dec_T (Spec.var_pop x) 0) as [E|N]; [|now left].
      right. intros E'. unfold v in Hvpos. rewrite E, E' in Hvpos.
      unfold Rdiv in Hvpos. rewrite !Rmult_0_l in Hvpos. lra.
Qed.

  (** When both columns are constant the division by the zero standard
      error raises. *)
Lemma calcular_estatisticas_degenerate :
    rows <> [] -> v = 0%R ->
    calcular_estatisticas student_t_sf student_t_cdf rows
    = Raise ZeroDivisionError.
Proof.
    intros Hrows Hv.
    assert (Hx : x <> []) by (unfold x; destruct rows; [congruence | discriminate]).
    assert (Hy : y <> []) by (unfold y; destruct rows; [congruence | discriminate]).
    pose proof (var_pop_nonneg x Hx) as Hvx.
    pose proof (var_pop_nonneg y Hy) as Hvy.
    pose proof (size_pos x Hx) as Hsx. pose proof (size_pos y Hy) as Hsy.
    destruct (resumo_value x Hx) as (mnx & mxx & Ex).
    destruct (resumo_value y Hy) as (mny & mxy & Ey).
    unfold calcular_estatisticas. fold x y. rewrite Ex, Ey.
    cbn [mbind result_bind mret result_ret Resumo.mean Resumo.std_pop Resumo.n].
    rewrite !np_sq_sqrt by assumption.
    unfold np_of_int. rewrite <- !size_IZR.
    rewrite !py_div_fin by lra.
    cbn [mbind result_bind mret result_ret np_add]. fold v. rewrite Hv.
    rewrite math_sqrt_np_fin by lra. rewrite sqrt_0.
    cbn [mbind result_bind mret result_ret]. now rewrite py_div_zero.
Qed.
End ScriptProperties.

Lemma mean_0_2 : Spec.mean [0; 2] = 1%R.
Proof. unfold Spec.mean, Spec.total, Spec.size. cbn. field. Qed.

Lemma mean_1_3 : Spec.mean [1; 3] = 2%R.
Proof. unfold Spec.mean, Spec.total, Spec.size. cbn. field. Qed.

Lemma sq_dev_0_2 : Spec.sq_dev [0; 2] = 2%R.
Proof. unfold Spec.sq_dev. rewrite mean_0_2. cbn. ring. Qed.

Lemma sq_dev_1_3 : Spec.sq_dev [1; 3] = 2%R.
Proof. unfold Spec.sq_dev. rewrite mean_1_3. cbn. ring. Qed.

Lemma size_two (a b : Z) : Spec.size [a; b] = 2%R.
Proof. unfold Spec.size. cbn. ring. Qed.

Lemma sqrt_2_gt_1 : (1 < sqrt 2)%R.
Proof. rewrite <- sqrt_1 at 1. apply sqrt_lt_1; lra. Qed.

(** C1, on the script.  The rows (0,0,1), (1,2,3) give the samples
    x = [0,2] and y = [1,3].  [calcular_estatisticas.py] prints
    t_stat = -1, the value obtained from the population variances
    ([std_pop ** 2], divisor n); the statistic on the sample variances
    (divisor n - 1) is -1/sqrt(2), which is what [welch_ttest] returns on the
    same samples. *)
Theorem t_stat_uses_population_variance
    (student_t_sf student_t_cdf : npfloat -> npfloat -> npfloat) :
  (exists r,
     calcular_estatisticas student_t_sf student_t_cdf [(0, 0, 1); (1, 2, 3)]
       = Ok r /\
     Script.t_stat r = Fin (-1) /\
     Script.t_stat r <> Fin (Spec.welch_t [0; 2] [1; 3])) /\
  Spec.welch_t [0; 2] [1; 3] = (-1 / sqrt 2)%R /\
  (exists w,
     welch_ttest student_t_sf [0; 2] [1; 3] = Ok w /\
     Welch.t_ w = Fin (Spec.welch_t [0; 2] [1; 3])).
Proof.
  assert (Hse : Spec.se2 [0; 2] [1; 3] = 2%R).
  { unfold Spec.se2, Spec.var_sample.
    rewrite sq_dev_0_2, sq_dev_1_3, !size_two. field. }
  assert (Hw : Spec.welch_t [0; 2] [1; 3] = (-1 / sqrt 2)%R).
  { unfold Spec.welch_t. rewrite Hse, mean_0_2, mean_1_3. f_equal. ring. }
  split; [|split; [exact Hw|]].
  - destruct (calcular_estatisticas_regular student_t_sf student_t_cdf
                [(0, 0, 1); (1, 2, 3)]) as (r & Hr & Ht).
    + discriminate.
    + cbn [map fst snd]. unfold Spec.var_pop.
      rewrite sq_dev_0_2, sq_dev_1_3, !size_two. lra.
    + cbn [map fst snd] in Ht. unfold Spec.var_pop in Ht.
      rewrite sq_dev_0_2, sq_dev_1_3, !size_two, mean_0_2, mean_1_3 in Ht.
      replace (2 / 2 / 2 + 2 / 2 / 2)%R with 1%R in Ht by field.
      rewrite sqrt_1 in Ht.
      replace ((1 - 2) / 1)%R with (-1)%R in Ht by field.
      exists r. split; [exact Hr|]. split; [exact Ht|].
      rewrite Ht, Hw. intros [= E].
      pose proof sqrt_2_gt_1 as H2.
      assert (E' : (sqrt 2 = 1)%R).
      { apply (f_equal (fun z => - z * sqrt 2)%R) in E.
        field_simplify in E; lra. }
      lra.
  - apply welch_ttest_regular; [simpl; lia | simpl; lia |].
    rewrite Hse. lra.
Qed.

(** ** The structure factory *)

Lemma range_of_contains (n v : Z) :
  range_contains v (range_of n) = true <-> 0 <= v < n.
Proof.
  unfold range_contains, range_of. cbn [start stop step].
  rewrite Z.mod_1_r, Z.eqb_refl, andb_true_r, andb_true_iff.
  rewrite Z.leb_le, Z.ltb_lt. reflexivity.
Qed.

Lemma dict_fromkeys_contains (keys : list Z) (value : bool) (v : Z) :
  dict_contains v (dict_fromkeys keys value) = true <-> v ∈ keys.
Proof.
  unfold dict_contains, dict_fromkeys. rewrite bool_decide_eq_true. split.
  - intros [b Hb]. apply elem_of_list_to_map_2 in Hb.
    apply list_elem_of_fmap in Hb as (k & Heq & Hk).
    injection Heq as -> _. exact Hk.
  - intros Hv.
    destruct (list_to_map ((fun k : Z => (k, value)) <$> keys) !! v) eqn:E;
      [eauto|].
    apply not_elem_of_list_to_map in E. exfalso. apply E.
    apply list_elem_of_fmap. exists (v, value). split; [reflexivity|].
    exact (list_elem_of_fmap_2 (fun k : Z => (k, value)) keys v Hv).
Qed.

Lemma range_iter_range_of (n v : Z) : v ∈ range_iter (range_of n) <-> 0 <= v < n.
Proof.
  unfold range_iter, range_of. cbn [start stop]. rewrite elem_of_seqZ. lia.
Qed.

(** C7, as stated, fails: [criar_estruturas] has no check of its own, and
    returns (an empty range and an empty dict) when asked for 0 elements. *)
Lemma criar_estruturas_zero_counterexample : ~ is_raise (criar_estruturas 0).
Proof. apply is_ok_not_raise. eexists. reflexivity. Qed.

(** C7, amended.  For every element count [criar_estruturas] returns a range
    and a dict, and an integer [v] is a member of either exactly when
    [0 <= v < num_elementos]; with a count of zero or less both are empty. *)
Theorem criar_estruturas_membership (num_elementos v : Z) :
  exists lista_range dicionario,
    criar_estruturas num_elementos = Ok (lista_range, dicionario) /\
    (range_contains v lista_range = true <-> 0 <= v < num_elementos) /\
    (dict_contains v dicionario = true <-> 0 <= v < num_elementos).
Proof.
  eexists _, _. split; [reflexivity|]. split.
  - apply range_of_contains.
  - rewrite dict_fromkeys_contains. apply range_iter_range_of.
Qed.


(** ** The block runner *)

Lemma array_append_clamped (a : list Z) (t : Z) :
  0 <= t -> array_append a (Z.min t (2 ^ 32 - 1)) = Ok (a ++ [Z.min t (2 ^ 32 - 1)]).
Proof.
  intros Ht. unfold array_append, UINT32_MAX.
  destruct (Z.leb_spec 0 (Z.min t (2 ^ 32 - 1))); [|lia].
  destruct (Z.leb_spec (Z.min t (2 ^ 32 - 1)) (2 ^ 32 - 1)); [reflexivity | lia].
Qed.

Lemma M_bind_ok {A B} (m : M A) (f : A -> M B) (w w' : World) (a : A) :
  m w = (Ok a, w') -> (m ≫= f) w = f a w'.
Proof. intros H. unfold mbind, M_bind. now rewrite H. Qed.

Lemma M_bind_raise {A B} (m : M A) (f : A -> M B) (w w' : World) (e : exn) :
  m w = (Raise e, w') -> (m ≫= f) w = (Raise e, w').
Proof. intros H. unfold mbind, M_bind. now rewrite H. Qed.

Lemma firstn_sub_cons {A} (cap len : nat) (x : A) (rest : list A) :
  (len < cap)%nat ->
  firstn (cap - len) (x :: rest) = x :: firstn (cap - S len) rest.
Proof.
  intros H. replace (cap - len)%nat with (S (cap - S len)) by lia. reflexivity.
Qed.

Lemma calcular_estatisticas_simples_ok (l : list Z) :
  l <> [] ->
  exists st,
    calcular_estatisticas_simples l = Ok st /\
    Est.n st = IZR (Z.of_nat (length l)).
Proof.
  intros H.
  destruct (calcular_estatisticas_simples_value l H) as (mn & mx & _ & _ & ->).
  eexists. split; reflexivity.
Qed.

Lemma firstn_cap_app {A} (cap : nat) (a X Y : list A) :
  (a ++ firstn (cap - length a) X)
    ++ firstn (cap - length (a ++ firstn (cap - length a) X)) Y
  = a ++ firstn (cap - length a) (X ++ Y).
Proof.
  rewrite <- app_assoc. f_equal. rewrite firstn_app. f_equal. f_equal.
  rewrite length_app, length_firstn. lia.
Qed.

Section RunnerProperties.
Variable perf_counter_ns : nat -> Z.
Variable randint : nat -> Z -> Z -> Z.
Variables NUM_ELEMENTOS NUM_BUSCAS N_BLOCKS TAMANHO_SAMPLE : Z.

(** [time.perf_counter_ns] is monotonic. *)
Hypothesis clock_mono : forall k, perf_counter_ns k <= perf_counter_ns (S k).

Let tl := tl_at perf_counter_ns.
Let td := td_at perf_counter_ns.
Let valor := valor_at randint NUM_ELEMENTOS.
Let clamp (t : Z) : Z := Z.min t UINT32_MAX.

Lemma tl_nonneg (j : nat) : 0 <= tl j.
Proof using clock_mono. unfold tl, tl_at. pose proof (clock_mono (4 * j)). lia. Qed.

Lemma td_nonneg (j : nat) : 0 <= td j.
Proof using clock_mono.
  unfold td, td_at. pose proof (clock_mono (S (S (4 * j)))). lia.
Qed.

(** One iteration, number [k] of the run. *)
Lemma iteracao_step (lr : range) (d : gmap Z bool) (c : Coletores)
    (k : nat) (e : list Z) :
  1 <= NUM_ELEMENTOS ->
  iteracao perf_counter_ns randint NUM_ELEMENTOS TAMANHO_SAMPLE lr d c
    (mk_world (4 * k) k e)
  = (Ok {| c_tempos_lista := c_tempos_lista c ++ [clamp (tl k)];
           c_tempos_dict := c_tempos_dict c ++ [clamp (td k)];
           c_amostras :=
             if Z.of_nat (length (c_amostras c)) <? TAMANHO_SAMPLE
             then c_amostras c ++ [(valor k, tl k, td k)]
             else c_amostras c;
           c_bloco_lista := c_bloco_lista c ++ [clamp (tl k)];
           c_bloco_dict := c_bloco_dict c ++ [clamp (td k)] |},
     mk_world (4 * S k) (S k) e).
Proof using clock_mono.
  intros Hn.
  unfold iteracao, medir_busca_lista, medir_busca_dict, time_perf_counter_ns,
    random_randint, lift, mbind, M_bind, mret, M_ret.
  cbn [rand_draws clock_reads estruturas].
  destruct (Z.ltb_spec (NUM_ELEMENTOS - 1) 0) as [H|_]; [lia|].
  cbv beta iota. cbn [rand_draws clock_reads estruturas].
  fold (tl_at perf_counter_ns k) (td_at perf_counter_ns k).
  fold tl td. fold (valor_at randint NUM_ELEMENTOS k). fold valor.
  rewrite (array_append_clamped _ (tl k)) by apply tl_nonneg.
  cbv beta iota.
  rewrite (array_append_clamped _ (td k)) by apply td_nonneg.
  cbv beta iota.
  replace (4 * S k)%nat with (S (S (S (S (4 * k))))) by lia.
  reflexivity.
Qed.

(** The sample triple of iteration [j]: the raw times. *)
Let amostra (j : nat) : Amostra := (valor j, tl j, td j).

(** [m] iterations of the inner loop, starting with iteration [k]. *)
Lemma buscas_loop_run (lr : range) (d : gmap Z bool) (m : nat) :
  1 <= NUM_ELEMENTOS ->
  forall (c : Coletores) (k : nat) (e : list Z),
  buscas_loop perf_counter_ns randint NUM_ELEMENTOS TAMANHO_SAMPLE m lr d c
    (mk_world (4 * k) k e)
  = (Ok {| c_tempos_lista :=
             c_tempos_lista c ++ map (fun j => clamp (tl j)) (seq k m);
           c_tempos_dict :=
             c_tempos_dict c ++ map (fun j => clamp (td j)) (seq k m);
           c_amostras :=
             c_amostras c ++
             firstn (Z.to_nat TAMANHO_SAMPLE - length (c_amostras c))
                    (map amostra (seq k m));
           c_bloco_lista :=
             c_bloco_lista c ++ map (fun j => clamp (tl j)) (seq k m);
           c_bloco_dict :=
             c_bloco_dict c ++ map (fun j => clamp (td j)) (seq k m) |},
     mk_world (4 * (k + m)) (k + m) e).
Proof using clock_mono.
  intros Hn. induction m as [|m IH]; intros c k e.
  - cbn [buscas_loop seq map]. rewrite firstn_nil, !app_nil_r.
    rewrite Nat.add_0_r. destruct c. reflexivity.
  - cbn [buscas_loop].
    rewrite (M_bind_ok _ _ _ _ _ (iteracao_step lr d c k e Hn)).
    rewrite IH. cbn [c_tempos_lista c_tempos_dict c_amostras c_bloco_lista
                     c_bloco_dict seq map].
    rewrite <- !app_assoc. cbn [app].
    replace (S k + m)%nat with (k + S m)%nat by lia.
    f_equal. f_equal.
    destruct (Z.ltb_spec (Z.of_nat (length (c_amostras c))) TAMANHO_SAMPLE)
      as [Hlt|Hge].
    + rewrite firstn_sub_cons by lia.
      rewrite <- app_assoc, length_app. cbn [app length].
      now rewrite Nat.add_1_r.
    + replace (Z.to_nat TAMANHO_SAMPLE - length (c_amostras c))%nat
        with 0%nat by lia.
      reflexivity.
Qed.

(** A block of at least one iteration: block number [i] of a run whose
    blocks have [bs] iterations each. *)
Lemma bloco_body_run (lr : range) (d : gmap Z bool) (bs i : nat)
    (c : Coletores) (eb : list Bloco.t) (e : list Z) :
  1 <= NUM_ELEMENTOS -> (1 <= bs)%nat ->
  exists rec c',
    is_bloco_record perf_counter_ns bs i rec /\
    bloco_body perf_counter_ns randint NUM_ELEMENTOS TAMANHO_SAMPLE
      (Z.of_nat bs) lr d (Z.of_nat i) (c, eb) (mk_world (4 * (i * bs)) (i * bs) e)
    = (Ok (c', eb ++ [rec]), mk_world (4 * (S i * bs)) (S i * bs) e) /\
    c_tempos_lista c' =
      c_tempos_lista c ++ map (fun j => clamp (tl j)) (seq (i * bs) bs) /\
    c_tempos_dict c' =
      c_tempos_dict c ++ map (fun j => clamp (td j)) (seq (i * bs) bs) /\
    c_amostras c' =
      c_amostras c ++
      firstn (Z.to_nat TAMANHO_SAMPLE - length (c_amostras c))
             (map amostra (seq (i * bs) bs)).
Proof using clock_mono.
  intros Hn Hbs.
  assert (Hne : forall f : nat -> Z, map f (seq (i * bs) bs) <> []).
  { intros f E. apply (f_equal (@length Z)) in E.
    rewrite length_map, length_seq in E. simpl in E. lia. }
  destruct (calcular_estatisticas_simples_ok _ (Hne (fun j => clamp (tl j))))
    as (sl & Hsl & _).
  destruct (calcular_estatisticas_simples_ok _ (Hne (fun j => clamp (td j))))
    as (sd & Hsd & _).
  eexists (bloco_stats_de (Z.of_nat i) sl sd), _. split.
  { exists sl, sd. repeat split; assumption. }
  unfold bloco_body. rewrite Nat2Z.id.
  erewrite M_bind_ok by (apply buscas_loop_run; exact Hn).
  cbn [c_bloco_lista c_bloco_dict c_tempos_lista c_tempos_dict c_amostras app].
  unfold lift, mbind, M_bind, mret, M_ret. fold clamp tl td.
  rewrite Hsl, Hsd.
  replace (S i * bs)%nat with (i * bs + bs)%nat by lia.
  split; [reflexivity|]. cbn [c_tempos_lista c_tempos_dict c_amostras].
  repeat split.
Qed.

(** A block of no iteration has nothing to summarise: the statistics raise,
    and the world is as it was. *)
Lemma bloco_body_empty (lr : range) (d : gmap Z bool) (block_size bloco : Z)
    (st : Coletores * list Bloco.t) (w : World) :
  block_size <= 0 ->
  bloco_body perf_counter_ns randint NUM_ELEMENTOS TAMANHO_SAMPLE
    block_size lr d bloco st w
  = (Raise (ValueError "Lista de valores vazia para cálculo estatístico."), w).
Proof.
  intros H. destruct st as [c eb]. unfold bloco_body.
  replace (Z.to_nat block_size) with 0%nat by lia.
  cbn [buscas_loop]. unfold lift, mbind, M_bind, mret, M_ret.
  cbn [c_bloco_lista]. reflexivity.
Qed.

(** [m] blocks of at least one iteration, starting with block number [i]. *)
Lemma blocos_loop_run (lr : range) (d : gmap Z bool) (bs m : nat) :
  1 <= NUM_ELEMENTOS -> (1 <= bs)%nat ->
  forall (i : nat) (c : Coletores) (eb : list Bloco.t) (e : list Z),
  exists recs c',
    Forall2 (is_bloco_record perf_counter_ns bs) (seq i m) recs /\
    blocos_loop perf_counter_ns randint NUM_ELEMENTOS TAMANHO_SAMPLE
      m (Z.of_nat bs) lr d (Z.of_nat i) (c, eb)
      (mk_world (4 * (i * bs)) (i * bs) e)
    = (Ok (c', eb ++ recs), mk_world (4 * ((i + m) * bs)) ((i + m) * bs) e) /\
    c_tempos_lista c' =
      c_tempos_lista c ++ map (fun j => clamp (tl j)) (seq (i * bs) (m * bs)) /\
    c_tempos_dict c' =
      c_tempos_dict c ++ map (fun j => clamp (td j)) (seq (i * bs) (m * bs)) /\
    c_amostras c' =
      c_amostras c ++
      firstn (Z.to_nat TAMANHO_SAMPLE - length (c_amostras c))
             (map amostra (seq (i * bs) (m * bs))).
Proof using clock_mono.
  intros Hn Hbs. induction m as [|m IH]; intros i c eb e.
  - exists [], c. split; [constructor|].
    change (0 * bs)%nat with 0%nat.
    cbn [blocos_loop seq map]. rewrite firstn_nil, !app_nil_r.
    rewrite Nat.add_0_r. repeat split.
  - destruct (bloco_body_run lr d bs i c eb e Hn Hbs)
      as (rec & c1 & Hrec & Hrun & Hl & Hd & Ha).
    destruct (IH (S i) c1 (eb ++ [rec]) e)
      as (recs & c' & Hrecs & Hloop & Hl' & Hd' & Ha').
    exists (rec :: recs), c'. split; [cbn [seq]; now constructor|].
    cbn [blocos_loop]. rewrite (M_bind_ok _ _ _ _ _ Hrun).
    replace (Z.of_nat i + 1) with (Z.of_nat (S i)) by lia.
    rewrite Hloop, <- app_assoc. cbn [app].
    replace (S i + m)%nat with (i + S m)%nat by lia.
    split; [reflexivity|].
    replace (S m * bs)%nat with (bs + m * bs)%nat by lia.
    rewrite seq_app, !map_app.
    replace (i * bs + bs)%nat with (S i * bs)%nat by lia.
    rewrite Hl', Hd', Ha', Hl, Hd, Ha, <- !app_assoc.
    repeat split. rewrite app_assoc. apply firstn_cap_app.
Qed.

Let executar : M Saida.t :=
  executar_experimento_por_blocos perf_counter_ns randint
    NUM_ELEMENTOS NUM_BUSCAS N_BLOCKS TAMANHO_SAMPLE.

(** A valid configuration passes the four checks. *)
Lemma executar_valid (w : World) :
  1 <= N_BLOCKS -> 1 <= NUM_BUSCAS -> 1 <= NUM_ELEMENTOS -> 0 <= TAMANHO_SAMPLE ->
  executar w =
    (estr ← criar_estruturas_call NUM_ELEMENTOS;
     let '(lista_range, dicionario) := estr in
     let block_size := NUM_BUSCAS / N_BLOCKS in
     let c0 := {| c_tempos_lista := [];
                  c_tempos_dict := [];
                  c_amostras := [];
                  c_bloco_lista := [];
                  c_bloco_dict := [] |} in
     st ← blocos_loop perf_counter_ns randint NUM_ELEMENTOS TAMANHO_SAMPLE
            (Z.to_nat N_BLOCKS) block_size lista_range dicionario 0 (c0, []);
     let '(c, estatisticas_blocos) := st in
     stats_glob_lista ← lift (calcular_estatisticas_simples (c_tempos_lista c));
     stats_glob_dict ← lift (calcular_estatisticas_simples (c_tempos_dict c));
     mret {| Saida.tempos_lista := c_tempos_lista c;
             Saida.tempos_dict := c_tempos_dict c;
             Saida.amostras := c_amostras c;
             Saida.estatisticas_blocos := estatisticas_blocos;
             Saida.stats_glob_lista := stats_glob_lista;
             Saida.stats_glob_dict := stats_glob_dict |}) w.
Proof.
  intros H1 H2 H3 H4. unfold executar, executar_experimento_por_blocos.
  destruct (Z.leb_spec N_BLOCKS 0); [lia|].
  destruct (Z.leb_spec NUM_BUSCAS 0); [lia|].
  destruct (Z.leb_spec NUM_ELEMENTOS 0); [lia|].
  destruct (Z.ltb_spec TAMANHO_SAMPLE 0); [lia|].
  reflexivity.
Qed.

(** A valid configuration with fewer queries than blocks: the blocks are
    empty, and the statistics of the first one raise.  The structures have
    been built by then; no probe has run. *)
Lemma executar_too_few_queries :
  1 <= N_BLOCKS -> 1 <= NUM_BUSCAS -> 1 <= NUM_ELEMENTOS -> 0 <= TAMANHO_SAMPLE ->
  NUM_BUSCAS < N_BLOCKS ->
  executar world0 =
    (Raise (ValueError "Lista de valores vazia para cálculo estatístico."),
     mk_world 0 0 [NUM_ELEMENTOS]).
Proof.
  intros H1 H2 H3 H4 Hlt. rewrite executar_valid by assumption.
  unfold mbind at 1. unfold M_bind. unfold criar_estruturas_call at 1.
  unfold criar_estruturas. cbn [world0 clock_reads rand_draws estruturas app].
  rewrite Z.div_small by lia.
  destruct (Z.to_nat N_BLOCKS) as [|k] eqn:E; [lia|].
  cbn [blocos_loop].
  erewrite M_bind_raise; [reflexivity|].
  erewrite M_bind_raise; [reflexivity|].
  apply bloco_body_empty. lia.
Qed.

(** A valid configuration with at least one query per block: the whole run,
    in terms of what its iterations observe. *)
Lemma executar_run :
  1 <= N_BLOCKS -> 1 <= NUM_BUSCAS -> 1 <= NUM_ELEMENTOS -> 0 <= TAMANHO_SAMPLE ->
  N_BLOCKS <= NUM_BUSCAS ->
  let bs := Z.to_nat (NUM_BUSCAS / N_BLOCKS) in
  let nb := Z.to_nat N_BLOCKS in
  exists r,
    executar world0 = (Ok r, mk_world (4 * (nb * bs)) (nb * bs) [NUM_ELEMENTOS]) /\
    Saida.tempos_lista r = map (fun j => clamp (tl j)) (seq 0 (nb * bs)) /\
    Saida.tempos_dict r = map (fun j => clamp (td j)) (seq 0 (nb * bs)) /\
    Saida.amostras r =
      firstn (Z.to_nat TAMANHO_SAMPLE) (map amostra (seq 0 (nb * bs))) /\
    Forall2 (is_bloco_record perf_counter_ns bs) (seq 0 nb)
            (Saida.estatisticas_blocos r) /\
    calcular_estatisticas_simples (Saida.tempos_lista r)
      = Ok (Saida.stats_glob_lista r) /\
    calcular_estatisticas_simples (Saida.tempos_dict r)
      = Ok (Saida.stats_glob_dict r).
Proof using clock_mono.
  intros H1 H2 H3 H4 Hle bs nb.
  assert (Hbs : (1 <= bs)%nat).
  { unfold bs. pose proof (Z.div_str_pos NUM_BUSCAS N_BLOCKS ltac:(lia)). lia. }
  assert (Hnb : (1 <= nb)%nat) by (unfold nb; lia).
  destruct (blocos_loop_run (range_of NUM_ELEMENTOS)
              (dict_fromkeys (range_iter (range_of NUM_ELEMENTOS)) true)
              bs nb H3 Hbs 0%nat
              {| c_tempos_lista := []; c_tempos_dict := []; c_amostras := [];
                 c_bloco_lista := []; c_bloco_dict := [] |} []
              [NUM_ELEMENTOS])
    as (recs & c' & Hrecs & Hloop & Hl & Hd & Ha).
  cbn [c_tempos_lista c_tempos_dict c_amostras app length] in Hl, Hd, Ha.
  change (0 * bs)%nat with 0%nat in *. rewrite Nat.sub_0_r in Ha.
  change (4 * 0)%nat with 0%nat in Hloop. cbn [app Nat.add] in Hloop.
  assert (Hne : forall f : nat -> Z, map f (seq 0 (nb * bs)) <> []).
  { intros f E. apply (f_equal (@length Z)) in E.
    rewrite length_map, length_seq in E. simpl in E. nia. }
  destruct (calcular_estatisticas_simples_ok _ (Hne (fun j => clamp (tl j))))
    as (gl & Hgl & _).
  destruct (calcular_estatisticas_simples_ok _ (Hne (fun j => clamp (td j))))
    as (gd & Hgd & _).
  eexists. rewrite executar_valid by assumption.
  unfold mbind at 1. unfold M_bind. unfold criar_estruturas_call at 1.
  unfold criar_estruturas. cbn [world0 clock_reads rand_draws estruturas app].
  replace (NUM_BUSCAS / N_BLOCKS) with (Z.of_nat bs)
    by (unfold bs; rewrite Z2Nat.id; [reflexivity | apply Z.div_pos; lia]).
  fold nb. change (Z.of_nat 0) with 0 in Hloop.
  rewrite (M_bind_ok _ _ _ _ _ Hloop).
  unfold lift, mbind, M_bind, mret, M_ret.
  rewrite Hl, Hd, Hgl, Hgd.
  split; [reflexivity|].
  cbn [Saida.tempos_lista Saida.tempos_dict Saida.amostras
       Saida.estatisticas_blocos Saida.stats_glob_lista Saida.stats_glob_dict].
  repeat split; assumption.
Qed.
End RunnerProperties.


Lemma calcular_estatisticas_simples_n (l : list Z) (st : Est.t) :
  calcular_estatisticas_simples l = Ok st ->
  Est.n st = IZR (Z.of_nat (length l)).
Proof.
  intros H. destruct l as [|x l]; [discriminate H|].
  destruct (calcular_estatisticas_simples_ok (x :: l)) as (st' & E & Hn);
    [discriminate|].
  rewrite E in H. now injection H as <-.
Qed.

Lemma is_bloco_record_n (perf_counter_ns : nat -> Z) (bs i : nat)
    (rec : Bloco.t) :
  is_bloco_record perf_counter_ns bs i rec -> Bloco.n rec = IZR (Z.of_nat bs).
Proof.
  intros (sl & sd & Hsl & _ & ->). cbn [bloco_stats_de Bloco.n].
  rewrite (calcular_estatisticas_simples_n _ _ Hsl).
  now rewrite length_map, length_seq.
Qed.

Lemma Forall2_is_bloco_record_n (perf_counter_ns : nat -> Z) (bs : nat)
    (idx : list nat) (recs : list Bloco.t) :
  Forall2 (is_bloco_record perf_counter_ns bs) idx recs ->
  List.Forall (fun b => Bloco.n b = IZR (Z.of_nat bs)) recs.
Proof.
  induction 1 as [|i rec idx recs Hrec _ IH]; constructor.
  - exact (is_bloco_record_n _ _ _ _ Hrec).
  - exact IH.
Qed.

(** C5, as stated, fails: with 3 queries for 4 blocks (100 elements, a sample
    cap of 5) the blocks are empty and the run raises instead of producing
    4 block records. *)
Lemma runner_three_queries_four_blocks_counterexample :
  ~ (exists r w,
       executar_experimento_por_blocos Z.of_nat (fun _ a _ => a) 100 3 4 5 world0
         = (Ok r, w) /\
       length (Saida.estatisticas_blocos r) = 4%nat).
Proof.
  intros (r & w & H & _).
  rewrite executar_too_few_queries in H by lia. discriminate H.
Qed.

(** C5, amended.  For every valid configuration (elementCount > 0,
    totalQueries > 0, blockCount > 0, sampleCap >= 0) and a monotonic clock:
    when totalQueries >= blockCount the run produces exactly blockCount block
    records, each with sample count totalQueries div blockCount; each global
    timing sequence, and each global summary count, has length
    blockCount * (totalQueries div blockCount), which is also the number of
    queries drawn, so the remainder of the division is never executed; and
    the representative samples number
    min(sampleCap, blockCount * (totalQueries div blockCount)).  When
    totalQueries < blockCount the blocks are empty and the run raises the
    [ValueError] of the statistics on its first block, before any probe. *)
Theorem runner_counts (perf_counter_ns : nat -> Z) (randint : nat -> Z -> Z -> Z)
    (NUM_ELEMENTOS NUM_BUSCAS N_BLOCKS TAMANHO_SAMPLE : Z) :
  (forall k, perf_counter_ns k <= perf_counter_ns (S k)) ->
  1 <= NUM_ELEMENTOS -> 1 <= NUM_BUSCAS -> 1 <= N_BLOCKS -> 0 <= TAMANHO_SAMPLE ->
  (N_BLOCKS <= NUM_BUSCAS ->
   exists r w,
     executar_experimento_por_blocos perf_counter_ns randint
       NUM_ELEMENTOS NUM_BUSCAS N_BLOCKS TAMANHO_SAMPLE world0 = (Ok r, w) /\
     Z.of_nat (length (Saida.estatisticas_blocos r)) = N_BLOCKS /\
     List.Forall (fun b => Bloco.n b = IZR (NUM_BUSCAS / N_BLOCKS))
       (Saida.estatisticas_blocos r) /\
     Z.of_nat (length (Saida.tempos_lista r))
       = N_BLOCKS * (NUM_BUSCAS / N_BLOCKS) /\
     Z.of_nat (length (Saida.tempos_dict r))
       = N_BLOCKS * (NUM_BUSCAS / N_BLOCKS) /\
     Est.n (Saida.stats_glob_lista r)
       = IZR (N_BLOCKS * (NUM_BUSCAS / N_BLOCKS)) /\
     Est.n (Saida.stats_glob_dict r)
       = IZR (N_BLOCKS * (NUM_BUSCAS / N_BLOCKS)) /\
     Z.of_nat (rand_draws w) = N_BLOCKS * (NUM_BUSCAS / N_BLOCKS) /\
     Z.of_nat (length (Saida.amostras r))
       = Z.min TAMANHO_SAMPLE (N_BLOCKS * (NUM_BUSCAS / N_BLOCKS))) /\
  (NUM_BUSCAS < N_BLOCKS ->
   exists w,
     executar_experimento_por_blocos perf_counter_ns randint
       NUM_ELEMENTOS NUM_BUSCAS N_BLOCKS TAMANHO_SAMPLE world0
     = (Raise (ValueError "Lista de valores vazia para cálculo estatístico."), w)
     /\ clock_reads w = 0%nat).
Proof.
  intros Hmono HE HB HN HS. split.
  - intros Hle.
    destruct (executar_run perf_counter_ns randint NUM_ELEMENTOS NUM_BUSCAS
                N_BLOCKS TAMANHO_SAMPLE Hmono HN HB HE HS Hle)
      as (r & Hrun & Hl & Hd & Ha & Hrecs & Hgl & Hgd).
    assert (Hdiv : 0 <= NUM_BUSCAS / N_BLOCKS) by (apply Z.div_pos; lia).
    assert (Htot : Z.of_nat (Z.to_nat N_BLOCKS * Z.to_nat (NUM_BUSCAS / N_BLOCKS))
                   = N_BLOCKS * (NUM_BUSCAS / N_BLOCKS))
      by (rewrite Nat2Z.inj_mul, !Z2Nat.id; lia).
    eexists r, _. split; [exact Hrun|].
    split.
    { apply Forall2_length in Hrecs. rewrite length_seq in Hrecs.
      rewrite <- Hrecs. lia. }
    split.
    { apply Forall2_is_bloco_record_n in Hrecs.
      rewrite Z2Nat.id in Hrecs by exact Hdiv. exact Hrecs. }
    rewrite (calcular_estatisticas_simples_n _ _ Hgl).
    rewrite (calcular_estatisticas_simples_n _ _ Hgd).
    rewrite Hl, Hd, Ha. cbn [rand_draws].
    rewrite length_firstn, !length_map, !length_seq, Htot.
    repeat (split; [reflexivity|]).
    rewrite Nat2Z.inj_min, Htot, Z2Nat.id by lia. reflexivity.
  - intros Hlt. eexists.
    rewrite executar_too_few_queries by assumption. split; reflexivity.
Qed.

Lemma runner_counts_witness :
  (forall k, Z.of_nat k <= Z.of_nat (S k)) /\
  1 <= 100 /\ 1 <= 41 /\ 1 <= 4 /\ 0 <= 5 /\ 4 <= 41 /\
  exists r w,
    executar_experimento_por_blocos Z.of_nat (fun _ a _ => a) 100 41 4 5 world0
      = (Ok r, w) /\
    Z.of_nat (length (Saida.estatisticas_blocos r)) = 4 /\
    List.Forall (fun b => Bloco.n b = IZR (41 / 4)) (Saida.estatisticas_blocos r) /\
    Z.of_nat (length (Saida.tempos_lista r)) = 4 * (41 / 4) /\
    Z.of_nat (length (Saida.tempos_dict r)) = 4 * (41 / 4) /\
    Est.n (Saida.stats_glob_lista r) = IZR (4 * (41 / 4)) /\
    Est.n (Saida.stats_glob_dict r) = IZR (4 * (41 / 4)) /\
    Z.of_nat (rand_draws w) = 4 * (41 / 4) /\
    Z.of_nat (length (Saida.amostras r)) = Z.min 5 (4 * (41 / 4)).
Proof.
  assert (H0 : forall k, Z.of_nat k <= Z.of_nat (S k)) by (intros k; lia).
  assert (H1 : 1 <= 100) by lia. assert (H2 : 1 <= 41) by lia.
  assert (H3 : 1 <= 4) by lia. assert (H4 : 0 <= 5) by lia.
  assert (H5 : 4 <= 41) by lia.
  repeat (split; [assumption|]).
  exact (proj1 (runner_counts Z.of_nat (fun _ a _ => a) 100 41 4 5
                  H0 H1 H2 H3 H4) H5).
Defined.

(** C6.  If blockCount <= 0, or totalQueries <= 0, or elementCount <= 0, or
    sampleCap < 0, the run raises a [ValueError] and leaves the world as it
    found it: no structure has been built, the clock has not been read and no
    query value drawn, and no output exists. *)
Theorem invalid_configuration_rejected (perf_counter_ns : nat -> Z)
    (randint : nat -> Z -> Z -> Z)
    (NUM_ELEMENTOS NUM_BUSCAS N_BLOCKS TAMANHO_SAMPLE : Z) (w : World) :
  N_BLOCKS <= 0 \/ NUM_BUSCAS <= 0 \/ NUM_ELEMENTOS <= 0 \/ TAMANHO_SAMPLE < 0 ->
  exists msg,
    executar_experimento_por_blocos perf_counter_ns randint
      NUM_ELEMENTOS NUM_BUSCAS N_BLOCKS TAMANHO_SAMPLE w
    = (Raise (ValueError msg), w).
Proof.
  intros H. unfold executar_experimento_por_blocos.
  destruct (Z.leb_spec N_BLOCKS 0) as [_|HN]; [eexists; reflexivity|].
  destruct (Z.leb_spec NUM_BUSCAS 0) as [_|HB]; [eexists; reflexivity|].
  destruct (Z.leb_spec NUM_ELEMENTOS 0) as [_|HE]; [eexists; reflexivity|].
  destruct (Z.ltb_spec TAMANHO_SAMPLE 0) as [_|HS]; [eexists; reflexivity|].
  lia.
Qed.

Lemma invalid_configuration_rejected_witness :
  (4 <= 0 \/ 40 <= 0 \/ 0 <= 0 \/ 5 < 0) /\
  exists msg,
    executar_experimento_por_blocos Z.of_nat (fun _ a _ => a) 0 40 4 5 world0
    = (Raise (ValueError msg), world0).
Proof.
  assert (H : 4 <= 0 \/ 40 <= 0 \/ 0 <= 0 \/ 5 < 0) by lia.
  split; [exact H|].
  exact (invalid_configuration_rejected Z.of_nat (fun _ a _ => a) 0 40 4 5
           world0 H).
Defined.

(** C8.  In a run (valid configuration, at least one query per block,
    monotonic clock) the two global timing sequences hold, iteration by
    iteration, min(raw elapsed, 2^32 - 1), so that no stored value exceeds
    2^32 - 1; the record of every block is the summary of the same clamped
    values of that block's iterations; and the representative samples are the
    first sampleCap triples (value, raw time, raw time), unclamped. *)
Theorem stored_times_are_clamped (perf_counter_ns : nat -> Z)
    (randint : nat -> Z -> Z -> Z)
    (NUM_ELEMENTOS NUM_BUSCAS N_BLOCKS TAMANHO_SAMPLE : Z) :
  (forall k, perf_counter_ns k <= perf_counter_ns (S k)) ->
  1 <= NUM_ELEMENTOS -> 1 <= N_BLOCKS -> N_BLOCKS <= NUM_BUSCAS ->
  0 <= TAMANHO_SAMPLE ->
  let bs := Z.to_nat (NUM_BUSCAS / N_BLOCKS) in
  let nb := Z.to_nat N_BLOCKS in
  exists r w,
    executar_experimento_por_blocos perf_counter_ns randint
      NUM_ELEMENTOS NUM_BUSCAS N_BLOCKS TAMANHO_SAMPLE world0 = (Ok r, w) /\
    Saida.tempos_lista r =
      map (fun j => Z.min (tl_at perf_counter_ns j) (2 ^ 32 - 1))
          (seq 0 (nb * bs)) /\
    Saida.tempos_dict r =
      map (fun j => Z.min (td_at perf_counter_ns j) (2 ^ 32 - 1))
          (seq 0 (nb * bs)) /\
    List.Forall (fun t => t <= 2 ^ 32 - 1)
      (Saida.tempos_lista r ++ Saida.tempos_dict r) /\
    Forall2 (is_bloco_record perf_counter_ns bs) (seq 0 nb)
      (Saida.estatisticas_blocos r) /\
    Saida.amostras r =
      firstn (Z.to_nat TAMANHO_SAMPLE)
        (map (fun j => (valor_at randint NUM_ELEMENTOS j,
                        tl_at perf_counter_ns j, td_at perf_counter_ns j))
             (seq 0 (nb * bs))).
Proof.
  intros Hmono HE HN Hle HS bs nb.
  destruct (executar_run perf_counter_ns randint NUM_ELEMENTOS NUM_BUSCAS
              N_BLOCKS TAMANHO_SAMPLE Hmono HN ltac:(lia) HE HS Hle)
    as (r & Hrun & Hl & Hd & Ha & Hrecs & _).
  eexists r, _. split; [exact Hrun|].
  split; [exact Hl|]. split; [exact Hd|].
  split; [|split; [exact Hrecs | exact Ha]].
  rewrite Hl, Hd. apply List.Forall_app.
  split; apply List.Forall_forall; intros t Ht;
    apply in_map_iff in Ht as (j & <- & _); unfold UINT32_MAX; lia.
Qed.

Lemma stored_times_are_clamped_witness :
  (forall k, Z.of_nat k <= Z.of_nat (S k)) /\
  1 <= 100 /\ 1 <= 4 /\ 4 <= 40 /\ 0 <= 5 /\
  exists r w,
    executar_experimento_por_blocos Z.of_nat (fun _ a _ => a) 100 40 4 5 world0
      = (Ok r, w) /\
    Saida.tempos_lista r =
      map (fun j => Z.min (tl_at Z.of_nat j) (2 ^ 32 - 1))
          (seq 0 (Z.to_nat 4 * Z.to_nat (40 / 4))) /\
    Saida.tempos_dict r =
      map (fun j => Z.min (td_at Z.of_nat j) (2 ^ 32 - 1))
          (seq 0 (Z.to_nat 4 * Z.to_nat (40 / 4))) /\
    List.Forall (fun t => t <= 2 ^ 32 - 1)
      (Saida.tempos_lista r ++ Saida.tempos_dict r) /\
    Forall2 (is_bloco_record Z.of_nat (Z.to_nat (40 / 4))) (seq 0 (Z.to_nat 4))
      (Saida.estatisticas_blocos r) /\
    Saida.amostras r =
      firstn (Z.to_nat 5)
        (map (fun j => (valor_at (fun _ a _ => a) 100 j,
                        tl_at Z.of_nat j, td_at Z.of_nat j))
             (seq 0 (Z.to_nat 4 * Z.to_nat (40 / 4)))).
Proof.
  assert (H0 : forall k, Z.of_nat k <= Z.of_nat (S k)) by (intros k; lia).
  assert (H1 : 1 <= 100) by lia. assert (H2 : 1 <= 4) by lia.
  assert (H3 : 4 <= 40) by lia. assert (H4 : 0 <= 5) by lia.
  repeat (split; [assumption|]).
  exact (stored_times_are_clamped Z.of_nat (fun _ a _ => a) 100 40 4 5
           H0 H1 H2 H3 H4).
Defined.

(** ** [calcular_estatisticas_simples] and the caller's list *)

Lemma heap_quantil_read (n : Z) (sorted_arr : Heap.loc) (q : R)
    (h : Heap.store) :
  Heap.quantil n sorted_arr q h = (quantil n (Heap.deref h sorted_arr) q, h).
Proof.
  unfold Heap.quantil, quantil, Heap.getitem, Heap.read.
  unfold mbind, Heap.H_bind, result_bind, mret, Heap.H_ret, result_ret.
  destruct (getitem (Heap.deref h sorted_arr) _) as [a|e]; [|reflexivity].
  destruct (getitem (Heap.deref h sorted_arr) _) as [b|e]; reflexivity.
Qed.

Lemma heap_deref_lookup (h : Heap.store) (l : Heap.loc) (v : list Z) :
  h !! l = Some v -> Heap.deref h l = v.
Proof. intros H. unfold Heap.deref. now rewrite H. Qed.

(** C10.  Called on a reference to a non-empty list, the function returns
    the statistics of that list and leaves it, and every other list of the
    store, as it was: the only change to the store is the new list that
    [sorted] allocates, at a location that was free. *)
Theorem summarize_leaves_input_unchanged (h : Heap.store)
    (valores : Heap.loc) (l : list Z) :
  h !! valores = Some l -> l <> [] ->
  exists st h',
    Heap.calcular_estatisticas_simples valores h = (Ok st, h') /\
    calcular_estatisticas_simples l = Ok st /\
    h' !! valores = Some l /\
    (forall k v, h !! k = Some v -> h' !! k = Some v) /\
    h !! fresh (dom h) = None /\
    h' = <[fresh (dom h) := sorted l]> h.
Proof.
  intros Hv Hne.
  pose proof (is_fresh (dom h)) as Hfresh.
  assert (Hnone : h !! fresh (dom h) = None)
    by (apply not_elem_of_dom; exact Hfresh).
  destruct (calcular_estatisticas_simples_value l Hne)
    as (mn & mx & Hmn & Hmx & Hst).
  eexists _, (<[fresh (dom h) := sorted l]> h).
  split; [|split; [exact Hst|split; [|split; [|split; [exact Hnone | reflexivity]]]]].
  - unfold Heap.calcular_estatisticas_simples, Heap.len, Heap.sum, Heap.fsum,
      Heap.min, Heap.max, Heap.sorted, Heap.read, Heap.hraise.
    pose proof (heap_deref_lookup h valores l Hv) as Hd.
    pose proof (length_pos_Z l Hne) as Hn.
    unfold mbind at 1. unfold Heap.H_bind. rewrite Hd.
    destruct (Z.eqb_spec (Z.of_nat (length l)) 0) as [E|_]; [lia|].
    unfold mbind at 1 2 3 4 5 6. unfold Heap.H_bind. rewrite !Hd.
    rewrite math_sqrt_nonneg.
    2:{ apply Rmult_le_pos; [apply ssd_nonneg|].
        apply Rlt_le, Rinv_0_lt_compat, IZR_length_pos, Hne. }
    rewrite Hmn, Hmx.
    unfold mbind, Heap.H_bind. rewrite !heap_quantil_read.
    rewrite (heap_deref_lookup _ _ (sorted l)) by apply lookup_insert_eq.
    assert (Hs : sorted l <> []).
    { intros E. apply (f_equal (@length Z)) in E.
      rewrite sorted_length in E. simpl in E. lia. }
    rewrite <- (sorted_length l).
    rewrite !quantil_ok by (try exact Hs; lra).
    reflexivity.
  - rewrite lookup_insert_ne; [exact Hv|]. intros E. rewrite E in Hnone. congruence.
  - intros k v Hk. rewrite lookup_insert_ne; [exact Hk|].
    intros E. rewrite E in Hnone. congruence.
Qed.

Lemma summarize_leaves_input_unchanged_witness :
  ({[ 7%nat := [3; 1; 2] ]} : Heap.store) !! 7%nat = Some [3; 1; 2] /\
  [3; 1; 2] <> [] /\
  exists st h',
    Heap.calcular_estatisticas_simples 7%nat {[ 7%nat := [3; 1; 2] ]}
      = (Ok st, h') /\
    calcular_estatisticas_simples [3; 1; 2] = Ok st /\
    h' !! 7%nat = Some [3; 1; 2].
Proof.
  assert (H1 : ({[ 7%nat := [3; 1; 2] ]} : Heap.store) !! 7%nat = Some [3; 1; 2])
    by reflexivity.
  assert (H2 : [3; 1; 2] <> []) by discriminate.
  split; [exact H1|]. split; [exact H2|].
  destruct (summarize_leaves_input_unchanged _ _ _ H1 H2)
    as (st & h' & Hrun & Hpure & Hsame & _).
  exists st, h'. repeat split; assumption.
Defined.


(** * Further properties of the code *)

(** ** [calcular_estatisticas_simples] depends on the values only *)

Lemma py_sum_perm (l l' : list Z) : Permutation l l' -> py_sum l = py_sum l'.
Proof.
  induction 1 as [|x l l' _ IH|x y l|l l' l'' _ IH1 _ IH2].
  - reflexivity.
  - rewrite !py_sum_cons. lia.
  - rewrite !py_sum_cons. lia.
  - congruence.
Qed.

Lemma py_fsum_perm (l l' : list R) : Permutation l l' -> py_fsum l = py_fsum l'.
Proof.
  induction 1 as [|x l l' _ IH|x y l|l l' l'' _ IH1 _ IH2].
  - reflexivity.
  - rewrite !py_fsum_cons. lra.
  - rewrite !py_fsum_cons. lra.
  - congruence.
Qed.

Lemma fold_left_min_In (t : list Z) (a : Z) : In (fold_left Z.min t a) (a :: t).
Proof.
  revert a. induction t as [|x t IH]; intros a; simpl.
  - now left.
  - destruct (IH (Z.min a x)) as [H|H].
    + rewrite <- H.
      destruct (Z.min_spec a x) as [[_ E]|[_ E]]; rewrite E; simpl; auto.
    + simpl; auto.
Qed.

Lemma fold_left_max_In (t : list Z) (a : Z) : In (fold_left Z.max t a) (a :: t).
Proof.
  revert a. induction t as [|x t IH]; intros a; simpl.
  - now left.
  - destruct (IH (Z.max a x)) as [H|H].
    + rewrite <- H.
      destruct (Z.max_spec a x) as [[_ E]|[_ E]]; rewrite E; simpl; auto.
    + simpl; auto.
Qed.

Lemma py_min_In (l : list Z) (m : Z) : py_min l = Ok m -> In m l.
Proof.
  destruct l as [|x t]; simpl; [discriminate|].
  intros [= <-]. apply fold_left_min_In.
Qed.

Lemma py_max_In (l : list Z) (m : Z) : py_max l = Ok m -> In m l.
Proof.
  destruct l as [|x t]; simpl; [discriminate|].
  intros [= <-]. apply fold_left_max_In.
Qed.

Lemma py_min_perm (l l' : list Z) (m m' : Z) :
  Permutation l l' -> py_min l = Ok m -> py_min l' = Ok m' -> m = m'.
Proof.
  intros HP Hm Hm'.
  pose proof (py_min_lower _ _ Hm _ (Permutation_in _ (Permutation_sym HP)
                                       (py_min_In _ _ Hm'))).
  pose proof (py_min_lower _ _ Hm' _ (Permutation_in _ HP (py_min_In _ _ Hm))).
  lia.
Qed.

Lemma py_max_perm (l l' : list Z) (m m' : Z) :
  Permutation l l' -> py_max l = Ok m -> py_max l' = Ok m' -> m = m'.
Proof.
  intros HP Hm Hm'.
  pose proof (py_max_upper _ _ Hm _ (Permutation_in _ (Permutation_sym HP)
                                       (py_max_In _ _ Hm'))).
  pose proof (py_max_upper _ _ Hm' _ (Permutation_in _ HP (py_max_In _ _ Hm))).
  lia.
Qed.

Lemma sorted_perm_eq (l l' : list Z) : Permutation l l' -> sorted l = sorted l'.
Proof.
  intros HP. apply sorted_unique.
  - rewrite sorted_perm. exact HP.
  - apply StronglySorted_Sorted, sorted_StronglySorted.
Qed.

(** X1.  On a non-empty list and on any rearrangement of it the function
    returns the same count, mean, median, quartiles, minimum and maximum:
    the mean is taken on the integer sum, the quantiles on the sorted copy.
    Nothing is said of [pstdev], a sum of floats in the order of the
    list. *)
Theorem calcular_estatisticas_simples_perm (l l' : list Z) :
  Permutation l l' -> l <> [] ->
  exists st st',
    calcular_estatisticas_simples l = Ok st /\
    calcular_estatisticas_simples l' = Ok st' /\
    Est.n st' = Est.n st /\
    Est.media st' = Est.media st /\
    Est.mediana st' = Est.mediana st /\
    Est.q1 st' = Est.q1 st /\
    Est.q3 st' = Est.q3 st /\
    Est.min st' = Est.min st /\
    Est.max st' = Est.max st.
Proof.
  intros HP Hl.
  assert (Hl' : l' <> []).
  { intros ->. apply Permutation_sym, Permutation_nil in HP. contradiction. }
  destruct (calcular_estatisticas_simples_value l Hl)
    as (mn & mx & Hmn & Hmx & ->).
  destruct (calcular_estatisticas_simples_value l' Hl')
    as (mn' & mx' & Hmn' & Hmx' & ->).
  eexists _, _. split; [reflexivity|]. split; [reflexivity|].
  cbn [Est.n Est.media Est.mediana Est.q1 Est.q3 Est.min Est.max].
  rewrite (py_min_perm _ _ _ _ HP Hmn Hmn'), (py_max_perm _ _ _ _ HP Hmx Hmx').
  rewrite (sorted_perm_eq _ _ HP), (py_sum_perm _ _ HP).
  rewrite (Permutation_length HP).
  repeat split.
Qed.

Lemma calcular_estatisticas_simples_perm_witness :
  (Permutation [3; 1; 2] [1; 2; 3] /\ [3; 1; 2] <> []) /\
  exists st st',
    calcular_estatisticas_simples [3; 1; 2] = Ok st /\
    calcular_estatisticas_simples [1; 2; 3] = Ok st' /\
    Est.n st' = Est.n st /\
    Est.media st' = Est.media st /\
    Est.mediana st' = Est.mediana st /\
    Est.q1 st' = Est.q1 st /\
    Est.q3 st' = Est.q3 st /\
    Est.min st' = Est.min st /\
    Est.max st' = Est.max st.
Proof.
  assert (H : Permutation [3; 1; 2] [1; 2; 3]).
  { apply (perm_trans (l' := [1; 3; 2])); [apply perm_swap|].
    apply perm_skip, perm_swap. }
  assert (Hne : [3; 1; 2] <> []) by discriminate.
  split; [split; assumption|].
  exact (calcular_estatisticas_simples_perm _ _ H Hne).
Defined.

(** In binary64 the standard deviation does depend on the order: with
    [x ** 2] as a rounded product and [sum] adding from left to right, the
    lists [5, 0, 8] and [5, 8, 0] get two different values of [pstdev]. *)
Lemma binary64_pstdev_depends_on_order :
  exists st st',
    B64.calcular_estatisticas_simples B64.pow2_mul B64.sum_left [5; 0; 8]
      = Ok st /\
    B64.calcular_estatisticas_simples B64.pow2_mul B64.sum_left [5; 8; 0]
      = Ok st' /\
    PrimFloat.ltb (B64.Est.pstdev st') (B64.Est.pstdev st) = true.
Proof. eexists _, _. repeat split; vm_compute; reflexivity. Qed.

(** ** Bounds on the mean and the standard deviation *)

Lemma size_cons (x : Z) (l : list Z) : Spec.size (x :: l) = (Spec.size l + 1)%R.
Proof. unfold Spec.size. cbn [length]. apply S_INR. Qed.

Lemma size_nonneg (l : list Z) : (0 <= Spec.size l)%R.
Proof. unfold Spec.size. apply pos_INR. Qed.

Lemma total_lower (l : list Z) (lo : Z) :
  (forall y, In y l -> lo <= y) -> (IZR lo * Spec.size l <= Spec.total l)%R.
Proof.
  induction l as [|x l IH]; intros H.
  - unfold Spec.size. cbn. lra.
  - rewrite size_cons. cbn [Spec.total fold_right].
    assert (Hx : (IZR lo <= IZR x)%R) by (apply IZR_le, H; now left).
    assert (Hl : (IZR lo * Spec.size l <= Spec.total l)%R)
      by (apply IH; intros y Hy; apply H; now right).
    unfold Spec.total in Hl. lra.
Qed.

Lemma total_upper (l : list Z) (hi : Z) :
  (forall y, In y l -> y <= hi) -> (Spec.total l <= IZR hi * Spec.size l)%R.
Proof.
  induction l as [|x l IH]; intros H.
  - unfold Spec.size. cbn. lra.
  - rewrite size_cons. cbn [Spec.total fold_right].
    assert (Hx : (IZR x <= IZR hi)%R) by (apply IZR_le, H; now left).
    assert (Hl : (Spec.total l <= IZR hi * Spec.size l)%R)
      by (apply IH; intros y Hy; apply H; now right).
    unfold Spec.total in Hl. lra.
Qed.

Lemma mean_between (l : list Z) (lo hi : Z) :
  l <> [] ->
  (forall y, In y l -> lo <= y) -> (forall y, In y l -> y <= hi) ->
  (IZR lo <= Spec.mean l <= IZR hi)%R.
Proof.
  intros Hl Hlo Hhi. pose proof (size_pos l Hl) as Hs.
  pose proof (total_lower l lo Hlo). pose proof (total_upper l hi Hhi).
  unfold Spec.mean. split.
  - apply Rmult_le_reg_r with (Spec.size l); [exact Hs|].
    unfold Rdiv. rewrite Rmult_assoc, Rinv_l by lra. lra.
  - apply Rmult_le_reg_r with (Spec.size l); [exact Hs|].
    unfold Rdiv. rewrite Rmult_assoc, Rinv_l by lra. lra.
Qed.

(** A sum of squared deviations, each at most [B]. *)
Lemma sq_sum_upper (l : list Z) (m B : R) :
  (forall y, In y l -> ((IZR y - m) ^ 2 <= B)%R) ->
  (fold_right (fun v acc => (IZR v - m) ^ 2 + acc) 0 l <= B * Spec.size l)%R.
Proof.
  induction l as [|x l IH]; intros H.
  - unfold Spec.size. cbn. lra.
  - rewrite size_cons. cbn [fold_right].
    assert (Hx : ((IZR x - m) ^ 2 <= B)%R) by (apply H; now left).
    assert (Hl : (fold_right (fun v acc => (IZR v - m) ^ 2 + acc) 0 l
                  <= B * Spec.size l)%R)
      by (apply IH; intros y Hy; apply H; now right).
    lra.
Qed.

(** X2.  On a non-empty list the mean lies between the minimum and the
    maximum, and the standard deviation between 0 and their difference. *)
Theorem media_and_pstdev_bounds (valores : list Z) :
  valores <> [] ->
  exists st,
    calcular_estatisticas_simples valores = Ok st /\
    (Est.min st <= Est.media st <= Est.max st)%R /\
    (0 <= Est.pstdev st <= Est.max st - Est.min st)%R.
Proof.
  intros Hne.
  destruct (calcular_estatisticas_simples_spec valores Hne)
    as (mn & mx & Hmn & Hmx & ->).
  eexists. split; [reflexivity|].
  cbn [Est.min Est.media Est.max Est.pstdev].
  pose proof (py_min_lower _ _ Hmn) as Hlo.
  pose proof (py_max_upper _ _ Hmx) as Hhi.
  pose proof (mean_between valores mn mx Hne Hlo Hhi) as Hm.
  split; [exact Hm|]. split; [apply sqrt_pos|].
  pose proof (size_pos valores Hne) as Hs.
  assert (Hd : (0 <= IZR mx - IZR mn)%R) by lra.
  rewrite <- (sqrt_pow2 (IZR mx - IZR mn)) by exact Hd.
  apply sqrt_le_1_alt. unfold Spec.var_pop.
  apply Rmult_le_reg_r with (Spec.size valores); [exact Hs|].
  unfold Rdiv. rewrite Rmult_assoc, Rinv_l by lra. rewrite Rmult_1_r.
  unfold Spec.sq_dev. apply sq_sum_upper. intros y Hy.
  pose proof (IZR_le _ _ (Hlo y Hy)). pose proof (IZR_le _ _ (Hhi y Hy)).
  nra.
Qed.

Lemma media_and_pstdev_bounds_witness :
  [3; 1; 2] <> [] /\
  exists st,
    calcular_estatisticas_simples [3; 1; 2] = Ok st /\
    (Est.min st <= Est.media st <= Est.max st)%R /\
    (0 <= Est.pstdev st <= Est.max st - Est.min st)%R.
Proof.
  assert (H : [3; 1; 2] <> []) by discriminate.
  split; [exact H | exact (media_and_pstdev_bounds [3; 1; 2] H)].
Defined.

(** ** Constant lists *)

Lemma sq_sum_nonneg (l : list Z) (m : R) :
  (0 <= fold_right (fun v acc => (IZR v - m) ^ 2 + acc) 0 l)%R.
Proof.
  induction l as [|x l IH]; cbn [fold_right]; [lra|].
  pose proof (pow2_ge_0 (IZR x - m)). lra.
Qed.

Lemma sq_sum_zero (l : list Z) (m : R) :
  fold_right (fun v acc => (IZR v - m) ^ 2 + acc)%R 0%R l = 0%R <->
  (forall y, In y l -> IZR y = m).
Proof.
  induction l as [|x l IH]; cbn [fold_right].
  - split; [intros _ y [] | reflexivity].
  - pose proof (pow2_ge_0 (IZR x - m)) as Hx.
    pose proof (sq_sum_nonneg l m) as Hl. split.
    + intros H y [<-|Hy].
      * assert (E : ((IZR x - m) ^ 2 = 0)%R) by lra.
        assert (E' : (IZR x - m = 0)%R) by (apply Rsqr_0_uniq; unfold Rsqr; lra).
        lra.
      * apply IH; [lra | exact Hy].
    + intros H. rewrite (proj2 IH) by (intros y Hy; apply H; now right).
      rewrite (H x) by now left. lra.
Qed.

Lemma constant_mean (l : list Z) (c : Z) :
  l <> [] -> (forall y, In y l -> y = c) -> Spec.mean l = IZR c.
Proof.
  intros Hl Hc. apply Rle_antisym.
  - apply (mean_between l c c Hl); intros y Hy; rewrite (Hc y Hy); lia.
  - apply (mean_between l c c Hl); intros y Hy; rewrite (Hc y Hy); lia.
Qed.

Lemma constant_var_pop (l : list Z) (c : Z) :
  l <> [] -> (forall y, In y l -> y = c) -> Spec.var_pop l = 0%R.
Proof.
  intros Hne Hc. unfold Spec.var_pop.
  replace (Spec.sq_dev l) with 0%R; [unfold Rdiv; apply Rmult_0_l|].
  symmetry. unfold Spec.sq_dev. apply sq_sum_zero. intros y Hy.
  rewrite (constant_mean l c Hne Hc). now rewrite (Hc y Hy).
Qed.

(** X3.  On a non-empty list of integers of magnitude at most 2^50, each of
    them a binary64 number, the standard deviation returned is zero exactly
    when all the values of the list are equal.  (Two different integers above
    2^53 can be one and the same float, and then the code returns 0 as
    well.) *)
Theorem pstdev_zero_iff_constant (valores : list Z) :
  valores <> [] ->
  (forall v, In v valores -> Z.abs v <= 2 ^ 50) ->
  exists st,
    calcular_estatisticas_simples valores = Ok st /\
    (Est.pstdev st = 0%R <->
     forall x y, In x valores -> In y valores -> x = y).
Proof.
  intros Hne _.
  destruct (calcular_estatisticas_simples_spec valores Hne)
    as (mn & mx & _ & _ & ->).
  eexists. split; [reflexivity|]. cbn [Est.pstdev].
  pose proof (size_pos valores Hne) as Hs.
  pose proof (var_pop_nonneg valores Hne) as Hv.
  split.
  - intros H0 x y Hx Hy. apply sqrt_eq_0 in H0; [|exact Hv].
    unfold Spec.var_pop in H0.
    assert (Hsq : Spec.sq_dev valores = 0%R).
    { apply Rmult_eq_reg_r with (/ Spec.size valores)%R.
      - rewrite Rmult_0_l. exact H0.
      - apply Rinv_neq_0_compat. lra. }
    unfold Spec.sq_dev in Hsq. rewrite sq_sum_zero in Hsq.
    apply eq_IZR. now rewrite (Hsq x Hx), (Hsq y Hy).
  - intros Hall. destruct valores as [|c l]; [congruence|].
    assert (Hc : forall y, In y (c :: l) -> y = c)
      by (intros y Hy; apply Hall; [exact Hy | now left]).
    rewrite (constant_var_pop (c :: l) c Hne Hc). apply sqrt_0.
Qed.

Lemma pstdev_zero_iff_constant_witness :
  ([5; 5; 5] <> [] /\ (forall v, In v [5; 5; 5] -> Z.abs v <= 2 ^ 50)) /\
  exists st,
    calcular_estatisticas_simples [5; 5; 5] = Ok st /\
    (Est.pstdev st = 0%R <->
     forall x y, In x [5; 5; 5] -> In y [5; 5; 5] -> x = y).
Proof.
  assert (H : [5; 5; 5] <> []) by discriminate.
  assert (Hv : forall v, In v [5; 5; 5] -> Z.abs v <= 2 ^ 50)
    by (intros v [<-|[<-|[<-|[]]]]; lia).
  split; [split; assumption|].
  exact (pstdev_zero_iff_constant [5; 5; 5] H Hv).
Defined.

(** Above 2^53 the equivalence is lost in binary64: on the two different
    integers 2^53 and 2^53 + 1 the function returns a standard deviation
    of 0. *)
Lemma binary64_pstdev_zero_on_two_values :
  exists st,
    B64.calcular_estatisticas_simples B64.pow2_mul B64.sum_left
      [2 ^ 53; 2 ^ 53 + 1] = Ok st /\
    PrimFloat.eqb (B64.Est.pstdev st) 0 = true.
Proof. eexists. split; vm_compute; reflexivity. Qed.

(** X4.  On a list whose values all equal [v] (a single element in
    particular) the mean, the median, both quartiles, the minimum and the
    maximum are [v], and the standard deviation is 0. *)
Theorem constant_list_statistics (valores : list Z) (v : Z) :
  valores <> [] -> (forall y, In y valores -> y = v) ->
  calcular_estatisticas_simples valores =
    Ok {| Est.n := IZR (Z.of_nat (length valores));
          Est.media := IZR v;
          Est.mediana := IZR v;
          Est.pstdev := 0;
          Est.q1 := IZR v;
          Est.q3 := IZR v;
          Est.min := IZR v;
          Est.max := IZR v |}.
Proof.
  intros Hne Hc.
  destruct (calcular_estatisticas_simples_spec valores Hne)
    as (mn & mx & Hmn & Hmx & Hst).
  rewrite Hst.
  assert (Hlo : forall y, In y valores -> v <= y)
    by (intros y Hy; rewrite (Hc y Hy); lia).
  assert (Hhi : forall y, In y valores -> y <= v)
    by (intros y Hy; rewrite (Hc y Hy); lia).
  assert (Hq : forall q, (0 <= q <= 1)%R ->
                 Spec.quantile (sorted valores) q = IZR v).
  { intros q Hq. apply Rle_antisym;
      apply (quantile_between valores Hne q v v Hq Hlo Hhi). }
  rewrite !Hq by lra.
  rewrite (constant_mean valores v Hne Hc), size_IZR.
  rewrite (constant_var_pop valores v Hne Hc), sqrt_0.
  rewrite (Hc mn (py_min_In _ _ Hmn)), (Hc mx (py_max_In _ _ Hmx)).
  reflexivity.
Qed.

Lemma constant_list_statistics_witness :
  [5] <> [] /\ (forall y, In y [5] -> y = 5) /\
  calcular_estatisticas_simples [5] =
    Ok {| Est.n := IZR (Z.of_nat (length [5]));
          Est.media := IZR 5;
          Est.mediana := IZR 5;
          Est.pstdev := 0;
          Est.q1 := IZR 5;
          Est.q3 := IZR 5;
          Est.min := IZR 5;
          Est.max := IZR 5 |}.
Proof.
  assert (H1 : [5] <> []) by discriminate.
  assert (H2 : forall y, In y [5] -> y = 5).
  { intros y [<-|[]]. reflexivity. }
  split; [exact H1|]. split; [exact H2|].
  exact (constant_list_statistics [5] 5 H1 H2).
Defined.

(** ** The median, and the three summaries side by side *)

(** X5.  The median returned is the middle value of the sorted list when
    the list has an odd number of values, and the mean of the two middle
    values when that number is even. *)
Theorem mediana_is_middle (valores : list Z) :
  valores <> [] ->
  exists st,
    calcular_estatisticas_simples valores = Ok st /\
    Est.mediana st =
      if Z.odd (Z.of_nat (length valores))
      then IZR (nthZ (sorted valores) (Z.of_nat (length valores) / 2))
      else ((IZR (nthZ (sorted valores) (Z.of_nat (length valores) / 2 - 1))
             + IZR (nthZ (sorted valores) (Z.of_nat (length valores) / 2)))
            / 2)%R.
Proof.
  intros Hne.
  destruct (calcular_estatisticas_simples_spec valores Hne)
    as (mn & mx & _ & _ & ->).
  eexists. split; [reflexivity|]. cbn [Est.mediana].
  pose proof (np_median_value valores Hne) as H.
  destruct valores as [|x l]; [congruence|].
  unfold np_median in H.
  destruct (Z.odd (Z.of_nat (length (x :: l))));
    injection H as H; symmetry; exact H.
Qed.

Lemma mediana_is_middle_witness :
  [4; 1; 3; 2] <> [] /\
  exists st,
    calcular_estatisticas_simples [4; 1; 3; 2] = Ok st /\
    Est.mediana st =
      if Z.odd (Z.of_nat (length [4; 1; 3; 2]))
      then IZR (nthZ (sorted [4; 1; 3; 2]) (Z.of_nat (length [4; 1; 3; 2]) / 2))
      else ((IZR (nthZ (sorted [4; 1; 3; 2]%Z)
                    (Z.of_nat (length [4; 1; 3; 2]%Z) / 2 - 1))
             + IZR (nthZ (sorted [4; 1; 3; 2]%Z)
                      (Z.of_nat (length [4; 1; 3; 2]%Z) / 2)))
            / 2)%R.
Proof.
  assert (H : [4; 1; 3; 2] <> []) by discriminate.
  split; [exact H | exact (mediana_is_middle [4; 1; 3; 2] H)].
Defined.




(** ** More on the caller's list *)

(** The call on a reference to a non-empty list, as one equation. *)
Lemma heap_calcular_run (h : Heap.store) (valores : Heap.loc) (l : list Z) :
  h !! valores = Some l -> l <> [] ->
  Heap.calcular_estatisticas_simples valores h
  = (calcular_estatisticas_simples l, <[fresh (dom h) := sorted l]> h).
Proof.
  intros Hv Hne.
  destruct (calcular_estatisticas_simples_value l Hne)
    as (mn & mx & Hmn & Hmx & ->).
  unfold Heap.calcular_estatisticas_simples, Heap.len, Heap.sum, Heap.fsum,
    Heap.min, Heap.max, Heap.sorted, Heap.read, Heap.hraise.
  pose proof (heap_deref_lookup h valores l Hv) as Hd.
  pose proof (length_pos_Z l Hne) as Hn.
  unfold mbind at 1. unfold Heap.H_bind. rewrite Hd.
  destruct (Z.eqb_spec (Z.of_nat (length l)) 0) as [E|_]; [lia|].
  unfold mbind at 1 2 3 4 5 6. unfold Heap.H_bind. rewrite !Hd.
  rewrite math_sqrt_nonneg.
  2:{ apply Rmult_le_pos; [apply ssd_nonneg|].
      apply Rlt_le, Rinv_0_lt_compat, IZR_length_pos, Hne. }
  rewrite Hmn, Hmx.
  unfold mbind, Heap.H_bind. rewrite !heap_quantil_read.
  rewrite (heap_deref_lookup _ _ (sorted l)) by apply lookup_insert_eq.
  assert (Hs : sorted l <> []).
  { intros E. apply (f_equal (@length Z)) in E.
    rewrite sorted_length in E. simpl in E. lia. }
  rewrite <- (sorted_length l).
  rewrite !quantil_ok by (try exact Hs; lra).
  reflexivity.
Qed.

Lemma fresh_not_allocated (h : Heap.store) (k : Heap.loc) (v : list Z) :
  h !! k = Some v -> fresh (dom h) <> k.
Proof.
  intros Hk E. pose proof (is_fresh (dom h)) as Hf.
  apply not_elem_of_dom in Hf. rewrite E in Hf. congruence.
Qed.

(** X7.  Two calls in a row on the same reference return the same
    statistics, although the store has grown between them; after both, the
    list and every other list of the initial store read as before. *)
Theorem summarize_twice (h : Heap.store) (valores : Heap.loc) (l : list Z) :
  h !! valores = Some l -> l <> [] ->
  exists st h1 h2,
    Heap.calcular_estatisticas_simples valores h = (Ok st, h1) /\
    Heap.calcular_estatisticas_simples valores h1 = (Ok st, h2) /\
    h2 !! valores = Some l /\
    (forall k v, h !! k = Some v -> h2 !! k = Some v).
Proof.
  intros Hv Hne.
  destruct (calcular_estatisticas_simples_ok l Hne) as (st & Hst & _).
  assert (Hkeep1 : forall k v, h !! k = Some v ->
            (<[fresh (dom h) := sorted l]> h) !! k = Some v).
  { intros k v Hk. rewrite lookup_insert_ne; [exact Hk|].
    exact (fresh_not_allocated h k v Hk). }
  set (h1 := <[fresh (dom h) := sorted l]> h) in *.
  assert (Hkeep2 : forall k v, h1 !! k = Some v ->
            (<[fresh (dom h1) := sorted l]> h1) !! k = Some v).
  { intros k v Hk. rewrite lookup_insert_ne; [exact Hk|].
    exact (fresh_not_allocated h1 k v Hk). }
  exists st, h1, (<[fresh (dom h1) := sorted l]> h1).
  split; [rewrite (heap_calcular_run h valores l Hv Hne), Hst; reflexivity|].
  split.
  { rewrite (heap_calcular_run h1 valores l (Hkeep1 _ _ Hv) Hne), Hst.
    reflexivity. }
  split; [exact (Hkeep2 _ _ (Hkeep1 _ _ Hv))|].
  intros k v Hk. exact (Hkeep2 _ _ (Hkeep1 _ _ Hk)).
Qed.

Lemma summarize_twice_witness :
  ({[ 7%nat := [3; 1; 2] ]} : Heap.store) !! 7%nat = Some [3; 1; 2] /\
  [3; 1; 2] <> [] /\
  exists st h1 h2,
    Heap.calcular_estatisticas_simples 7%nat {[ 7%nat := [3; 1; 2] ]}
      = (Ok st, h1) /\
    Heap.calcular_estatisticas_simples 7%nat h1 = (Ok st, h2) /\
    h2 !! 7%nat = Some [3; 1; 2].
Proof.
  assert (H1 : ({[ 7%nat := [3; 1; 2] ]} : Heap.store) !! 7%nat = Some [3; 1; 2])
    by reflexivity.
  assert (H2 : [3; 1; 2] <> []) by discriminate.
  split; [exact H1|]. split; [exact H2|].
  destruct (summarize_twice _ _ _ H1 H2) as (st & h1 & h2 & Ha & Hb & Hc & _).
  exists st, h1, h2. repeat split; assumption.
Defined.

(** ** More on [welch_ttest] *)

Lemma np_add_comm (a b : npfloat) : np_add a b = np_add b a.
Proof. destruct a, b; try reflexivity. simpl. f_equal. ring. Qed.

Lemma np_sign_inf_opp (x : R) : np_sign_inf (- x) = np_neg (np_sign_inf x).
Proof.
  unfold np_sign_inf.
  destruct (Req_dec_T x 0) as [E|N], (Req_dec_T (- x) 0) as [E'|N'];
    try reflexivity; try (exfalso; lra).
  destruct (Rlt_dec 0 x), (Rlt_dec 0 (- x)); try reflexivity; exfalso; lra.
Qed.

Lemma np_sub_swap (a b : npfloat) : np_sub b a = np_neg (np_sub a b).
Proof.
  destruct a, b; try reflexivity. unfold np_sub. simpl. f_equal. ring.
Qed.

Lemma np_div_neg_l (a b : npfloat) : np_div (np_neg a) b = np_neg (np_div a b).
Proof.
  destruct a as [x| | |], b as [y| | |]; simpl; try reflexivity.
  - destruct (Req_dec_T y 0); [apply np_sign_inf_opp|].
    simpl. f_equal. field. assumption.
  - f_equal. ring.
  - f_equal. ring.
  - destruct (Rlt_dec y 0); reflexivity.
  - destruct (Rlt_dec y 0); reflexivity.
Qed.

Lemma np_abs_neg (a : npfloat) : np_abs (np_neg a) = np_abs a.
Proof. destruct a; try reflexivity. simpl. f_equal. apply Rabs_Ropp. Qed.

(** The quantity under the square root is NaN or a non-negative number, so
    [math.sqrt] accepts it. *)
Lemma welch_sqrt_ok (x y : list Z) :
  is_ok (math_sqrt_np
           (np_add (np_div (np_var x 1) (np_of_int (Z.of_nat (length x))))
                   (np_div (np_var y 1) (np_of_int (Z.of_nat (length y)))))).
Proof.
  destruct (np_var_over_n x) as [[Hx ->]|[_ ->]].
  - destruct (np_var_over_n y) as [[Hy ->]|[_ ->]].
    + cbn [np_add]. eexists. apply math_sqrt_np_fin.
      pose proof (var_sample_nonneg x Hx). pose proof (var_sample_nonneg y Hy).
      lra.
    + eexists. reflexivity.
  - eexists. reflexivity.
Qed.

Section WelchSymmetry.
Variable t_sf : npfloat -> npfloat -> npfloat.

(** X8.  Exchanging the two samples changes the sign of t and nothing else:
    the degrees of freedom and the two-tailed p-value are the same.  This
    holds on all inputs, also those whose t is NaN or an infinity. *)
Theorem welch_ttest_swap (x y : list Z) :
  exists r r',
    welch_ttest t_sf x y = Ok r /\
    welch_ttest t_sf y x = Ok r' /\
    Welch.t_ r' = np_neg (Welch.t_ r) /\
    Welch.df r' = Welch.df r /\
    Welch.p_two r' = Welch.p_two r.
Proof.
  destruct (welch_sqrt_ok x y) as [se Hse].
  unfold welch_ttest.
  rewrite (np_add_comm (np_div (np_var y 1) _) (np_div (np_var x 1) _)).
  rewrite Hse. cbn [mbind result_bind mret result_ret].
  eexists _, _. split; [reflexivity|]. split; [reflexivity|].
  cbn [Welch.t_ Welch.df Welch.p_two].
  rewrite (np_sub_swap (np_mean x) (np_mean y)), np_div_neg_l, np_abs_neg.
  rewrite (np_add_comm (np_div (np_sq (np_var y 1)) _)
                       (np_div (np_sq (np_var x 1)) _)).
  repeat split.
Qed.
End WelchSymmetry.


(** ** The sign of the Welch statistic *)

Section WelchSign.
Variable t_sf : npfloat -> npfloat -> npfloat.

End WelchSign.


(** ** The script and its two columns *)

Lemma var_pop_zero_iff (l : list Z) :
  l <> [] ->
  Spec.var_pop l = 0%R <-> (forall a b, In a l -> In b l -> a = b).
Proof.
  intros Hne. pose proof (size_pos l Hne) as Hs. split.
  - intros H0 a b Ha Hb. unfold Spec.var_pop in H0.
    assert (Hsq : Spec.sq_dev l = 0%R).
    { apply Rmult_eq_reg_r with (/ Spec.size l)%R.
      - rewrite Rmult_0_l. exact H0.
      - apply Rinv_neq_0_compat. lra. }
    unfold Spec.sq_dev in Hsq. rewrite sq_sum_zero in Hsq.
    apply eq_IZR. now rewrite (Hsq a Ha), (Hsq b Hb).
  - intros Hall. destruct l as [|c l]; [congruence|].
    apply (constant_var_pop (c :: l) c Hne).
    intros y Hy. apply Hall; [exact Hy | now left].
Qed.

Section ScriptColumns.
Variable student_t_sf student_t_cdf : npfloat -> npfloat -> npfloat.
Variable rows : list (Z * Z * Z).

Let x := map (fun row : Z * Z * Z => snd (fst row)) rows.
Let y := map (fun row : Z * Z * Z => snd row) rows.
Let v := (Spec.var_pop x / Spec.size x + Spec.var_pop y / Spec.size y)%R.

Lemma script_v_zero_iff :
  rows <> [] ->
  v = 0%R <->
  (forall a b, In a x -> In b x -> a = b) /\
  (forall a b, In a y -> In b y -> a = b).
Proof.
  intros Hrows.
  assert (Hx : x <> []) by (unfold x; destruct rows; [congruence | discriminate]).
  assert (Hy : y <> []) by (unfold y; destruct rows; [congruence | discriminate]).
  pose proof (var_pop_nonneg x Hx) as Hvx.
  pose proof (var_pop_nonneg y Hy) as Hvy.
  pose proof (size_pos x Hx) as Hsx. pose proof (size_pos y Hy) as Hsy.
  pose proof (Rinv_0_lt_compat _ Hsx) as Hix.
  pose proof (Rinv_0_lt_compat _ Hsy) as Hiy.
  rewrite <- (var_pop_zero_iff x Hx), <- (var_pop_zero_iff y Hy).
  unfold v, Rdiv. split.
  - intros H. split; nra.
  - intros [-> ->]. lra.
Qed.

End ScriptColumns.

(** X11.  Take a table with at least one row whose times are not negative
    and small enough for the sum of a column to be a binary64 number (number
    of rows times any time at most 2^53).  The script stops with
    [ZeroDivisionError] exactly when each of its two timing columns holds a
    single repeated value (one row in particular); on every other such table
    it runs to the end. *)
Theorem script_fails_iff_columns_constant
    (student_t_sf student_t_cdf : npfloat -> npfloat -> npfloat)
    (rows : list (Z * Z * Z)) :
  let x := map (fun row : Z * Z * Z => snd (fst row)) rows in
  let y := map (fun row : Z * Z * Z => snd row) rows in
  let constant (l : list Z) := forall a b, In a l -> In b l -> a = b in
  rows <> [] ->
  (forall t, In t x \/ In t y ->
             0 <= t /\ Z.of_nat (length rows) * t <= 2 ^ 53) ->
  (calcular_estatisticas student_t_sf student_t_cdf rows
     = Raise ZeroDivisionError
   <-> constant x /\ constant y) /\
  (~ (constant x /\ constant y) ->
   is_ok (calcular_estatisticas student_t_sf student_t_cdf rows)).
Proof.
  intros x y constant Hrows _.
  pose proof (script_v_zero_iff rows Hrows) as Hiff.
  cbv zeta in Hiff. fold x y in Hiff.
  set (v := (Spec.var_pop x / Spec.size x + Spec.var_pop y / Spec.size y)%R)
    in Hiff.
  assert (Hok : v <> 0%R ->
                is_ok (calcular_estatisticas student_t_sf student_t_cdf rows)).
  { intros Hv.
    destruct (calcular_estatisticas_regular student_t_sf student_t_cdf rows
                Hrows Hv) as (r & Hr & _).
    now exists r. }
  split; [split|].
  - intros Hraise. apply Hiff.
    destruct (Req_dec_T v 0) as [E|N]; [exact E|].
    destruct (Hok N) as [r Hr]. rewrite Hr in Hraise. discriminate Hraise.
  - intros Hc. apply calcular_estatisticas_degenerate; [exact Hrows|].
    apply Hiff. exact Hc.
  - intros Hnc. apply Hok. intros E. apply Hnc. apply Hiff. exact E.
Qed.

Lemma script_fails_iff_columns_constant_witness :
  ([(7, 4, 9); (8, 4, 9)] <> [] /\
   (forall t, In t [4; 4] \/ In t [9; 9] ->
              0 <= t /\ Z.of_nat (length [(7, 4, 9); (8, 4, 9)]) * t <= 2 ^ 53)) /\
  (calcular_estatisticas (fun _ _ => NaN) (fun _ _ => NaN)
     [(7, 4, 9); (8, 4, 9)] = Raise ZeroDivisionError
   <-> (forall a b, In a [4; 4] -> In b [4; 4] -> a = b) /\
       (forall a b, In a [9; 9] -> In b [9; 9] -> a = b)) /\
  (~ ((forall a b, In a [4; 4] -> In b [4; 4] -> a = b) /\
      (forall a b, In a [9; 9] -> In b [9; 9] -> a = b)) ->
   is_ok (calcular_estatisticas (fun _ _ => NaN) (fun _ _ => NaN)
            [(7, 4, 9); (8, 4, 9)])).
Proof.
  assert (H : [(7, 4, 9); (8, 4, 9)] <> []) by discriminate.
  assert (Hb : forall t, In t [4; 4] \/ In t [9; 9] ->
                 0 <= t /\ Z.of_nat (length [(7, 4, 9); (8, 4, 9)]) * t <= 2 ^ 53).
  { intros t [[<-|[<-|[]]]|[<-|[<-|[]]]]; simpl; lia. }
  split; [split; assumption|].
  exact (script_fails_iff_columns_constant (fun _ _ => NaN) (fun _ _ => NaN)
           [(7, 4, 9); (8, 4, 9)] H Hb).
Defined.

(** ** What a whole run leaves behind *)

Lemma Forall2_is_bloco_record_bloco (perf_counter_ns : nat -> Z) (bs : nat)
    (idx : list nat) (recs : list Bloco.t) :
  Forall2 (is_bloco_record perf_counter_ns bs) idx recs ->
  map Bloco.bloco recs = map (fun i => Z.of_nat i + 1) idx.
Proof.
  induction 1 as [|i rec idx recs (sl & sd & _ & _ & ->) _ IH]; cbn [map].
  - reflexivity.
  - now rewrite IH.
Qed.

(** X13.  In a run (valid configuration, at least one query per block,
    monotonic clock) the block records are numbered 1, 2, ..., N_BLOCKS, in
    the order of execution. *)
Theorem block_records_are_numbered (perf_counter_ns : nat -> Z)
    (randint : nat -> Z -> Z -> Z)
    (NUM_ELEMENTOS NUM_BUSCAS N_BLOCKS TAMANHO_SAMPLE : Z) :
  (forall k, perf_counter_ns k <= perf_counter_ns (S k)) ->
  1 <= NUM_ELEMENTOS -> 1 <= N_BLOCKS -> N_BLOCKS <= NUM_BUSCAS ->
  0 <= TAMANHO_SAMPLE ->
  exists r w,
    executar_experimento_por_blocos perf_counter_ns randint
      NUM_ELEMENTOS NUM_BUSCAS N_BLOCKS TAMANHO_SAMPLE world0 = (Ok r, w) /\
    map Bloco.bloco (Saida.estatisticas_blocos r) = seqZ 1 N_BLOCKS.
Proof.
  intros Hmono HE HN Hle HS.
  destruct (executar_run perf_counter_ns randint NUM_ELEMENTOS NUM_BUSCAS
              N_BLOCKS TAMANHO_SAMPLE Hmono HN ltac:(lia) HE HS Hle)
    as (r & Hrun & _ & _ & _ & Hrecs & _).
  eexists r, _. split; [exact Hrun|].
  rewrite (Forall2_is_bloco_record_bloco _ _ _ _ Hrecs).
  reflexivity.
Qed.

Lemma block_records_are_numbered_witness :
  (forall k, Z.of_nat k <= Z.of_nat (S k)) /\
  1 <= 100 /\ 1 <= 4 /\ 4 <= 41 /\ 0 <= 5 /\
  exists r w,
    executar_experimento_por_blocos Z.of_nat (fun _ a _ => a) 100 41 4 5 world0
      = (Ok r, w) /\
    map Bloco.bloco (Saida.estatisticas_blocos r) = seqZ 1 4.
Proof.
  assert (H0 : forall k, Z.of_nat k <= Z.of_nat (S k)) by (intros k; lia).
  assert (H1 : 1 <= 100) by lia. assert (H2 : 1 <= 4) by lia.
  assert (H3 : 4 <= 41) by lia. assert (H4 : 0 <= 5) by lia.
  repeat (split; [assumption|]).
  exact (block_records_are_numbered Z.of_nat (fun _ a _ => a) 100 41 4 5
           H0 H1 H2 H3 H4).
Defined.

(** X14.  Such a run builds the structures once, with NUM_ELEMENTOS, and
    reads the clock exactly four times for every query it draws, twice per
    probe: no clock reading is made outside the probes. *)
Theorem run_effects (perf_counter_ns : nat -> Z)
    (randint : nat -> Z -> Z -> Z)
    (NUM_ELEMENTOS NUM_BUSCAS N_BLOCKS TAMANHO_SAMPLE : Z) :
  (forall k, perf_counter_ns k <= perf_counter_ns (S k)) ->
  1 <= NUM_ELEMENTOS -> 1 <= N_BLOCKS -> N_BLOCKS <= NUM_BUSCAS ->
  0 <= TAMANHO_SAMPLE ->
  exists r w,
    executar_experimento_por_blocos perf_counter_ns randint
      NUM_ELEMENTOS NUM_BUSCAS N_BLOCKS TAMANHO_SAMPLE world0 = (Ok r, w) /\
    estruturas w = [NUM_ELEMENTOS] /\
    Z.of_nat (rand_draws w) = N_BLOCKS * (NUM_BUSCAS / N_BLOCKS) /\
    Z.of_nat (clock_reads w) = 4 * (N_BLOCKS * (NUM_BUSCAS / N_BLOCKS)).
Proof.
  intros Hmono HE HN Hle HS.
  destruct (executar_run perf_counter_ns randint NUM_ELEMENTOS NUM_BUSCAS
              N_BLOCKS TAMANHO_SAMPLE Hmono HN ltac:(lia) HE HS Hle)
    as (r & Hrun & _).
  assert (Hdiv : 0 <= NUM_BUSCAS / N_BLOCKS) by (apply Z.div_pos; lia).
  eexists r, _. split; [exact Hrun|].
  cbn [estruturas rand_draws clock_reads]. split; [reflexivity|].
  rewrite !Nat2Z.inj_mul, !Z2Nat.id by lia. split; reflexivity.
Qed.

Lemma run_effects_witness :
  (forall k, Z.of_nat k <= Z.of_nat (S k)) /\
  1 <= 100 /\ 1 <= 4 /\ 4 <= 41 /\ 0 <= 5 /\
  exists r w,
    executar_experimento_por_blocos Z.of_nat (fun _ a _ => a) 100 41 4 5 world0
      = (Ok r, w) /\
    estruturas w = [100] /\
    Z.of_nat (rand_draws w) = 4 * (41 / 4) /\
    Z.of_nat (clock_reads w) = 4 * (4 * (41 / 4)).
Proof.
  assert (H0 : forall k, Z.of_nat k <= Z.of_nat (S k)) by (intros k; lia).
  assert (H1 : 1 <= 100) by lia. assert (H2 : 1 <= 4) by lia.
  assert (H3 : 4 <= 41) by lia. assert (H4 : 0 <= 5) by lia.
  repeat (split; [assumption|]).
  exact (run_effects Z.of_nat (fun _ a _ => a) 100 41 4 5 H0 H1 H2 H3 H4).
Defined.

Lemma In_firstn {A} (k : nat) (l : list A) (a : A) :
  In a (firstn k l) -> In a l.
Proof.
  intros H. rewrite <- (firstn_skipn k l). apply in_or_app. now left.
Qed.

Lemma firstn_length_firstn {A B} (k : nat) (l : list A) (l' : list B) :
  length l = length l' ->
  firstn (length (firstn k l)) l' = firstn k l'.
Proof.
  intros H. rewrite length_firstn, H.
  rewrite <- firstn_firstn, firstn_all. reflexivity.
Qed.

(** X15.  The representative samples and the stored timings describe the
    same probes: the elapsed times of the i-th sample, cut at 2^32 - 1, are
    the i-th entries of the two global timing sequences, and no sampled
    elapsed time is negative. *)
Theorem samples_match_stored_times (perf_counter_ns : nat -> Z)
    (randint : nat -> Z -> Z -> Z)
    (NUM_ELEMENTOS NUM_BUSCAS N_BLOCKS TAMANHO_SAMPLE : Z) :
  (forall k, perf_counter_ns k <= perf_counter_ns (S k)) ->
  1 <= NUM_ELEMENTOS -> 1 <= N_BLOCKS -> N_BLOCKS <= NUM_BUSCAS ->
  0 <= TAMANHO_SAMPLE ->
  exists r w,
    executar_experimento_por_blocos perf_counter_ns randint
      NUM_ELEMENTOS NUM_BUSCAS N_BLOCKS TAMANHO_SAMPLE world0 = (Ok r, w) /\
    map (fun a : Amostra => Z.min (snd (fst a)) (2 ^ 32 - 1)) (Saida.amostras r)
      = firstn (length (Saida.amostras r)) (Saida.tempos_lista r) /\
    map (fun a : Amostra => Z.min (snd a) (2 ^ 32 - 1)) (Saida.amostras r)
      = firstn (length (Saida.amostras r)) (Saida.tempos_dict r) /\
    List.Forall (fun a : Amostra => 0 <= snd (fst a) /\ 0 <= snd a)
      (Saida.amostras r).
Proof.
  intros Hmono HE HN Hle HS.
  destruct (executar_run perf_counter_ns randint NUM_ELEMENTOS NUM_BUSCAS
              N_BLOCKS TAMANHO_SAMPLE Hmono HN ltac:(lia) HE HS Hle)
    as (r & Hrun & Hl & Hd & Ha & _).
  eexists r, _. split; [exact Hrun|].
  rewrite Hl, Hd, Ha.
  rewrite !firstn_length_firstn by now rewrite !length_map.
  rewrite <- !firstn_map, !map_map. cbn [fst snd]. unfold UINT32_MAX.
  split; [reflexivity|]. split; [reflexivity|].
  apply List.Forall_forall. intros a Hin.
  apply In_firstn, in_map_iff in Hin as (j & <- & _). cbn [fst snd].
  split; [apply tl_nonneg | apply td_nonneg]; exact Hmono.
Qed.

Lemma samples_match_stored_times_witness :
  (forall k, Z.of_nat k <= Z.of_nat (S k)) /\
  1 <= 100 /\ 1 <= 4 /\ 4 <= 41 /\ 0 <= 5 /\
  exists r w,
    executar_experimento_por_blocos Z.of_nat (fun _ a _ => a) 100 41 4 5 world0
      = (Ok r, w) /\
    map (fun a : Amostra => Z.min (snd (fst a)) (2 ^ 32 - 1)) (Saida.amostras r)
      = firstn (length (Saida.amostras r)) (Saida.tempos_lista r) /\
    map (fun a : Amostra => Z.min (snd a) (2 ^ 32 - 1)) (Saida.amostras r)
      = firstn (length (Saida.amostras r)) (Saida.tempos_dict r) /\
    List.Forall (fun a : Amostra => 0 <= snd (fst a) /\ 0 <= snd a)
      (Saida.amostras r).
Proof.
  assert (H0 : forall k, Z.of_nat k <= Z.of_nat (S k)) by (intros k; lia).
  assert (H1 : 1 <= 100) by lia. assert (H2 : 1 <= 4) by lia.
  assert (H3 : 4 <= 41) by lia. assert (H4 : 0 <= 5) by lia.
  repeat (split; [assumption|]).
  exact (samples_match_stored_times Z.of_nat (fun _ a _ => a) 100 41 4 5
           H0 H1 H2 H3 H4).
Defined.

(** X16.  When [random.randint] keeps its contract (a value between its two
    bounds), every query value recorded in the representative samples lies
    in 0 .. NUM_ELEMENTOS - 1 and is a member of the range and of the dict
    that [criar_estruturas] returns for NUM_ELEMENTOS. *)
Theorem sampled_values_are_members (perf_counter_ns : nat -> Z)
    (randint : nat -> Z -> Z -> Z)
    (NUM_ELEMENTOS NUM_BUSCAS N_BLOCKS TAMANHO_SAMPLE : Z) :
  (forall k, perf_counter_ns k <= perf_counter_ns (S k)) ->
  (forall k a b, a <= b -> a <= randint k a b <= b) ->
  1 <= NUM_ELEMENTOS -> 1 <= N_BLOCKS -> N_BLOCKS <= NUM_BUSCAS ->
  0 <= TAMANHO_SAMPLE ->
  exists r w lista_range dicionario,
    executar_experimento_por_blocos perf_counter_ns randint
      NUM_ELEMENTOS NUM_BUSCAS N_BLOCKS TAMANHO_SAMPLE world0 = (Ok r, w) /\
    criar_estruturas NUM_ELEMENTOS = Ok (lista_range, dicionario) /\
    List.Forall (fun a : Amostra =>
                   0 <= fst (fst a) < NUM_ELEMENTOS /\
                   range_contains (fst (fst a)) lista_range = true /\
                   dict_contains (fst (fst a)) dicionario = true)
      (Saida.amostras r).
Proof.
  intros Hmono Hrand HE HN Hle HS.
  destruct (executar_run perf_counter_ns randint NUM_ELEMENTOS NUM_BUSCAS
              N_BLOCKS TAMANHO_SAMPLE Hmono HN ltac:(lia) HE HS Hle)
    as (r & Hrun & _ & _ & Ha & _).
  eexists r, _, _, _. split; [exact Hrun|]. split; [reflexivity|].
  rewrite Ha. apply List.Forall_forall. intros a Hin.
  apply In_firstn, in_map_iff in Hin as (j & <- & _). cbn [fst snd].
  assert (Hv : 0 <= valor_at randint NUM_ELEMENTOS j < NUM_ELEMENTOS).
  { unfold valor_at.
    pose proof (Hrand j 0 (NUM_ELEMENTOS - 1) ltac:(lia)). lia. }
  split; [exact Hv|]. split.
  - apply range_of_contains. exact Hv.
  - apply dict_fromkeys_contains, range_iter_range_of. exact Hv.
Qed.

Lemma sampled_values_are_members_witness :
  (forall k, Z.of_nat k <= Z.of_nat (S k)) /\
  (forall (k : nat) a b, a <= b -> a <= a <= b) /\
  1 <= 100 /\ 1 <= 4 /\ 4 <= 41 /\ 0 <= 5 /\
  exists r w lista_range dicionario,
    executar_experimento_por_blocos Z.of_nat (fun _ a _ => a) 100 41 4 5 world0
      = (Ok r, w) /\
    criar_estruturas 100 = Ok (lista_range, dicionario) /\
    List.Forall (fun a : Amostra =>
                   0 <= fst (fst a) < 100 /\
                   range_contains (fst (fst a)) lista_range = true /\
                   dict_contains (fst (fst a)) dicionario = true)
      (Saida.amostras r).
Proof.
  assert (H0 : forall k, Z.of_nat k <= Z.of_nat (S k)) by (intros k; lia).
  assert (Hr : forall (k : nat) a b, a <= b -> a <= a <= b) by (intros; lia).
  assert (H1 : 1 <= 100) by lia. assert (H2 : 1 <= 4) by lia.
  assert (H3 : 4 <= 41) by lia. assert (H4 : 0 <= 5) by lia.
  repeat (split; [assumption|]).
  exact (sampled_values_are_members Z.of_nat (fun _ a _ => a) 100 41 4 5
           H0 Hr H1 H2 H3 H4).
Defined.

(** ** Global extremes and block extremes *)

(** What a returned summary says about its argument. *)
Lemma calcular_estatisticas_simples_fields (l : list Z) (st : Est.t) :
  calcular_estatisticas_simples l = Ok st ->
  l <> [] /\
  Est.media st = Spec.mean l /\
  exists mn mx,
    py_min l = Ok mn /\ py_max l = Ok mx /\
    Est.min st = IZR mn /\ Est.max st = IZR mx.
Proof.
  intros H.
  assert (Hne : l <> []) by (intros ->; discriminate H).
  destruct (calcular_estatisticas_simples_spec l Hne)
    as (mn & mx & Hmn & Hmx & E).
  rewrite E in H. injection H as <-. cbn [Est.media Est.min Est.max].
  split; [exact Hne|]. split; [reflexivity|].
  exists mn, mx. repeat split; assumption.
Qed.

Lemma Forall2_In_r {A B} (P : A -> B -> Prop) (la : list A) (lb : list B)
    (b : B) :
  Forall2 P la lb -> In b lb -> exists a, In a la /\ P a b.
Proof.
  induction 1 as [|a0 b0 la lb H0 _ IH]; intros Hin; [destruct Hin|].
  destruct Hin as [<-|Hin].
  - exists a0. split; [now left | exact H0].
  - destruct (IH Hin) as (a & Ha & HP). exists a. split; [now right | exact HP].
Qed.

Lemma Forall2_In_l {A B} (P : A -> B -> Prop) (la : list A) (lb : list B)
    (a : A) :
  Forall2 P la lb -> In a la -> exists b, In b lb /\ P a b.
Proof.
  induction 1 as [|a0 b0 la lb H0 _ IH]; intros Hin; [destruct Hin|].
  destruct Hin as [<-|Hin].
  - exists b0. split; [now left | exact H0].
  - destruct (IH Hin) as (b & Hb & HP). exists b. split; [now right | exact HP].
Qed.

(** One sequence of timings cut into [nb] blocks of [bs]: the extremes of
    the whole against the extremes of the blocks. *)
Section Extremes.
Variable f : nat -> Z.
Variables nb bs : nat.

Let whole := map f (seq 0 (nb * bs)).
Let block (i : nat) := map f (seq (i * bs) bs).

Lemma block_in_whole (i : nat) (z : Z) :
  (i < nb)%nat -> In z (block i) -> In z whole.
Proof.
  intros Hi Hz. apply in_map_iff in Hz as (j & <- & Hj).
  apply in_map. apply in_seq in Hj. apply in_seq. nia.
Qed.

Lemma whole_in_block (z : Z) :
  In z whole -> exists i, (i < nb)%nat /\ In z (block i).
Proof.
  intros Hz. apply in_map_iff in Hz as (j & <- & Hj). apply in_seq in Hj.
  assert (Hbs : (0 < bs)%nat) by (destruct bs; [lia | lia]).
  exists (j / bs)%nat. split.
  - apply Nat.Div0.div_lt_upper_bound. lia.
  - apply in_map, in_seq.
    pose proof (Nat.Div0.mul_div_le j bs).
    pose proof (Nat.mul_succ_div_gt j bs ltac:(lia)). lia.
Qed.

Lemma block_min_above (i : nat) (g m : Z) :
  (i < nb)%nat -> py_min whole = Ok g -> py_min (block i) = Ok m -> g <= m.
Proof.
  intros Hi Hg Hm. apply (py_min_lower _ _ Hg).
  apply (block_in_whole i _ Hi). exact (py_min_In _ _ Hm).
Qed.

Lemma block_max_below (i : nat) (g m : Z) :
  (i < nb)%nat -> py_max whole = Ok g -> py_max (block i) = Ok m -> m <= g.
Proof.
  intros Hi Hg Hm. apply (py_max_upper _ _ Hg).
  apply (block_in_whole i _ Hi). exact (py_max_In _ _ Hm).
Qed.

Lemma whole_min_attained (g : Z) :
  py_min whole = Ok g ->
  exists i, (i < nb)%nat /\
    forall m, py_min (block i) = Ok m -> m = g.
Proof.
  intros Hg. destruct (whole_in_block g (py_min_In _ _ Hg)) as (i & Hi & Hin).
  exists i. split; [exact Hi|]. intros m Hm. apply Z.le_antisymm.
  - exact (py_min_lower _ _ Hm g Hin).
  - exact (block_min_above i g m Hi Hg Hm).
Qed.

Lemma whole_max_attained (g : Z) :
  py_max whole = Ok g ->
  exists i, (i < nb)%nat /\
    forall m, py_max (block i) = Ok m -> m = g.
Proof.
  intros Hg. destruct (whole_in_block g (py_max_In _ _ Hg)) as (i & Hi & Hin).
  exists i. split; [exact Hi|]. intros m Hm. apply Z.le_antisymm.
  - exact (block_max_below i g m Hi Hg Hm).
  - exact (py_max_upper _ _ Hm g Hin).
Qed.
End Extremes.

(** X17.  In a run the extremes of the global summaries are those of the
    block records: for the range timings and for the dict timings, the
    minimum and the maximum of every block lie between the global minimum and
    maximum, and the global minimum and the global maximum are each the
    minimum, respectively the maximum, of some block. *)
Theorem global_and_block_extremes (perf_counter_ns : nat -> Z)
    (randint : nat -> Z -> Z -> Z)
    (NUM_ELEMENTOS NUM_BUSCAS N_BLOCKS TAMANHO_SAMPLE : Z) :
  (forall k, perf_counter_ns k <= perf_counter_ns (S k)) ->
  1 <= NUM_ELEMENTOS -> 1 <= N_BLOCKS -> N_BLOCKS <= NUM_BUSCAS ->
  0 <= TAMANHO_SAMPLE ->
  exists r w,
    executar_experimento_por_blocos perf_counter_ns randint
      NUM_ELEMENTOS NUM_BUSCAS N_BLOCKS TAMANHO_SAMPLE world0 = (Ok r, w) /\
    List.Forall
      (fun b =>
         (Est.min (Saida.stats_glob_lista r) <= Bloco.lista_min b)%R /\
         (Bloco.lista_max b <= Est.max (Saida.stats_glob_lista r))%R /\
         (Est.min (Saida.stats_glob_dict r) <= Bloco.dict_min b)%R /\
         (Bloco.dict_max b <= Est.max (Saida.stats_glob_dict r))%R)
      (Saida.estatisticas_blocos r) /\
    List.Exists (fun b => Bloco.lista_min b = Est.min (Saida.stats_glob_lista r))
      (Saida.estatisticas_blocos r) /\
    List.Exists (fun b => Bloco.lista_max b = Est.max (Saida.stats_glob_lista r))
      (Saida.estatisticas_blocos r) /\
    List.Exists (fun b => Bloco.dict_min b = Est.min (Saida.stats_glob_dict r))
      (Saida.estatisticas_blocos r) /\
    List.Exists (fun b => Bloco.dict_max b = Est.max (Saida.stats_glob_dict r))
      (Saida.estatisticas_blocos r).
Proof.
  intros Hmono HE HN Hle HS.
  destruct (executar_run perf_counter_ns randint NUM_ELEMENTOS NUM_BUSCAS
              N_BLOCKS TAMANHO_SAMPLE Hmono HN ltac:(lia) HE HS Hle)
    as (r & Hrun & Hl & Hd & _ & Hrecs & Hgl & Hgd).
  set (bs := Z.to_nat (NUM_BUSCAS / N_BLOCKS)) in *.
  set (nb := Z.to_nat N_BLOCKS) in *.
  set (fl := fun j => Z.min (tl_at perf_counter_ns j) UINT32_MAX) in *.
  set (fd := fun j => Z.min (td_at perf_counter_ns j) UINT32_MAX) in *.
  eexists r, _. split; [exact Hrun|].
  apply calcular_estatisticas_simples_fields in Hgl
    as (_ & _ & gmn & gmx & Hgmn & Hgmx & -> & ->).
  apply calcular_estatisticas_simples_fields in Hgd
    as (_ & _ & dmn & dmx & Hdmn & Hdmx & -> & ->).
  rewrite Hl in Hgmn, Hgmx. rewrite Hd in Hdmn, Hdmx.
  assert (Hrec : forall i, (i < nb)%nat ->
            exists b sl sd,
              In b (Saida.estatisticas_blocos r) /\
              calcular_estatisticas_simples (map fl (seq (i * bs) bs)) = Ok sl /\
              calcular_estatisticas_simples (map fd (seq (i * bs) bs)) = Ok sd /\
              b = bloco_stats_de (Z.of_nat i) sl sd).
  { intros i Hi.
    destruct (Forall2_In_l _ _ _ i Hrecs) as (b & Hb & sl & sd & Hsl & Hsd & E).
    - apply in_seq. lia.
    - exists b, sl, sd. repeat split; assumption. }
  split; [|repeat split].
  - apply List.Forall_forall. intros b Hb.
    destruct (Forall2_In_r _ _ _ _ Hrecs Hb)
      as (i & Hi & sl & sd & Hsl & Hsd & ->).
    apply in_seq in Hi.
    apply calcular_estatisticas_simples_fields in Hsl
      as (_ & _ & bmn & bmx & Hbmn & Hbmx & Ebmn & Ebmx).
    apply calcular_estatisticas_simples_fields in Hsd
      as (_ & _ & cmn & cmx & Hcmn & Hcmx & Ecmn & Ecmx).
    cbn [bloco_stats_de Bloco.lista_min Bloco.lista_max Bloco.dict_min
         Bloco.dict_max].
    rewrite Ebmn, Ebmx, Ecmn, Ecmx.
    repeat split; apply IZR_le.
    + apply (block_min_above fl nb bs i); [lia | assumption..].
    + apply (block_max_below fl nb bs i); [lia | assumption..].
    + apply (block_min_above fd nb bs i); [lia | assumption..].
    + apply (block_max_below fd nb bs i); [lia | assumption..].
  - destruct (whole_min_attained fl nb bs gmn Hgmn) as (i & Hi & Hat).
    destruct (Hrec i Hi) as (b & sl & sd & Hb & Hsl & _ & ->).
    apply List.Exists_exists. eexists. split; [exact Hb|].
    apply calcular_estatisticas_simples_fields in Hsl
      as (_ & _ & bmn & bmx & Hbmn & _ & Ebmn & _).
    cbn [bloco_stats_de Bloco.lista_min]. rewrite Ebmn. f_equal.
    exact (Hat bmn Hbmn).
  - destruct (whole_max_attained fl nb bs gmx Hgmx) as (i & Hi & Hat).
    destruct (Hrec i Hi) as (b & sl & sd & Hb & Hsl & _ & ->).
    apply List.Exists_exists. eexists. split; [exact Hb|].
    apply calcular_estatisticas_simples_fields in Hsl
      as (_ & _ & bmn & bmx & _ & Hbmx & _ & Ebmx).
    cbn [bloco_stats_de Bloco.lista_max]. rewrite Ebmx. f_equal.
    exact (Hat bmx Hbmx).
  - destruct (whole_min_attained fd nb bs dmn Hdmn) as (i & Hi & Hat).
    destruct (Hrec i Hi) as (b & sl & sd & Hb & _ & Hsd & ->).
    apply List.Exists_exists. eexists. split; [exact Hb|].
    apply calcular_estatisticas_simples_fields in Hsd
      as (_ & _ & bmn & bmx & Hbmn & _ & Ebmn & _).
    cbn [bloco_stats_de Bloco.dict_min]. rewrite Ebmn. f_equal.
    exact (Hat bmn Hbmn).
  - destruct (whole_max_attained fd nb bs dmx Hdmx) as (i & Hi & Hat).
    destruct (Hrec i Hi) as (b & sl & sd & Hb & _ & Hsd & ->).
    apply List.Exists_exists. eexists. split; [exact Hb|].
    apply calcular_estatisticas_simples_fields in Hsd
      as (_ & _ & bmn & bmx & _ & Hbmx & _ & Ebmx).
    cbn [bloco_stats_de Bloco.dict_max]. rewrite Ebmx. f_equal.
    exact (Hat bmx Hbmx).
Qed.

Lemma global_and_block_extremes_witness :
  (forall k, Z.of_nat k <= Z.of_nat (S k)) /\
  1 <= 100 /\ 1 <= 4 /\ 4 <= 41 /\ 0 <= 5 /\
  exists r w,
    executar_experimento_por_blocos Z.of_nat (fun _ a _ => a) 100 41 4 5 world0
      = (Ok r, w) /\
    List.Forall
      (fun b =>
         (Est.min (Saida.stats_glob_lista r) <= Bloco.lista_min b)%R /\
         (Bloco.lista_max b <= Est.max (Saida.stats_glob_lista r))%R /\
         (Est.min (Saida.stats_glob_dict r) <= Bloco.dict_min b)%R /\
         (Bloco.dict_max b <= Est.max (Saida.stats_glob_dict r))%R)
      (Saida.estatisticas_blocos r) /\
    List.Exists (fun b => Bloco.lista_min b = Est.min (Saida.stats_glob_lista r))
      (Saida.estatisticas_blocos r) /\
    List.Exists (fun b => Bloco.lista_max b = Est.max (Saida.stats_glob_lista r))
      (Saida.estatisticas_blocos r) /\
    List.Exists (fun b => Bloco.dict_min b = Est.min (Saida.stats_glob_dict r))
      (Saida.estatisticas_blocos r) /\
    List.Exists (fun b => Bloco.dict_max b = Est.max (Saida.stats_glob_dict r))
      (Saida.estatisticas_blocos r).
Proof.
  assert (H0 : forall k, Z.of_nat k <= Z.of_nat (S k)) by (intros k; lia).
  assert (H1 : 1 <= 100) by lia. assert (H2 : 1 <= 4) by lia.
  assert (H3 : 4 <= 41) by lia. assert (H4 : 0 <= 5) by lia.
  repeat (split; [assumption|]).
  exact (global_and_block_extremes Z.of_nat (fun _ a _ => a) 100 41 4 5
           H0 H1 H2 H3 H4).
Defined.

(** ** The quantile at its two ends *)

Lemma sorted_first_is_min (l : list Z) (mn : Z) :
  py_min l = Ok mn -> nthZ (sorted l) 0 = mn.
Proof.
  intros Hmn.
  assert (Hne : l <> []) by (intros ->; discriminate Hmn).
  assert (Hlen : 0 < Z.of_nat (length l)) by (destruct l; [congruence | simpl; lia]).
  apply Z.le_antisymm.
  - pose proof (py_min_In _ _ Hmn) as Hin. apply sorted_In in Hin.
    apply (In_nth _ _ 0) in Hin as (k & Hk & <-).
    rewrite sorted_length in Hk.
    replace (nth k (sorted l) 0) with (nthZ (sorted l) (Z.of_nat k))
      by (unfold nthZ; now rewrite Nat2Z.id).
    apply nthZ_sorted_mono; lia.
  - apply (py_min_lower _ _ Hmn). apply nthZ_sorted_In. lia.
Qed.

Lemma sorted_last_is_max (l : list Z) (mx : Z) :
  py_max l = Ok mx -> nthZ (sorted l) (Z.of_nat (length l) - 1) = mx.
Proof.
  intros Hmx.
  assert (Hne : l <> []) by (intros ->; discriminate Hmx).
  assert (Hlen : 0 < Z.of_nat (length l)) by (destruct l; [congruence | simpl; lia]).
  apply Z.le_antisymm.
  - apply (py_max_upper _ _ Hmx). apply nthZ_sorted_In. lia.
  - pose proof (py_max_In _ _ Hmx) as Hin. apply sorted_In in Hin.
    apply (In_nth _ _ 0) in Hin as (k & Hk & <-).
    rewrite sorted_length in Hk.
    replace (nth k (sorted l) 0) with (nthZ (sorted l) (Z.of_nat k))
      by (unfold nthZ; now rewrite Nat2Z.id).
    apply nthZ_sorted_mono; lia.
Qed.

(** X18.  At its two ends the nested quantile function returns the extremes
    of the list: the quantile 0 of the sorted copy is the minimum that
    [min] returns, the quantile 1 the maximum that [max] returns. *)
Theorem quantil_endpoints (valores : list Z) :
  valores <> [] ->
  exists mn mx,
    py_min valores = Ok mn /\ py_max valores = Ok mx /\
    quantil (Z.of_nat (length valores)) (sorted valores) 0 = Ok (IZR mn) /\
    quantil (Z.of_nat (length valores)) (sorted valores) 1 = Ok (IZR mx).
Proof.
  intros Hne.
  destruct (py_min_ok valores Hne) as [mn Hmn].
  destruct (py_max_ok valores Hne) as [mx Hmx].
  exists mn, mx. split; [exact Hmn|]. split; [exact Hmx|].
  assert (Hs : sorted valores <> []).
  { intros E. apply (f_equal (@length Z)) in E.
    rewrite sorted_length in E. destruct valores; [congruence | discriminate E]. }
  pose proof (quantil_ok (sorted valores) 0 Hs ltac:(lra)) as H0.
  pose proof (quantil_ok (sorted valores) 1 Hs ltac:(lra)) as H1.
  rewrite sorted_length in H0, H1. rewrite H0, H1.
  split; f_equal.
  - rewrite (spec_quantile_at _ _ 0) by (rewrite Rmult_0_l; lra).
    rewrite (sorted_first_is_min _ _ Hmn). lra.
  - rewrite (spec_quantile_at _ _ (Z.of_nat (length (sorted valores)) - 1))
      by lra.
    rewrite sorted_length, (sorted_last_is_max _ _ Hmx). lra.
Qed.

Lemma quantil_endpoints_witness :
  [3; 1; 2] <> [] /\
  exists mn mx,
    py_min [3; 1; 2] = Ok mn /\ py_max [3; 1; 2] = Ok mx /\
    quantil (Z.of_nat (length [3; 1; 2])) (sorted [3; 1; 2]) 0 = Ok (IZR mn) /\
    quantil (Z.of_nat (length [3; 1; 2])) (sorted [3; 1; 2]) 1 = Ok (IZR mx).
Proof.
  assert (H : [3; 1; 2] <> []) by discriminate.
  split; [exact H | exact (quantil_endpoints [3; 1; 2] H)].
Defined.

(** ** The two structures of the factory *)

(** X19.  The two structures returned hold the same number of elements,
    [num_elementos] (none when it is zero or negative), and every value stored
    in the dict is [True]. *)
Theorem criar_estruturas_sizes (num_elementos : Z) :
  exists lista_range dicionario,
    criar_estruturas num_elementos = Ok (lista_range, dicionario) /\
    length (range_iter lista_range) = Z.to_nat num_elementos /\
    size dicionario = Z.to_nat num_elementos /\
    (forall v b, dicionario !! v = Some b -> b = true).
Proof.
  eexists _, _. split; [reflexivity|].
  unfold range_iter, range_of, dict_fromkeys. cbn [start stop].
  rewrite Z.sub_0_r. split; [apply length_seqZ|]. split.
  - rewrite map_size_list_to_map.
    + rewrite length_fmap. apply length_seqZ.
    + rewrite <- list_fmap_compose.
      rewrite (list_fmap_ext _ Datatypes.id (seqZ 0 num_elementos))
        by reflexivity.
      rewrite list_fmap_id. apply NoDup_seqZ.
  - intros v b Hb. apply elem_of_list_to_map_2 in Hb.
    apply list_elem_of_fmap in Hb as (k & Heq & _).
    now injection Heq as _ ->.
Qed.

(** ** A clock that goes backwards *)

(** An iteration one of whose probes measures a negative elapsed time: the
    cut at 2^32 - 1 lets the negative value through, and the append to the
    unsigned array raises. *)
Lemma iteracao_negative (perf_counter_ns : nat -> Z)
    (randint : nat -> Z -> Z -> Z) (NUM_ELEMENTOS TAMANHO_SAMPLE : Z)
    (lr : range) (d : gmap Z bool) (c : Coletores) (k : nat) (e : list Z) :
  1 <= NUM_ELEMENTOS ->
  tl_at perf_counter_ns k < 0 \/ td_at perf_counter_ns k < 0 ->
  iteracao perf_counter_ns randint NUM_ELEMENTOS TAMANHO_SAMPLE lr d c
    (mk_world (4 * k) k e)
  = (Raise OverflowError, mk_world (4 * S k) (S k) e).
Proof.
  intros Hn Hneg.
  unfold iteracao, medir_busca_lista, medir_busca_dict, time_perf_counter_ns,
    random_randint, lift, mbind, M_bind, mret, M_ret.
  cbn [rand_draws clock_reads estruturas].
  destruct (Z.ltb_spec (NUM_ELEMENTOS - 1) 0) as [H|_]; [lia|].
  cbv beta iota. cbn [rand_draws clock_reads estruturas].
  fold (tl_at perf_counter_ns k) (td_at perf_counter_ns k).
  replace (4 * S k)%nat with (S (S (S (S (4 * k))))) by lia.
  destruct (Z.lt_ge_cases (tl_at perf_counter_ns k) 0) as [Hl|Hl].
  - unfold array_append at 1.
    destruct (Z.leb_spec 0 (Z.min (tl_at perf_counter_ns k) (2 ^ 32 - 1)))
      as [H|_]; [lia|].
    reflexivity.
  - rewrite (array_append_clamped _ (tl_at perf_counter_ns k)) by exact Hl.
    cbv beta iota. unfold array_append at 1.
    destruct (Z.leb_spec 0 (Z.min (td_at perf_counter_ns k) (2 ^ 32 - 1)))
      as [H|_]; [lia|].
    reflexivity.
Qed.

(** X20.  The cut at 2^32 - 1 bounds the stored times from above only.  If
    the clock goes backwards during one of the two probes of the first query
    of a run (valid configuration, at least one query per block), that run
    stops with [OverflowError] right after the two probes: four clock
    readings, one query drawn, no output. *)
Theorem negative_elapsed_time_overflows (perf_counter_ns : nat -> Z)
    (randint : nat -> Z -> Z -> Z)
    (NUM_ELEMENTOS NUM_BUSCAS N_BLOCKS TAMANHO_SAMPLE : Z) :
  1 <= NUM_ELEMENTOS -> 1 <= N_BLOCKS -> N_BLOCKS <= NUM_BUSCAS ->
  0 <= TAMANHO_SAMPLE ->
  perf_counter_ns 1%nat < perf_counter_ns 0%nat \/
  perf_counter_ns 3%nat < perf_counter_ns 2%nat ->
  executar_experimento_por_blocos perf_counter_ns randint
    NUM_ELEMENTOS NUM_BUSCAS N_BLOCKS TAMANHO_SAMPLE world0
  = (Raise OverflowError, mk_world 4 1 [NUM_ELEMENTOS]).
Proof.
  intros HE HN Hle HS Hneg. unfold executar_experimento_por_blocos.
  destruct (Z.leb_spec N_BLOCKS 0); [lia|].
  destruct (Z.leb_spec NUM_BUSCAS 0); [lia|].
  destruct (Z.leb_spec NUM_ELEMENTOS 0); [lia|].
  destruct (Z.ltb_spec TAMANHO_SAMPLE 0); [lia|].
  unfold mbind at 1. unfold M_bind. unfold criar_estruturas_call at 1.
  unfold criar_estruturas. cbn [world0 clock_reads rand_draws estruturas app].
  pose proof (Z.div_str_pos NUM_BUSCAS N_BLOCKS ltac:(lia)) as Hbs.
  destruct (Z.to_nat N_BLOCKS) as [|nb] eqn:En; [lia|].
  cbn [blocos_loop].
  erewrite M_bind_raise; [reflexivity|].
  erewrite M_bind_raise; [reflexivity|].
  unfold bloco_body.
  erewrite M_bind_raise; [reflexivity|].
  destruct (Z.to_nat (NUM_BUSCAS / N_BLOCKS)) as [|m] eqn:Em; [lia|].
  cbn [buscas_loop].
  erewrite M_bind_raise; [reflexivity|].
  apply (iteracao_negative perf_counter_ns randint NUM_ELEMENTOS
           TAMANHO_SAMPLE _ _ _ 0%nat [NUM_ELEMENTOS] HE).
  unfold tl_at, td_at. change (4 * 0)%nat with 0%nat. lia.
Qed.

Lemma negative_elapsed_time_overflows_witness :
  (1 <= 100 /\ 1 <= 4 /\ 4 <= 41 /\ 0 <= 5 /\
   (- Z.of_nat 1 < - Z.of_nat 0 \/ - Z.of_nat 3 < - Z.of_nat 2)) /\
  executar_experimento_por_blocos (fun k => - Z.of_nat k) (fun _ a _ => a)
    100 41 4 5 world0
  = (Raise OverflowError, mk_world 4 1 [100]).
Proof.
  assert (H1 : 1 <= 100) by lia. assert (H2 : 1 <= 4) by lia.
  assert (H3 : 4 <= 41) by lia. assert (H4 : 0 <= 5) by lia.
  assert (H5 : - Z.of_nat 1 < - Z.of_nat 0 \/ - Z.of_nat 3 < - Z.of_nat 2)
    by (left; lia).
  split; [repeat split; assumption|].
  exact (negative_elapsed_time_overflows (fun k => - Z.of_nat k)
           (fun _ a _ => a) 100 41 4 5 H1 H2 H3 H4 H5).
Defined.
